(** * EduResult: record consolidation and extraction pipeline

    A shallow embedding of [src/index.tsx]: the grade engine
    ([calculateGrade]), the record normalizer ([processStudentData]), the
    record store handlers of [App], the start-up load from [localStorage]
    and the extraction path ([extractStudentDetailsFromImage],
    [captureAndScan]); then the handlers and the form of [AdminDashboard],
    the exam list of [Landing], the login, the session and the navigation
    between the pages, and the save effect for the exams.

    Conventions of the embedding.

    - A JavaScript number is [JsNum]: a finite value, carried as the exact
      rational it denotes, or one of [Infinity], [-Infinity], [NaN].
      Arithmetic on finite values is exact: binary64 rounding and overflow
      are not modelled, and the two zeros are one.  On whole numbers whose
      magnitudes add up to at most 10^14, as whole marks between 0 and 100
      are, every operation of the program is exact in binary64 as well;
      the theorems that compute a total or a percentage from marks are
      stated on such marks.
    - A JavaScript string is a [string] of bytes; [trim], [toLowerCase],
      the order [sort] puts strings in and the numeric reading of a string
      are the program's on ASCII text (bytes above 127 are neither white
      space nor letters, and are not code units); the theorems that turn
      on them are stated on ASCII text.
    - A value whose TypeScript type is [any], or which the program reads
      without checking ([marks], a parsed response, a parsed stored item),
      is a [JsVal]: [undefined] or a value of parsed JSON, which holds no
      function.  Fields declared [string] in the interfaces are [string]s.
    - A function that can throw returns a [Result]; [crypto.randomUUID()],
      the clock, the storages and the extraction capability are arguments
      of the functions that use them. *)

From Stdlib Require Import ZArith QArith Qround Qabs Lia Lqa Bool.
From Stdlib Require Import String Ascii List.
From Stdlib Require Import DecimalString Sorted Permutation.
From stdpp Require Import base option list gmap strings.

Set Warnings "-register-all".
#[local] Open Scope string_scope.

(* ------------------------------------------------------------------ *)
(** ** Numbers *)

Inductive JsNum : Type :=
| Fin (q : Q)
| PInf
| NInf
| NaN.

(** Numeric equality of two numbers as values ([Fin] up to [Qeq]; this is
    the mathematical identity, not JavaScript's [===], for which [NaN]
    differs from itself). *)
Definition num_eq (a b : JsNum) : Prop :=
  match a, b with
  | Fin x, Fin y => (x == y)%Q
  | PInf, PInf | NInf, NInf | NaN, NaN => True
  | _, _ => False
  end.

Definition num_eqb (a b : JsNum) : bool :=
  match a, b with
  | Fin x, Fin y => Qeq_bool x y
  | PInf, PInf | NInf, NInf | NaN, NaN => true
  | _, _ => false
  end.

(** [a + b]. *)
Definition jadd (a b : JsNum) : JsNum :=
  match a, b with
  | NaN, _ | _, NaN => NaN
  | PInf, NInf | NInf, PInf => NaN
  | PInf, _ | _, PInf => PInf
  | NInf, _ | _, NInf => NInf
  | Fin x, Fin y => Fin (x + y)
  end.

(** [a / d] for a positive integer literal [d] (the program divides by 5). *)
Definition jdiv_lit (a : JsNum) (d : positive) : JsNum :=
  match a with
  | Fin x => Fin (x / (Zpos d # 1))
  | other => other
  end.

(** [a >= b]: false as soon as one side is [NaN]. *)
Definition jge (a b : JsNum) : bool :=
  match a, b with
  | NaN, _ | _, NaN => false
  | PInf, _ => true
  | _, NInf => true
  | _, PInf => false
  | NInf, _ => false
  | Fin x, Fin y => Qle_bool y x
  end.

(** Truthiness of a number: [NaN] and zero are falsy. *)
Definition num_truthy (a : JsNum) : bool :=
  match a with
  | NaN => false
  | Fin x => negb (Qeq_bool x 0)
  | _ => true
  end.

(** [x.toFixed(2)] on a finite [x]: the integer [n] for which [n / 100] is
    closest to [|x|], the larger one on a tie, with the sign of [x] put
    back; [Number(...)] then reads the decimal text as the number it
    writes.  The pair is one function here.  (From 1e21 on, [toFixed]
    prints the number in full and [Number] reads it back; a binary64 value
    that large is a whole number, which [round2] leaves as it is.) *)
Definition round2 (x : Q) : Q :=
  let n := Qfloor (Qabs x * 100 + (1 # 2)) in
  if Qle_bool 0 x then n # 100 else (- n) # 100.

(** [Number(a.toFixed(2))]: a non-finite number prints as its name and is
    read back unchanged. *)
Definition Number_toFixed2 (a : JsNum) : JsNum :=
  match a with
  | Fin x => Fin (round2 x)
  | other => other
  end.

(* ------------------------------------------------------------------ *)
(** ** Strings *)

Definition code (c : ascii) : N := N_of_ascii c.

(** White space and line terminators of ECMAScript, ASCII part: the tab,
    the line feed, the vertical tab, the form feed, the carriage return
    and the space. *)
Definition is_white (c : ascii) : bool :=
  let n := code c in
  ((9 <=? n) && (n <=? 13) || (n =? 32))%N.

Fixpoint trimStart (s : string) : string :=
  match s with
  | String c r => if is_white c then trimStart r else s
  | EmptyString => EmptyString
  end.

Definition str_rev (s : string) : string :=
  string_of_list_ascii (List.rev (list_ascii_of_string s)).

Definition trimEnd (s : string) : string := str_rev (trimStart (str_rev s)).

(** [s.trim()]. *)
Definition trim (s : string) : string := trimEnd (trimStart s).

(** The small letter of a capital from A to Z; any other character is
    left as it is. *)
Definition lower_char (c : ascii) : ascii :=
  let n := code c in
  if ((65 <=? n) && (n <=? 90))%N then ascii_of_N (n + 32) else c.

(** [s.toLowerCase()]. *)
Fixpoint toLowerCase (s : string) : string :=
  match s with
  | String c r => String (lower_char c) (toLowerCase r)
  | EmptyString => EmptyString
  end.

Definition dec_digit (c : ascii) : option N :=
  let n := code c in
  if ((48 <=? n) && (n <=? 57))%N then Some (n - 48)%N else None.

Definition hex_digit (c : ascii) : option N :=
  let n := code c in
  if ((48 <=? n) && (n <=? 57))%N then Some (n - 48)%N
  else if ((97 <=? n) && (n <=? 102))%N then Some (n - 87)%N
  else if ((65 <=? n) && (n <=? 70))%N then Some (n - 55)%N
  else None.

Definition oct_digit (c : ascii) : option N :=
  let n := code c in
  if ((48 <=? n) && (n <=? 55))%N then Some (n - 48)%N else None.

Definition bin_digit (c : ascii) : option N :=
  let n := code c in
  if ((48 <=? n) && (n <=? 49))%N then Some (n - 48)%N else None.

(** Reads the longest run of digits: its value, its length, what follows. *)
Fixpoint read_digits (base : N) (dig : ascii -> option N) (s : string)
  (acc : N) (cnt : nat) : N * nat * string :=
  match s with
  | String c r =>
      match dig c with
      | Some d => read_digits base dig r (acc * base + d)%N (S cnt)
      | None => (acc, cnt, s)
      end
  | EmptyString => (acc, cnt, s)
  end.

(** [m * 10 ^ e] as a rational. *)
Definition scale10 (m : Z) (e : Z) : Q :=
  if (0 <=? e)%Z then (m * 10 ^ e)%Z # 1
  else m # Z.to_pos (10 ^ (- e)).

(** ExponentPart, optional, then the end of the text. *)
Definition exponent_part (s : string) : option Z :=
  match s with
  | EmptyString => Some 0%Z
  | String c r =>
      if ((code c =? 101) || (code c =? 69))%N then
        let '(neg, r1) :=
          match r with
          | String d r' =>
              if (code d =? 45)%N then (true, r')
              else if (code d =? 43)%N then (false, r')
              else (false, r)
          | EmptyString => (false, r)
          end in
        match read_digits 10 dec_digit r1 0 0 with
        | (_, O, _) => None
        | (e, _, EmptyString) =>
            Some (if neg then - Z.of_N e else Z.of_N e)%Z
        | _ => None
        end
      else None
  end.

(** StrUnsignedDecimalLiteral: [Infinity], or digits with an optional
    fraction and exponent, at least one digit before the exponent. *)
Definition unsigned_decimal (s : string) : JsNum :=
  if String.eqb s "Infinity" then PInf else
  let '(ip, ic, r1) := read_digits 10 dec_digit s 0 0 in
  let '(fp, fc, r2) :=
    match r1 with
    | String c r =>
        if (code c =? 46)%N then read_digits 10 dec_digit r 0 0
        else (0%N, O, r1)
    | EmptyString => (0%N, O, r1)
    end in
  if (ic + fc =? 0)%nat then NaN else
  match exponent_part r2 with
  | Some e =>
      Fin (scale10 (Z.of_N (ip * 10 ^ N.of_nat fc + fp))
             (e - Z.of_nat fc))
  | None => NaN
  end.

Definition jneg (a : JsNum) : JsNum :=
  match a with
  | Fin x => Fin (- x)
  | PInf => NInf
  | NInf => PInf
  | NaN => NaN
  end.

(** A literal [0x..], [0o..] or [0b..]: digits of the base to the end. *)
Definition radix_literal (base : N) (dig : ascii -> option N) (s : string)
  : JsNum :=
  match read_digits base dig s 0 0 with
  | (_, O, _) => NaN
  | (v, _, EmptyString) => Fin (Z.of_N v # 1)
  | _ => NaN
  end.

(** [Number(s)] for a string [s] (StringToNumber): white space is trimmed,
    the empty text is 0, anything that is not a numeric literal is [NaN]. *)
Definition StringToNumber (s : string) : JsNum :=
  match trim s with
  | EmptyString => Fin 0
  | String c r as t =>
      if (code c =? 45)%N then jneg (unsigned_decimal r)
      else if (code c =? 43)%N then unsigned_decimal r
      else
        match r with
        | String x r' =>
            if (code c =? 48)%N && ((code x =? 120) || (code x =? 88))%N
            then radix_literal 16 hex_digit r'
            else if (code c =? 48)%N && ((code x =? 111) || (code x =? 79))%N
            then radix_literal 8 oct_digit r'
            else if (code c =? 48)%N && ((code x =? 98) || (code x =? 66))%N
            then radix_literal 2 bin_digit r'
            else unsigned_decimal t
        | EmptyString => unsigned_decimal t
        end
  end.

(* ------------------------------------------------------------------ *)
(** ** Values *)

(** The values a parsed JSON text or an unchecked field can hold.  An array
    carries its elements and, once the scanner has assigned one, its
    [examName]: the only named property the program puts on a parsed
    value. *)
Inductive JsVal : Type :=
| VUndef
| VNull
| VBool (b : bool)
| VNum (n : JsNum)
| VStr (s : string)
| VArr (elems : list JsVal) (examName : option string)
| VObj (props : gmap string JsVal).

Definition truthy (v : JsVal) : bool :=
  match v with
  | VUndef | VNull => false
  | VBool b => b
  | VNum n => num_truthy n
  | VStr s => negb (String.eqb s "")
  | VArr _ _ | VObj _ => true
  end.

(** [a || b]. *)
Definition js_or (a b : JsVal) : JsVal := if truthy a then a else b.

Inductive Error : Type :=
| TypeError
| SyntaxError
| TransportError.

Inductive Result (A : Type) : Type :=
| Ok (a : A)
| Throw (e : Error).
Arguments Ok {A} a.
Arguments Throw {A} e.

Definition bind {A B : Type} (r : Result A) (k : A -> Result B) : Result B :=
  match r with
  | Ok a => k a
  | Throw e => Throw e
  end.

Notation "'try!' x := r 'in' k" := (bind r (fun x => k))
  (at level 10, x name, r at level 100, k at level 200).

(** Whether a value can be converted to a primitive.  A parsed object has no
    function among its properties: when it has a [toString] of its own, the
    inherited one is hidden and the conversion throws.  An array is joined
    from the texts of its elements. *)
Fixpoint converts (v : JsVal) : bool :=
  match v with
  | VObj m => negb (bool_decide (is_Some (m !! "toString")))
  | VArr l _ => forallb converts l
  | _ => true
  end.

(** [Number(v)] for the only element [v] of an array: the array is first
    joined into a string, in which [null] and [undefined] are empty, a
    boolean is its name and a number is its own text. *)
Fixpoint element_to_number (v : JsVal) : JsNum :=
  match v with
  | VUndef | VNull => Fin 0
  | VBool _ => NaN
  | VNum n => n
  | VStr s => StringToNumber s
  | VArr [] _ => Fin 0
  | VArr [x] _ => element_to_number x
  | VArr _ _ => NaN
  | VObj _ => NaN
  end.

(** [Number(v)] (ToNumber).  An array of two or more elements joins into a
    text with a comma, which is no number; an object reads as the text
    [[object Object]], which is no number either. *)
Definition ToNumber (v : JsVal) : Result JsNum :=
  if converts v then
    Ok match v with
       | VUndef => NaN
       | VNull => Fin 0
       | VBool b => if b then Fin 1 else Fin 0
       | VNum n => n
       | VStr s => StringToNumber s
       | VArr _ _ => element_to_number v
       | VObj _ => NaN
       end
  else Throw TypeError.

(** [n || 0] on a number. *)
Definition num_or_zero (n : JsNum) : JsNum :=
  if num_truthy n then n else Fin 0.

Fixpoint chars (s : string) : list JsVal :=
  match s with
  | String c r => VStr (String c EmptyString) :: chars r
  | EmptyString => []
  end.

(** [Object.values(v)]: throws on [undefined] and [null]; a number or a
    boolean has no own property; a string yields its characters.  The order
    of an object's properties is the map's, not the insertion order: the
    program only sums them. *)
Definition Object_values (v : JsVal) : Result (list JsVal) :=
  match v with
  | VUndef | VNull => Throw TypeError
  | VBool _ | VNum _ => Ok []
  | VStr s => Ok (chars s)
  | VArr l e =>
      Ok (l ++ match e with Some n => [VStr n] | None => [] end)%list
  | VObj m => Ok (map_to_list m).*2
  end.

(* ------------------------------------------------------------------ *)
(** ** Grade engine *)

Definition calculateGrade (percentage : JsNum) : string :=
  if jge percentage (Fin 90) then "A+"
  else if jge percentage (Fin 80) then "A"
  else if jge percentage (Fin 70) then "B"
  else if jge percentage (Fin 55) then "C"
  else if jge percentage (Fin 35) then "D"
  else "F".

(* ------------------------------------------------------------------ *)
(** ** Data model *)

Module Student.
Record t : Type := mk {
  id : string;
  name : string;
  rollNo : string;
  className : string;
  examName : string;
  marks : JsVal;
  total : JsNum;
  percentage : JsNum;
  grade : string
}.
End Student.

Module Exam.
Record t : Type := mk {
  id : string;
  name : string;
  createdAt : string
}.
End Exam.

(** [Partial<Student>]: every field may be absent.  [marks] is read without
    a check, so a present [marks] is any value. *)
Module Partial.
Record t : Type := mk {
  id : option string;
  name : option string;
  rollNo : option string;
  className : option string;
  examName : option string;
  marks : option JsVal;
  total : option JsNum;
  percentage : option JsNum;
  grade : option string
}.
End Partial.

(** A [Student] used where a [Partial<Student>] is expected. *)
Definition as_partial (s : Student.t) : Partial.t :=
  Partial.mk (Some (Student.id s)) (Some (Student.name s))
    (Some (Student.rollNo s)) (Some (Student.className s))
    (Some (Student.examName s)) (Some (Student.marks s))
    (Some (Student.total s)) (Some (Student.percentage s))
    (Some (Student.grade s)).

(** [x || d] for an optional string [x]: absent and empty are falsy. *)
Definition str_or (x : option string) (d : string) : string :=
  match x with
  | Some s => if String.eqb s "" then d else s
  | None => d
  end.

(** [x || d] for an optional value [x]. *)
Definition val_or (x : option JsVal) (d : JsVal) : JsVal :=
  match x with
  | Some v => js_or v d
  | None => d
  end.

Definition subjects : list string :=
  ["math"; "science"; "english"; "history"; "computer"].

(** [{ math: 0, science: 0, english: 0, history: 0, computer: 0 }]. *)
Definition zero_marks : JsVal :=
  VObj (<["math" := VNum (Fin 0)]> (<["science" := VNum (Fin 0)]>
       (<["english" := VNum (Fin 0)]> (<["history" := VNum (Fin 0)]>
       (<["computer" := VNum (Fin 0)]> ∅))))).

(* ------------------------------------------------------------------ *)
(** ** Record normalizer *)

(** The reducer of [processStudentData]: [(a, b) => a + (Number(b) || 0)]. *)
Definition add_mark (a : JsNum) (b : JsVal) : Result JsNum :=
  try! n := ToNumber b in Ok (jadd a (num_or_zero n)).

(** [l.reduce(f, acc)] for a reducer that can throw. *)
Fixpoint reduce (f : JsNum -> JsVal -> Result JsNum) (l : list JsVal)
  (acc : JsNum) : Result JsNum :=
  match l with
  | [] => Ok acc
  | x :: r => try! acc' := f acc x in reduce f r acc'
  end.

(** [processStudentData(data)]; [uuid] is what [crypto.randomUUID()] returns
    when it is called.  The spread [...data] copies the nine fields of
    [data], each of which the literal then overrides. *)
Definition processStudentData (uuid : string) (data : Partial.t)
  : Result Student.t :=
  let m := val_or (Partial.marks data) zero_marks in
  try! vals := Object_values m in
  try! total := reduce add_mark vals (Fin 0) in
  let percentage := Number_toFixed2 (jdiv_lit total 5) in
  Ok (Student.mk
        (str_or (Partial.id data) uuid)
        (str_or (Partial.name data) "")
        (str_or (Partial.rollNo data) "")
        (str_or (Partial.className data) "")
        (str_or (Partial.examName data) "Standard Exam")
        m total percentage (calculateGrade percentage)).

(* ------------------------------------------------------------------ *)
(** ** Record store: the state and handlers of [App] *)

Module App.
Record state : Type := mk {
  page : string;
  isAdmin : bool;
  students : list Student.t;
  exams : list Exam.t;
  selected : option Student.t
}.
End App.

Definition setStudents (l : list Student.t) (a : App.state) : App.state :=
  App.mk (App.page a) (App.isAdmin a) l (App.exams a) (App.selected a).

Definition setExams (l : list Exam.t) (a : App.state) : App.state :=
  App.mk (App.page a) (App.isAdmin a) (App.students a) l (App.selected a).

Definition setSelected (s : Student.t) (a : App.state) : App.state :=
  App.mk (App.page a) (App.isAdmin a) (App.students a) (App.exams a) (Some s).

Definition setPage (p : string) (a : App.state) : App.state :=
  App.mk p (App.isAdmin a) (App.students a) (App.exams a) (App.selected a).

(** [x === y] for a string [x] and a string or [undefined] [y]. *)
Definition str_strict_eq (x : string) (y : option string) : bool :=
  match y with
  | Some n => String.eqb x n
  | None => false
  end.

Definition onAddStudent (s : Student.t) (a : App.state) : App.state :=
  setStudents (App.students a ++ [s])%list a.

Definition onUpdateStudent (s : Student.t) (a : App.state) : App.state :=
  setStudents
    (List.map (fun st => if String.eqb (Student.id st) (Student.id s)
                         then s else st) (App.students a)) a.

(** [confirmed] is the answer to the [confirm] dialog. *)
Definition onDeleteStudent (confirmed : bool) (id : string) (a : App.state)
  : App.state :=
  if confirmed
  then setStudents
         (List.filter (fun s => negb (String.eqb (Student.id s) id))
            (App.students a)) a
  else a.

Definition onAddExam (uuid now n : string) (a : App.state) : App.state :=
  setExams (App.exams a ++ [Exam.mk uuid n now])%list a.

Definition onDeleteExam (id : string) (a : App.state) : App.state :=
  let ex := List.find (fun e => String.eqb (Exam.id e) id) (App.exams a) in
  let a1 :=
    setExams
      (List.filter (fun e => negb (String.eqb (Exam.id e) id)) (App.exams a))
      a in
  setStudents
    (List.filter
       (fun s => negb (str_strict_eq (Student.examName s)
                         (option_map Exam.name ex)))
       (App.students a)) a1.

(** The predicate of the lookup in [onCheckResult]. *)
Definition matches (r ex : string) (st : Student.t) : bool :=
  String.eqb (toLowerCase (trim (Student.rollNo st))) (toLowerCase (trim r))
  && String.eqb (Student.examName st) ex.

(** [onCheckResult(r, ex)]: the new state and the text of the [alert], if
    one is shown. *)
Definition onCheckResult (r ex : string) (a : App.state)
  : App.state * option string :=
  match List.find (matches r ex) (App.students a) with
  | Some s => (setPage "result" (setSelected s a), None)
  | None => (a, Some "Record not found.")
  end.

(** [handleStudentSubmit] of the dashboard: the form's data, with the
    current folder's exam name put first, goes through the normalizer and
    then into the store, as an update when a record is being edited. *)
Definition handleStudentSubmit (uuid : string) (currentExam : option Exam.t)
  (editingId : option string) (formData : Partial.t) (a : App.state)
  : Result App.state :=
  let examName :=
    match option_map Exam.name currentExam with
    | Some n => if String.eqb n "" then Partial.examName formData else Some n
    | None => Partial.examName formData
    end in
  let data :=
    Partial.mk (Partial.id formData) (Partial.name formData)
      (Partial.rollNo formData) (Partial.className formData) examName
      (Partial.marks formData) (Partial.total formData)
      (Partial.percentage formData) (Partial.grade formData) in
  let with_id (i : string) :=
    Partial.mk (Some i) (Partial.name data) (Partial.rollNo data)
      (Partial.className data) (Partial.examName data) (Partial.marks data)
      (Partial.total data) (Partial.percentage data) (Partial.grade data) in
  match editingId with
  | Some i =>
      if String.eqb i ""
      then try! s := processStudentData uuid data in Ok (onAddStudent s a)
      else try! s := processStudentData uuid (with_id i) in
           Ok (onUpdateStudent s a)
  | None => try! s := processStudentData uuid data in Ok (onAddStudent s a)
  end.

(* ------------------------------------------------------------------ *)
(** ** [JSON.parse] *)

Definition json_ws (c : ascii) : bool :=
  let n := code c in
  ((n =? 32) || (n =? 9) || (n =? 10) || (n =? 13))%N.

Fixpoint skip_ws (s : string) : string :=
  match s with
  | String c r => if json_ws c then skip_ws r else s
  | EmptyString => EmptyString
  end.

Fixpoint strip_prefix (p s : string) : option string :=
  match p, s with
  | EmptyString, _ => Some s
  | String a p', String b s' =>
      if Ascii.eqb a b then strip_prefix p' s' else None
  | _, EmptyString => None
  end.

(** The optional exponent of a JSON number and what follows it. *)
Definition json_exponent (s : string) : option (Z * string) :=
  match s with
  | String c r =>
      if ((code c =? 101) || (code c =? 69))%N then
        let '(neg, r1) :=
          match r with
          | String d r' =>
              if (code d =? 45)%N then (true, r')
              else if (code d =? 43)%N then (false, r')
              else (false, r)
          | EmptyString => (false, r)
          end in
        match read_digits 10 dec_digit r1 0 0 with
        | (_, O, _) => None
        | (e, _, r2) => Some ((if neg then - Z.of_N e else Z.of_N e)%Z, r2)
        end
      else Some (0%Z, s)
  | EmptyString => Some (0%Z, s)
  end.

(** A JSON number: [-]? int frac? exp?, where int is [0] or starts with a
    digit from 1 to 9. *)
Definition json_number (s : string) : option (JsNum * string) :=
  let '(neg, s1) :=
    match s with
    | String c r => if (code c =? 45)%N then (true, r) else (false, s)
    | EmptyString => (false, s)
    end in
  let int_part :=
    match s1 with
    | String c r =>
        if (code c =? 48)%N then Some (0%N, r)
        else match read_digits 10 dec_digit s1 0 0 with
             | (_, O, _) => None
             | (v, _, r1) => Some (v, r1)
             end
    | EmptyString => None
    end in
  match int_part with
  | None => None
  | Some (ip, r1) =>
      let frac :=
        match r1 with
        | String c r =>
            if (code c =? 46)%N then
              match read_digits 10 dec_digit r 0 0 with
              | (_, O, _) => None
              | (fp, fc, r2) => Some (fp, fc, r2)
              end
            else Some (0%N, O, r1)
        | EmptyString => Some (0%N, O, r1)
        end in
      match frac with
      | None => None
      | Some (fp, fc, r2) =>
          match json_exponent r2 with
          | None => None
          | Some (e, r3) =>
              let m := Z.of_N (ip * 10 ^ N.of_nat fc + fp) in
              Some (Fin (scale10 (if neg then - m else m)
                           (e - Z.of_nat fc))%Z, r3)
          end
      end
  end.

(** The UTF-8 bytes of a UTF-16 code unit (a surrogate is written on its
    own, three bytes). *)
Definition utf8 (u : N) : string :=
  if (u <? 128)%N then String (ascii_of_N u) EmptyString
  else if (u <? 2048)%N then
    String (ascii_of_N (192 + u / 64))
      (String (ascii_of_N (128 + u mod 64)) EmptyString)
  else
    String (ascii_of_N (224 + u / 4096))
      (String (ascii_of_N (128 + (u / 64) mod 64))
         (String (ascii_of_N (128 + u mod 64)) EmptyString)).

Definition hex4 (a b c d : ascii) : option N :=
  match hex_digit a, hex_digit b, hex_digit c, hex_digit d with
  | Some x, Some y, Some z, Some w => Some (((x * 16 + y) * 16 + z) * 16 + w)%N
  | _, _, _, _ => None
  end.

Definition simple_escape (c : ascii) : option ascii :=
  let n := code c in
  if ((n =? 34) || (n =? 92) || (n =? 47))%N then Some c
  else if (n =? 98)%N then Some (ascii_of_N 8)
  else if (n =? 102)%N then Some (ascii_of_N 12)
  else if (n =? 110)%N then Some (ascii_of_N 10)
  else if (n =? 114)%N then Some (ascii_of_N 13)
  else if (n =? 116)%N then Some (ascii_of_N 9)
  else None.

(** The characters of a JSON string after its opening quote, up to the
    closing one, and what follows. *)
Fixpoint json_string_body (s : string) : option (string * string) :=
  match s with
  | EmptyString => None
  | String c r =>
      let n := code c in
      if (n =? 34)%N then Some (EmptyString, r)
      else if (n <? 32)%N then None
      else if (n =? 92)%N then
        match r with
        | String e r' =>
            if (code e =? 117)%N then
              match r' with
              | String h1 (String h2 (String h3 (String h4 r''))) =>
                  match hex4 h1 h2 h3 h4, json_string_body r'' with
                  | Some u, Some (t, rest) => Some (utf8 u ++ t, rest)
                  | _, _ => None
                  end
              | _ => None
              end
            else
              match simple_escape e, json_string_body r' with
              | Some x, Some (t, rest) => Some (String x t, rest)
              | _, _ => None
              end
        | EmptyString => None
        end
      else
        match json_string_body r with
        | Some (t, rest) => Some (String c t, rest)
        | None => None
        end
  end.

(** A JSON value at the head of [s], after optional white space, and what
    follows it.  [fuel] bounds the number of nested calls. *)
Fixpoint json_value (fuel : nat) (s : string) : option (JsVal * string) :=
  match fuel with
  | O => None
  | S f =>
      match skip_ws s with
      | EmptyString => None
      | String c r as t =>
          let n := code c in
          if (n =? 123)%N then
            match skip_ws r with
            | String d r' =>
                if (code d =? 125)%N then Some (VObj ∅, r')
                else json_members f r ∅
            | EmptyString => None
            end
          else if (n =? 91)%N then
            match skip_ws r with
            | String d r' =>
                if (code d =? 93)%N then Some (VArr [] None, r')
                else json_elements f r []
            | EmptyString => None
            end
          else if (n =? 34)%N then
            match json_string_body r with
            | Some (k, rest) => Some (VStr k, rest)
            | None => None
            end
          else
            match strip_prefix "true" t, strip_prefix "false" t,
                  strip_prefix "null" t with
            | Some rest, _, _ => Some (VBool true, rest)
            | _, Some rest, _ => Some (VBool false, rest)
            | _, _, Some rest => Some (VNull, rest)
            | _, _, _ =>
                match json_number t with
                | Some (q, rest) => Some (VNum q, rest)
                | None => None
                end
            end
      end
  end
with json_elements (fuel : nat) (s : string) (acc : list JsVal)
  : option (JsVal * string) :=
  match fuel with
  | O => None
  | S f =>
      match json_value f s with
      | Some (v, r) =>
          match skip_ws r with
          | String c r' =>
              if (code c =? 44)%N then json_elements f r' (acc ++ [v])%list
              else if (code c =? 93)%N
                   then Some (VArr (acc ++ [v])%list None, r')
              else None
          | EmptyString => None
          end
      | None => None
      end
  end
with json_members (fuel : nat) (s : string) (acc : gmap string JsVal)
  : option (JsVal * string) :=
  match fuel with
  | O => None
  | S f =>
      match skip_ws s with
      | String c r =>
          if (code c =? 34)%N then
            match json_string_body r with
            | Some (k, r1) =>
                match skip_ws r1 with
                | String d r2 =>
                    if (code d =? 58)%N then
                      match json_value f r2 with
                      | Some (v, r3) =>
                          match skip_ws r3 with
                          | String e r4 =>
                              if (code e =? 44)%N
                              then json_members f r4 (<[k := v]> acc)
                              else if (code e =? 125)%N
                              then Some (VObj (<[k := v]> acc), r4)
                              else None
                          | EmptyString => None
                          end
                      | None => None
                      end
                    else None
                | EmptyString => None
                end
            | None => None
            end
          else None
      | EmptyString => None
      end
  end.

(** [JSON.parse(s)]: the value the whole text denotes, or [None] where
    [JSON.parse] throws a [SyntaxError]. *)
Definition JSON_parse (s : string) : option JsVal :=
  match json_value (2 * String.length s + 2) s with
  | Some (v, r) =>
      match skip_ws r with
      | EmptyString => Some v
      | String _ _ => None
      end
  | None => None
  end.

Definition JSON_parse_or_throw (s : string) : Result JsVal :=
  match JSON_parse s with
  | Some v => Ok v
  | None => Throw SyntaxError
  end.

(* ------------------------------------------------------------------ *)
(** ** Persistence: the load effect of [App] *)

(** The state slots the load effect writes.  [setStudents(JSON.parse(s))]
    stores the parsed value unchecked, so a collection is a [JsVal] here. *)
Module Slots.
Record t : Type := mk {
  students : JsVal;
  exams : JsVal;
  isAdmin : bool
}.
End Slots.

(** The initial state: [useState([])], [useState([])], [useState(false)]. *)
Definition initial_slots : Slots.t :=
  Slots.mk (VArr [] None) (VArr [] None) false.

(** A key-value storage as [getItem] sees it. *)
Definition Storage : Type := string -> option string.

(** The text of an item that is present. *)
Definition text_of (x : option string) : string :=
  match x with
  | Some t => t
  | None => ""
  end.

(** [if (x)] for a stored item: absent ([null]) and empty are falsy. *)
Definition item_truthy (x : option string) : bool :=
  match x with
  | Some s => negb (String.eqb s "")
  | None => false
  end.

(** The first effect of [App], run once at start.  An exception of
    [JSON.parse] leaves the effect at once. *)
Definition load (localStorage sessionStorage : Storage) (st : Slots.t)
  : Result Slots.t :=
  let s := localStorage "student_db" in
  let e := localStorage "exam_db" in
  try! st1 :=
    (if item_truthy s
     then try! v := JSON_parse_or_throw (text_of s) in
          Ok (Slots.mk v (Slots.exams st) (Slots.isAdmin st))
     else Ok st) in
  try! st2 :=
    (if item_truthy e
     then try! v := JSON_parse_or_throw (text_of e) in
          Ok (Slots.mk (Slots.students st1) v (Slots.isAdmin st1))
     else Ok st1) in
  Ok (match sessionStorage "is_admin" with
      | Some flag =>
          if String.eqb flag "true"
          then Slots.mk (Slots.students st2) (Slots.exams st2) true
          else st2
      | None => st2
      end).

(* ------------------------------------------------------------------ *)
(** ** Extraction client and scanner *)

(** What the extraction capability answers to one request: the call is
    rejected, or a response arrives whose [text] may be missing. *)
Inductive ApiOutcome : Type :=
| Rejected
| Responded (text : option string).

(** [extractStudentDetailsFromImage]: the [catch] logs and rethrows. *)
Definition extractStudentDetailsFromImage (o : ApiOutcome) : Result JsVal :=
  match o with
  | Rejected => Throw TransportError
  | Responded text => JSON_parse_or_throw (str_or text "{}")
  end.

(** [extracted.examName = n] in strict mode (the file is a module): the
    property is set on an object or an array; on [null], [undefined] or a
    primitive the assignment throws. *)
Definition assign_examName (extracted : JsVal) (n : string) : Result JsVal :=
  match extracted with
  | VObj m => Ok (VObj (<["examName" := VStr n]> m))
  | VArr l _ => Ok (VArr l (Some n))
  | _ => Throw TypeError
  end.

Module Scanner.
Record t : Type := mk {
  isScanning : bool;
  capturedImage : option string;
  error : option string
}.
End Scanner.

Module Dashboard.
Record t : Type := mk {
  formData : JsVal;
  showScanner : bool;
  showStudentModal : bool
}.
End Dashboard.

(** The record store, the dashboard that opened the scanner, and the
    scanner. *)
Module World.
Record t : Type := mk {
  store : App.state;
  dashboard : Dashboard.t;
  scanner : Scanner.t
}.
End World.

(** The dashboard's [onScanComplete]. *)
Definition onScanComplete (d : JsVal) (b : Dashboard.t) : Dashboard.t :=
  Dashboard.mk d false true.

(** [captureAndScan]: [frame] is the captured image, [None] when the video
    or canvas is missing; [o] is the capability's answer to this attempt. *)
Definition captureAndScan (fixedExamName : option string)
  (frame : option string) (o : ApiOutcome) (w : World.t) : World.t :=
  match frame with
  | None => w
  | Some imageDataUrl =>
      let attempt :=
        try! extracted := extractStudentDetailsFromImage o in
        if item_truthy fixedExamName
        then assign_examName extracted (text_of fixedExamName)
        else Ok extracted in
      match attempt with
      | Ok extracted =>
          World.mk (World.store w)
            (onScanComplete extracted (World.dashboard w))
            (Scanner.mk false (Some imageDataUrl)
               (Scanner.error (World.scanner w)))
      | Throw _ =>
          World.mk (World.store w) (World.dashboard w)
            (Scanner.mk false None
               (Some "AI analysis failed. Please try a clearer photo."))
      end
  end.

(* ------------------------------------------------------------------ *)
(** ** Definitions used to state the properties *)

(** [Number(v) || 0]: what one value of [marks] adds to the total, when
    [Number(v)] returns. *)
Definition counted (v : JsVal) : JsNum :=
  match ToNumber v with
  | Ok n => num_or_zero n
  | Throw _ => Fin 0
  end.

(** What a property that may be absent adds to the total. *)
Definition counted_opt (x : option JsVal) : JsNum :=
  match x with
  | Some v => counted v
  | None => Fin 0
  end.

(** The sum of a list of numbers. *)
Definition jsum (l : list JsNum) : JsNum := fold_right jadd (Fin 0) l.


(** A property of an object or array read by a name that is no index. *)
Definition own_prop (v : JsVal) (k : string) : option JsVal :=
  match v with
  | VObj m => m !! k
  | VArr _ e => if String.eqb k "examName" then option_map VStr e else None
  | _ => None
  end.

(** The specification's reading of one subject value: a number counts as
    itself, anything else (an absent key, a value that is not a number,
    [NaN]) as 0. *)
Definition spec_value (x : option JsVal) : JsNum :=
  match x with
  | Some (VNum NaN) => Fin 0
  | Some (VNum n) => n
  | _ => Fin 0
  end.

(** The specification's total: the sum of the five subject values. *)
Definition spec_total (marks : JsVal) : JsNum :=
  jsum (List.map (fun k => spec_value (own_prop marks k)) subjects).

(** A value on which the program and the specification agree: a number, or
    a value that [Number] reads as [NaN] or 0. *)
Definition plain (v : JsVal) : bool :=
  match v with
  | VNum _ => true
  | _ =>
      match ToNumber v with
      | Ok n => negb (num_truthy n)
      | Throw _ => false
      end
  end.

(** Marks the normalizer can add up: [Number] returns on every value they
    hold. *)
Definition readable (marks : JsVal) : bool :=
  match Object_values marks with
  | Ok vals => forallb converts vals
  | Throw _ => false
  end.

(** The specification's complete Marks: an object in which every subject
    key is present and holds a number. *)
Definition complete_marks (v : JsVal) : Prop :=
  exists m, v = VObj m /\
    forall k, k ∈ subjects -> exists n, m !! k = Some (VNum n).

(** The marks object of five integer scores. *)
Definition Marks (math science english history computer : Z) : JsVal :=
  VObj (<["math" := VNum (Fin (inject_Z math))]>
       (<["science" := VNum (Fin (inject_Z science))]>
       (<["english" := VNum (Fin (inject_Z english))]>
       (<["history" := VNum (Fin (inject_Z history))]>
       (<["computer" := VNum (Fin (inject_Z computer))]> ∅))))).

(** The specification's rounding: to two decimals, half up. *)
Definition round_half_up_2dp (x : Q) : Q := Qfloor (x * 100 + (1 # 2)) # 100.

(** The derived fields of a record agree with its marks, in the exact
    arithmetic of the embedding: [total] is the sum of what each value of
    [marks] counts for, [percentage] is a fifth of it to two decimals,
    [grade] is the class of [percentage]. *)
Definition derived_consistent (s : Student.t) : Prop :=
  exists vals : list JsVal,
    Object_values (Student.marks s) = Ok vals /\
    forallb converts vals = true /\
    num_eq (Student.total s) (jsum (List.map counted vals)) /\
    Student.percentage s = Number_toFixed2 (jdiv_lit (Student.total s) 5) /\
    Student.grade s = calculateGrade (Student.percentage s).

(** The record [processStudentData] builds once the total is known. *)
Definition normalized (uuid : string) (data : Partial.t) (total : JsNum)
  : Student.t :=
  Student.mk
    (str_or (Partial.id data) uuid)
    (str_or (Partial.name data) "")
    (str_or (Partial.rollNo data) "")
    (str_or (Partial.className data) "")
    (str_or (Partial.examName data) "Standard Exam")
    (val_or (Partial.marks data) zero_marks)
    total
    (Number_toFixed2 (jdiv_lit total 5))
    (calculateGrade (Number_toFixed2 (jdiv_lit total 5))).

(** A partial record that carries nothing but [marks]. *)
Definition only_marks (v : JsVal) : Partial.t :=
  Partial.mk None None None None None (Some v) None None None.



(** [{ math: "N/A", science: 50 }]. *)
Definition partial_marks : JsVal :=
  VObj (<["math" := VStr "N/A"]> (<["science" := VNum (Fin 50)]> ∅)).

(** [{ math: { toString: null } }]: a mark that has no text. *)
Definition marks_with_object : JsVal :=
  VObj (<["math" := VObj (<["toString" := VNull]> ∅)]> ∅).

(** A text of white space only. *)
Fixpoint all_white (s : string) : bool :=
  match s with
  | String c r => is_white c && all_white r
  | EmptyString => true
  end.

(** Two characters that are the same up to the case of an ASCII letter:
    equal, or a capital from A to Z and the small letter 32 places on. *)
Definition same_letter (a b : ascii) : Prop :=
  a = b \/
  ((65 <= code a)%N /\ (code a <= 90)%N /\ code b = (code a + 32)%N) \/
  ((65 <= code b)%N /\ (code b <= 90)%N /\ code a = (code b + 32)%N).

(** Equality of two texts up to the case of ASCII letters. *)
Fixpoint eq_ignore_case (s t : string) : Prop :=
  match s, t with
  | EmptyString, EmptyString => True
  | String a s', String b t' => same_letter a b /\ eq_ignore_case s' t'
  | _, _ => False
  end.

(** A text that does not start with white space. *)
Definition not_white_first (s : string) : Prop :=
  match s with
  | String c _ => is_white c = false
  | EmptyString => True
  end.

(** What a stored item is, in the specification's terms: absent (or the
    empty text, which the program treats alike), valid serialized data, or
    corrupt. *)
Inductive Stored : Type :=
| Absent
| Valid (v : JsVal)
| Corrupt.

Definition stored (x : option string) : Stored :=
  match x with
  | None => Absent
  | Some t =>
      if String.eqb t "" then Absent
      else match JSON_parse t with
           | Some v => Valid v
           | None => Corrupt
           end
  end.

(** The collection a stored item that is not corrupt stands for. *)
Definition restored (x : Stored) : JsVal :=
  match x with
  | Valid v => v
  | _ => VArr [] None
  end.

(** The double quote. *)
Definition dq : string := String (ascii_of_N 34) EmptyString.

Definition quoted (s : string) : string := dq ++ s ++ dq.

(** A storage whose student item is not JSON. *)
Definition corrupt_students : Storage :=
  fun k => if String.eqb k "student_db" then Some "{oops" else None.

(** A storage whose student item is an empty array and whose exam item is
    cut short. *)
Definition corrupt_exams : Storage :=
  fun k =>
    if String.eqb k "student_db" then Some "[]"
    else if String.eqb k "exam_db" then Some ("[{" ++ quoted "id" ++ ":")
    else None.

(** A storage that holds one exam and no student item:
    [[{"id":"e1","name":"Finals"}]]. *)
Definition one_exam : Storage :=
  fun k =>
    if String.eqb k "exam_db"
    then Some ("[{" ++ quoted "id" ++ ":" ++ quoted "e1" ++ ","
               ++ quoted "name" ++ ":" ++ quoted "Finals" ++ "}]")
    else None.

Definition no_items : Storage := fun _ => None.

(** The response schema of the extraction request: an object with the four
    string fields and a [marks] object with the five numbers, all
    required. *)
Definition conforms (v : JsVal) : bool :=
  match v with
  | VObj m =>
      forallb (fun k => match m !! k with Some (VStr _) => true | _ => false end)
        ["name"; "rollNo"; "className"; "examName"]
      && match m !! "marks" with
         | Some (VObj mm) =>
             forallb
               (fun k => match mm !! k with Some (VNum _) => true | _ => false end)
               subjects
         | _ => false
         end
  | _ => false
  end.

(** A value that can take a property. *)
Definition is_object (v : JsVal) : bool :=
  match v with
  | VObj _ | VArr _ _ => true
  | _ => false
  end.

(** The message the scanner shows after a failed attempt. *)
Definition failure_message : string :=
  "AI analysis failed. Please try a clearer photo.".

(** A world with one exam folder, no student, and an idle scanner. *)
Definition idle_world : World.t :=
  World.mk (App.mk "admin" true [] [Exam.mk "e1" "Finals" "2024-05-01"] None)
    (Dashboard.mk VUndef true false)
    (Scanner.mk false None None).

(* ------------------------------------------------------------------ *)
(** ** [parseInt] *)

(** [parseInt(s)] with no radix: leading white space is dropped, a sign is
    read, a following [0x] or [0X] selects base 16, and the longest run of
    digits of the base is the result; when there is no digit the result is
    [NaN].  What follows the digits is ignored. *)
Definition parseInt (s : string) : JsNum :=
  let s1 := trimStart s in
  let '(neg, s2) :=
    match s1 with
    | String c r =>
        if (code c =? 45)%N then (true, r)
        else if (code c =? 43)%N then (false, r)
        else (false, s1)
    | EmptyString => (false, s1)
    end in
  let '(base, dig, s3) :=
    match s2 with
    | String c (String x r) =>
        if (code c =? 48)%N && ((code x =? 120) || (code x =? 88))%N
        then (16%N, hex_digit, r)
        else (10%N, dec_digit, s2)
    | _ => (10%N, dec_digit, s2)
    end in
  match read_digits base dig s3 0 0 with
  | (_, O, _) => NaN
  | (v, _, _) => Fin ((if neg then - Z.of_N v else Z.of_N v)%Z # 1)
  end.

(* ------------------------------------------------------------------ *)
(** ** The dashboard: state and handlers of [AdminDashboard] *)

(** The state of the dashboard when its form holds what the form itself
    wrote, a [Partial<Student>]. *)
Module AdminDashboard.
Record t : Type := mk {
  currentExam : option Exam.t;
  showExamModal : bool;
  showStudentModal : bool;
  showScanner : bool;
  editingId : option string;
  examInput : string;
  formData : Partial.t
}.
End AdminDashboard.

(** [{ name: '', rollNo: '', className: '', examName: n, marks: {...} }]:
    the form as [useState] and [openStudentModal()] set it. *)
Definition blank_form (n : string) : Partial.t :=
  Partial.mk None (Some "") (Some "") (Some "") (Some n) (Some zero_marks)
    None None None.

Definition initial_dashboard : AdminDashboard.t :=
  AdminDashboard.mk None false false false None "" (blank_form "").

(** [filteredStudents]: the records listed in the open folder. *)
Definition filteredStudents (currentExam : option Exam.t)
  (students : list Student.t) : list Student.t :=
  match currentExam with
  | Some e =>
      List.filter
        (fun s => String.eqb (Student.examName s) (Exam.name e)) students
  | None => []
  end.

(** The number a folder card shows:
    [students.filter(s => s.examName === exam.name).length]. *)
Definition enrolled (exam : Exam.t) (students : list Student.t) : nat :=
  List.length
    (List.filter
       (fun s => String.eqb (Student.examName s) (Exam.name exam)) students).

(** [handleAddExam]: [uuid] and [now] are what [crypto.randomUUID()] and the
    clock return when [onAddExam] runs. *)
Definition handleAddExam (uuid now : string) (d : AdminDashboard.t)
  (a : App.state) : AdminDashboard.t * App.state :=
  let n := trim (AdminDashboard.examInput d) in
  if negb (String.eqb n "")
  then (AdminDashboard.mk (AdminDashboard.currentExam d) false
          (AdminDashboard.showStudentModal d) (AdminDashboard.showScanner d)
          (AdminDashboard.editingId d) "" (AdminDashboard.formData d),
        onAddExam uuid now n a)
  else (d, a).

(** [openStudentModal(s)]; [None] is the call without a record. *)
Definition openStudentModal (s : option Student.t) (d : AdminDashboard.t)
  : AdminDashboard.t :=
  match s with
  | Some r =>
      AdminDashboard.mk (AdminDashboard.currentExam d)
        (AdminDashboard.showExamModal d) true (AdminDashboard.showScanner d)
        (Some (Student.id r)) (AdminDashboard.examInput d) (as_partial r)
  | None =>
      AdminDashboard.mk (AdminDashboard.currentExam d)
        (AdminDashboard.showExamModal d) true (AdminDashboard.showScanner d)
        None (AdminDashboard.examInput d)
        (blank_form
           (str_or (option_map Exam.name (AdminDashboard.currentExam d)) ""))
  end.

(** The form's submit handler with the dashboard's own state: the store
    part is [handleStudentSubmit] above; the modal is closed and the edit
    ended after it.  When the normalizer throws, the handler is left at
    once and nothing is set. *)
Definition submitStudentForm (uuid : string) (d : AdminDashboard.t)
  (a : App.state) : Result (AdminDashboard.t * App.state) :=
  try! a' :=
    handleStudentSubmit uuid (AdminDashboard.currentExam d)
      (AdminDashboard.editingId d) (AdminDashboard.formData d) a in
  Ok (AdminDashboard.mk (AdminDashboard.currentExam d)
        (AdminDashboard.showExamModal d) false (AdminDashboard.showScanner d)
        None (AdminDashboard.examInput d) (AdminDashboard.formData d),
      a').

(** The decimal text of an array index. *)
Definition index_key (i : nat) : string :=
  NilEmpty.string_of_uint (Nat.to_uint i).

Fixpoint indexed (i : nat) (l : list JsVal) : gmap string JsVal :=
  match l with
  | x :: r => <[index_key i := x]> (indexed (S i) r)
  | [] => ∅
  end.

(** What the spread [{...v}] copies: the own enumerable properties of [v];
    none for [undefined], [null], a number or a boolean. *)
Definition spread (v : JsVal) : gmap string JsVal :=
  match v with
  | VObj m => m
  | VArr l e =>
      match e with
      | Some n => <["examName" := VStr n]> (indexed 0 l)
      | None => indexed 0 l
      end
  | VStr s => indexed 0 (chars s)
  | _ => ∅
  end.

(** The input of the form that changed. *)
Inductive FormField : Type :=
| NameField
| RollNoField
| ClassNameField
| MarkField (sub : string).

(** The [onChange] handlers of the form, [value] being [e.target.value]:
    [setFormData({...formData, name: value})] and the like; for a mark the
    new [marks] is [{...formData.marks, [sub]: parseInt(value) || 0}]. *)
Definition onChange (f : FormField) (value : string) (formData : Partial.t)
  : Partial.t :=
  match f with
  | NameField =>
      Partial.mk (Partial.id formData) (Some value)
        (Partial.rollNo formData) (Partial.className formData)
        (Partial.examName formData) (Partial.marks formData)
        (Partial.total formData) (Partial.percentage formData)
        (Partial.grade formData)
  | RollNoField =>
      Partial.mk (Partial.id formData) (Partial.name formData)
        (Some value) (Partial.className formData)
        (Partial.examName formData) (Partial.marks formData)
        (Partial.total formData) (Partial.percentage formData)
        (Partial.grade formData)
  | ClassNameField =>
      Partial.mk (Partial.id formData) (Partial.name formData)
        (Partial.rollNo formData) (Some value)
        (Partial.examName formData) (Partial.marks formData)
        (Partial.total formData) (Partial.percentage formData)
        (Partial.grade formData)
  | MarkField sub =>
      let old :=
        match Partial.marks formData with
        | Some v => spread v
        | None => ∅
        end in
      Partial.mk (Partial.id formData) (Partial.name formData)
        (Partial.rollNo formData) (Partial.className formData)
        (Partial.examName formData)
        (Some (VObj (<[sub := VNum (num_or_zero (parseInt value))]> old)))
        (Partial.total formData) (Partial.percentage formData)
        (Partial.grade formData)
  end.

Definition setFormData (d : AdminDashboard.t) (formData : Partial.t)
  : AdminDashboard.t :=
  AdminDashboard.mk (AdminDashboard.currentExam d)
    (AdminDashboard.showExamModal d) (AdminDashboard.showStudentModal d)
    (AdminDashboard.showScanner d) (AdminDashboard.editingId d)
    (AdminDashboard.examInput d) formData.

(** The dashboard after a sequence of changes to the form, oldest first. *)
Definition typed (changes : list (FormField * string))
  (d : AdminDashboard.t) : AdminDashboard.t :=
  setFormData d
    (fold_left (fun fd c => onChange (fst c) (snd c) fd) changes
       (AdminDashboard.formData d)).

(** The close and the Cancel button of the student dialog:
    [setShowStudentModal(false)]. *)
Definition closeStudentModal (d : AdminDashboard.t) : AdminDashboard.t :=
  AdminDashboard.mk (AdminDashboard.currentExam d)
    (AdminDashboard.showExamModal d) false (AdminDashboard.showScanner d)
    (AdminDashboard.editingId d) (AdminDashboard.examInput d)
    (AdminDashboard.formData d).

(** The AI Scan button: [setShowScanner(true)]. *)
Definition openScanner (d : AdminDashboard.t) : AdminDashboard.t :=
  AdminDashboard.mk (AdminDashboard.currentExam d)
    (AdminDashboard.showExamModal d) (AdminDashboard.showStudentModal d)
    true (AdminDashboard.editingId d) (AdminDashboard.examInput d)
    (AdminDashboard.formData d).

(** The callback the dashboard gives to the scanner, on a scanned value
    that is what the callback's type says, a [Partial<Student>]:
    [d => { setFormData(d); setShowScanner(false);
            setShowStudentModal(true); }]. *)
Definition scanComplete (scanned : Partial.t) (d : AdminDashboard.t)
  : AdminDashboard.t :=
  AdminDashboard.mk (AdminDashboard.currentExam d)
    (AdminDashboard.showExamModal d) true false
    (AdminDashboard.editingId d) (AdminDashboard.examInput d) scanned.

(* ------------------------------------------------------------------ *)
(** ** The landing page: [Landing] *)

(** [Array.from(new Set(l))]: the distinct elements of [l], each where it
    first occurs. *)
Fixpoint Set_from (l : list string) : list string :=
  match l with
  | x :: r => x :: List.filter (fun y => negb (String.eqb y x)) (Set_from r)
  | [] => []
  end.

Fixpoint insert_sorted (x : string) (l : list string) : list string :=
  match l with
  | y :: r => if String.leb x y then x :: l else y :: insert_sorted x r
  | [] => [x]
  end.

(** [l.sort()] on strings: without a comparator the elements are ordered
    by their code units; here by their bytes, which on ASCII text is the
    same order.  Which algorithm runs is left to the engine and does not
    matter, a list of strings having one ascending arrangement; this one
    sorts by insertion. *)
Definition sort (l : list string) : list string :=
  fold_right insert_sorted [] l.

(** The [exams] of the landing page: the exam names of the records. *)
Definition Landing_exams (students : list Student.t) : list string :=
  sort (Set_from (List.map Student.examName students)).

(** The effect that follows [exams]:
    [if (exams.length > 0 && !selectedExam) setSelectedExam(exams[0])]. *)
Definition select_first (exams : list string) (selectedExam : string)
  : string :=
  match exams with
  | first :: _ => if String.eqb selectedExam "" then first else selectedExam
  | [] => selectedExam
  end.

(** Whether the button of the landing page can be pressed:
    [disabled={!rollNo || !selectedExam}]. *)
Definition can_check (rollNo selectedExam : string) : bool :=
  negb (String.eqb rollNo "") && negb (String.eqb selectedExam "").

(* ------------------------------------------------------------------ *)
(** ** Login, session and navigation *)

(** [setItem] and [removeItem] of a storage. *)
Definition setItem (k v : string) (st : Storage) : Storage :=
  fun k' => if String.eqb k' k then Some v else st k'.

Definition removeItem (k : string) (st : Storage) : Storage :=
  fun k' => if String.eqb k' k then None else st k'.

Definition setIsAdmin (b : bool) (a : App.state) : App.state :=
  App.mk (App.page a) b (App.students a) (App.exams a) (App.selected a).

(** [handleLogin] and [handleLogout] of [App]. *)
Definition handleLogin (a : App.state) (sessionStorage : Storage)
  : App.state * Storage :=
  (setPage "admin" (setIsAdmin true a),
   setItem "is_admin" "true" sessionStorage).

Definition handleLogout (a : App.state) (sessionStorage : Storage)
  : App.state * Storage :=
  (setPage "landing" (setIsAdmin false a),
   removeItem "is_admin" sessionStorage).

(** The state of the landing page. *)
Module Landing.
Record t : Type := mk {
  rollNo : string;
  selectedExam : string
}.
End Landing.

(** The landing page once mounted over [students] and once its effect has
    run: nothing typed, the first exam selected. *)
Definition Landing_mounted (students : list Student.t) : Landing.t :=
  Landing.mk "" (select_first (Landing_exams students) "").

(** The state of the login page. *)
Module Login.
Record t : Type := mk {
  user : string;
  pass : string;
  loading : bool;
  error : string
}.
End Login.

Definition Login_mounted : Login.t := Login.mk "" "" false "".

(** A timer started by [handleLogin] of the login page: the credentials it
    closed over, and which mounting of the page started it. *)
Module Timer.
Record t : Type := mk {
  user : string;
  pass : string;
  mount : nat
}.
End Timer.

(** The application in the browser: the state of [App], the session
    storage, the state of the landing and login pages (of the one that is
    mounted), the number of times the login page has been mounted, and the
    timers that have not fired yet, oldest first (all run for one
    second). *)
Module Portal.
Record t : Type := mk {
  app : App.state;
  sessionStorage : Storage;
  landing : Landing.t;
  login : Login.t;
  mounts : nat;
  timers : list Timer.t
}.
End Portal.

(** What the [main] element shows: each of the four conditionals of [App]
    contributes its page when its condition holds. *)
Inductive View : Type :=
| LandingView
| LoginView
| ResultView (student : Student.t)
| AdminView.

Definition main (a : App.state) : list View :=
  ((if String.eqb (App.page a) "landing" then [LandingView] else [])
   ++ (if String.eqb (App.page a) "login" then [LoginView] else [])
   ++ (if String.eqb (App.page a) "result"
       then match App.selected a with
            | Some s => [ResultView s]
            | None => []
            end
       else [])
   ++ (if String.eqb (App.page a) "admin" && App.isAdmin a
       then [AdminView] else []))%list.

(** What the user, a timer or the dashboard can do.  The five last events
    are the dashboard calling the callbacks [App] hands to it. *)
Inductive Event : Type :=
| ClickLogo
| ClickAdminAccess
| ClickLogout
| TypeRollNo (value : string)
| SelectExam (value : string)
| ClickViewMarksheet
| ClickBack
| TypeUser (value : string)
| TypePass (value : string)
| SubmitLogin
| TimerFires
| AddStudent (s : Student.t)
| UpdateStudent (s : Student.t)
| DeleteStudent (confirmed : bool) (id : string)
| AddExam (uuid now n : string)
| DeleteExam (id : string).

(** The browser after a handler has left [App] in the state [a] and the
    session storage as [ss]: a page that was not shown before is mounted
    afresh, a page that stays keeps its state. *)
Definition rendered (a : App.state) (ss : Storage) (p : Portal.t)
  : Portal.t :=
  let page := App.page a in
  let fresh := negb (String.eqb (App.page (Portal.app p)) page) in
  Portal.mk a ss
    (if fresh && String.eqb page "landing"
     then Landing_mounted (App.students a) else Portal.landing p)
    (if fresh && String.eqb page "login"
     then Login_mounted else Portal.login p)
    (if fresh && String.eqb page "login"
     then S (Portal.mounts p) else Portal.mounts p)
    (Portal.timers p).

Definition with_app (a : App.state) (p : Portal.t) : Portal.t :=
  Portal.mk a (Portal.sessionStorage p) (Portal.landing p) (Portal.login p)
    (Portal.mounts p) (Portal.timers p).

Definition with_login (l : Login.t) (p : Portal.t) : Portal.t :=
  Portal.mk (Portal.app p) (Portal.sessionStorage p) (Portal.landing p) l
    (Portal.mounts p) (Portal.timers p).

(** One event: the state after it, or [None] when the element it needs is
    not on the page or is disabled.  The bar shows Logout to an admin and
    Admin Access to anyone else; the button of the landing page is disabled
    without a roll number and an exam; the form of the login page is not
    submitted with an empty field ([required]) nor while its timer runs
    ([disabled={loading}]); the dashboard is mounted on the admin page for
    an admin only. *)
Definition step (ev : Event) (p : Portal.t) : option Portal.t :=
  let a := Portal.app p in
  let ss := Portal.sessionStorage p in
  let on (page : string) := String.eqb (App.page a) page in
  let dashboard (a' : App.state) :=
    if on "admin" && App.isAdmin a then Some (with_app a' p) else None in
  match ev with
  | ClickLogo => Some (rendered (setPage "landing" a) ss p)
  | ClickAdminAccess =>
      if App.isAdmin a then None
      else Some (rendered (setPage "login" a) ss p)
  | ClickLogout =>
      if App.isAdmin a
      then let '(a', ss') := handleLogout a ss in Some (rendered a' ss' p)
      else None
  | TypeRollNo value =>
      if on "landing"
      then Some (Portal.mk a ss
                   (Landing.mk value (Landing.selectedExam (Portal.landing p)))
                   (Portal.login p) (Portal.mounts p) (Portal.timers p))
      else None
  | SelectExam value =>
      if on "landing"
         && existsb (String.eqb value) (Landing_exams (App.students a))
      then Some (Portal.mk a ss
                   (Landing.mk (Landing.rollNo (Portal.landing p)) value)
                   (Portal.login p) (Portal.mounts p) (Portal.timers p))
      else None
  | ClickViewMarksheet =>
      let l := Portal.landing p in
      if on "landing" && can_check (Landing.rollNo l) (Landing.selectedExam l)
      then let a' :=
             fst (onCheckResult (Landing.rollNo l) (Landing.selectedExam l) a)
           in Some (rendered a' ss p)
      else None
  | ClickBack =>
      match App.selected a with
      | Some _ =>
          if on "result" then Some (rendered (setPage "landing" a) ss p)
          else None
      | None => None
      end
  | TypeUser value =>
      let l := Portal.login p in
      if on "login"
      then Some (with_login
                   (Login.mk value (Login.pass l) (Login.loading l)
                      (Login.error l)) p)
      else None
  | TypePass value =>
      let l := Portal.login p in
      if on "login"
      then Some (with_login
                   (Login.mk (Login.user l) value (Login.loading l)
                      (Login.error l)) p)
      else None
  | SubmitLogin =>
      let l := Portal.login p in
      if on "login" && negb (Login.loading l)
         && negb (String.eqb (Login.user l) "")
         && negb (String.eqb (Login.pass l) "")
      then Some (Portal.mk a ss (Portal.landing p)
                   (Login.mk (Login.user l) (Login.pass l) true "")
                   (Portal.mounts p)
                   (Portal.timers p
                    ++ [Timer.mk (Login.user l) (Login.pass l)
                          (Portal.mounts p)])%list)
      else None
  | TimerFires =>
      match Portal.timers p with
      | t :: rest =>
          let p' :=
            Portal.mk a ss (Portal.landing p) (Portal.login p)
              (Portal.mounts p) rest in
          if String.eqb (Timer.user t) "admin"
             && String.eqb (Timer.pass t) "admin"
          then let '(a', ss') := handleLogin a ss in
               Some (rendered a' ss' p')
          else if on "login" && Nat.eqb (Timer.mount t) (Portal.mounts p)
          then let l := Portal.login p in
               Some (with_login
                       (Login.mk (Login.user l) (Login.pass l) false
                          "Unauthorized Credentials") p')
          else Some p'
      | [] => None
      end
  | AddStudent s => dashboard (onAddStudent s a)
  | UpdateStudent s => dashboard (onUpdateStudent s a)
  | DeleteStudent confirmed id => dashboard (onDeleteStudent confirmed id a)
  | AddExam uuid now n => dashboard (onAddExam uuid now n a)
  | DeleteExam id => dashboard (onDeleteExam id a)
  end.

(** A sequence of events, oldest first. *)
Fixpoint run (evs : list Event) (p : Portal.t) : option Portal.t :=
  match evs with
  | ev :: rest =>
      match step ev p with
      | Some p' => run rest p'
      | None => None
      end
  | [] => Some p
  end.

(** The application once the load effect has returned: the landing page,
    the collections as read, the admin flag as the session says. *)
Definition boot (students : list Student.t) (exams : list Exam.t)
  (sessionStorage : Storage) : Portal.t :=
  let isAdmin :=
    match sessionStorage "is_admin" with
    | Some flag => String.eqb flag "true"
    | None => false
    end in
  Portal.mk (App.mk "landing" isAdmin students exams None) sessionStorage
    (Landing_mounted students) Login_mounted 0 [].

(* ------------------------------------------------------------------ *)
(** ** Persistence: the save effect of [App] for the exams *)

(** A hexadecimal digit, in lower case. *)
Definition hex_char (n : N) : ascii :=
  if (n <? 10)%N then ascii_of_N (48 + n) else ascii_of_N (87 + n).

(** One character of a string as [JSON.stringify] writes it
    (QuoteJSONString): the quote and the backslash are escaped, a control
    character has its short escape or [\u00XX], any other ASCII character
    is written as it is.  A byte above 127 is written as it is too, which
    is right inside the UTF-8 form of a character; the properties below
    are about ASCII text. *)
Definition quote_char (c : ascii) : string :=
  let n := code c in
  if (n =? 8)%N then "\b"
  else if (n =? 9)%N then "\t"
  else if (n =? 10)%N then "\n"
  else if (n =? 12)%N then "\f"
  else if (n =? 13)%N then "\r"
  else if (n =? 34)%N then String "\" dq
  else if (n =? 92)%N then "\\"
  else if (n <? 32)%N
  then "\u00" ++ String (hex_char (n / 16)) (String (hex_char (n mod 16)) "")
  else String c "".

Fixpoint quote_chars (s : string) : string :=
  match s with
  | String c r => quote_char c ++ quote_chars r
  | EmptyString => EmptyString
  end.

(** [JSON.stringify(s)] for a string [s]. *)
Definition JSON_stringify_string (s : string) : string :=
  dq ++ quote_chars s ++ dq.

(** [JSON.stringify(e)] for an exam: the properties in the order in which
    [onAddExam] creates them, which is also the order in which an exam
    that was saved this way is read back. *)
Definition JSON_stringify_exam (e : Exam.t) : string :=
  "{" ++ quoted "id" ++ ":" ++ JSON_stringify_string (Exam.id e)
  ++ "," ++ quoted "name" ++ ":" ++ JSON_stringify_string (Exam.name e)
  ++ "," ++ quoted "createdAt" ++ ":"
  ++ JSON_stringify_string (Exam.createdAt e) ++ "}".

(** The elements of an array, separated by commas. *)
Fixpoint joined (l : list string) : string :=
  match l with
  | [] => ""
  | [x] => x
  | x :: r => x ++ "," ++ joined r
  end.

(** [JSON.stringify(exams)]. *)
Definition JSON_stringify_exams (exams : list Exam.t) : string :=
  "[" ++ joined (List.map JSON_stringify_exam exams) ++ "]".

(** The third effect of [App], which runs whenever [exams] has changed:
    [localStorage.setItem('exam_db', JSON.stringify(exams))]. *)
Definition save_exams (exams : list Exam.t) (localStorage : Storage)
  : Storage :=
  setItem "exam_db" (JSON_stringify_exams exams) localStorage.

(* ------------------------------------------------------------------ *)
(** ** The scanner while the camera starts *)

Definition loadingMessages : list string :=
  ["Initializing camera sensor..."; "Setting up scanning focus...";
   "Optimizing for low light..."; "Establishing AI connection..."].

(** What the interval does every two seconds:
    [setLoadMessageIndex(i => (i + 1) % loadingMessages.length)]. *)
Definition next_message (i : nat) : nat :=
  (i + 1) mod List.length loadingMessages.

(** The index after [n] ticks of the interval, from [useState(0)]. *)
Fixpoint loadMessageIndex (n : nat) : nat :=
  match n with
  | O => 0
  | S k => next_message (loadMessageIndex k)
  end.

(** [loadingMessages[i]]: [None] stands for [undefined]. *)
Definition shown_message (i : nat) : option string :=
  nth_error loadingMessages i.

(* ------------------------------------------------------------------ *)
(** ** Definitions used to state the further properties *)

(** A whole number of magnitude at most 2 * 10^13: five of them add up to
    at most 10^14. *)
Definition whole (v : JsVal) : Prop :=
  exists z : Z, v = VNum (Fin (inject_Z z)) /\ (Z.abs z <= 2 * 10 ^ 13)%Z.

(** Marks as the entry form leaves them: an object that holds exactly the
    five subjects, each with a whole number. *)
Definition form_marks (v : JsVal) : Prop :=
  exists m : gmap string JsVal,
    v = VObj m /\
    (forall k, is_Some (m !! k) <-> k ∈ subjects) /\
    (forall k x, m !! k = Some x -> whole x).

(** What holds of the browser at every moment: the page is one of the
    four; the result page has a record to show, and the record is in the
    store; the admin page is shown to an admin only and the login page to
    others only; the admin flag is set exactly when the session holds the
    marker; the exam selected on the landing page, if any, is the exam of
    some record. *)
Definition coherent (p : Portal.t) : Prop :=
  let a := Portal.app p in
  In (App.page a) ["landing"; "login"; "result"; "admin"] /\
  (App.page a = "result" ->
   exists s, App.selected a = Some s /\ In s (App.students a)) /\
  (App.page a = "admin" -> App.isAdmin a = true) /\
  (App.page a = "login" -> App.isAdmin a = false) /\
  (App.isAdmin a = true <-> Portal.sessionStorage p "is_admin" = Some "true") /\
  (App.page a = "landing" ->
   Landing.selectedExam (Portal.landing p) = "" \/
   In (Landing.selectedExam (Portal.landing p))
     (Landing_exams (App.students a))).

(** No password typed so far, and none a pending timer holds, is the
    right one. *)
Definition no_password (p : Portal.t) : Prop :=
  Login.pass (Portal.login p) <> "admin" /\
  Forall (fun t => Timer.pass t <> "admin") (Portal.timers p).

(** The grades from the lowest to the highest. *)
Definition grade_rank (g : string) : nat :=
  if String.eqb g "A+" then 5
  else if String.eqb g "A" then 4
  else if String.eqb g "B" then 3
  else if String.eqb g "C" then 2
  else if String.eqb g "D" then 1
  else 0.

(** The grade the normalizer gives to a total. *)
Definition grade_of_total (total : JsNum) : string :=
  calculateGrade (Number_toFixed2 (jdiv_lit total 5)).

(** A text of ASCII characters. *)
Fixpoint ascii_text (s : string) : bool :=
  match s with
  | String c r => (code c <? 128)%N && ascii_text r
  | EmptyString => true
  end.

Definition ascii_exam (e : Exam.t) : bool :=
  ascii_text (Exam.id e) && ascii_text (Exam.name e)
  && ascii_text (Exam.createdAt e).

(** An exam as a value: the object [JSON.parse] builds from its text. *)
Definition exam_value (e : Exam.t) : JsVal :=
  VObj (<["id" := VStr (Exam.id e)]>
       (<["name" := VStr (Exam.name e)]>
       (<["createdAt" := VStr (Exam.createdAt e)]> ∅))).

(** A value in which every text is ASCII text. *)
Fixpoint ascii_value (v : JsVal) : bool :=
  match v with
  | VStr s => ascii_text s
  | VArr l _ => forallb ascii_value l
  | _ => true
  end.

(** A text typed into a mark input that the embedding reads as the
    program does: ASCII text whose leading whole number, if it has one,
    is of magnitude at most 2 * 10^13. *)
Definition mark_text (value : string) : Prop :=
  ascii_text value = true /\ whole (VNum (num_or_zero (parseInt value))).

(** The sum of a list of integers, and the sum of their magnitudes. *)
Definition zsum (zs : list Z) : Z := fold_right Z.add 0%Z zs.




(** [{ math: "12", science: true }]. *)
Definition marks_with_text : JsVal :=
  VObj (<["math" := VStr "12"]> (<["science" := VBool true]> ∅)).

(** [{ math: [{ toString: null }] }]: a mark that is a list of one object
    that has no text. *)
Definition marks_with_array : JsVal :=
  VObj (<["math" := VArr [VObj (<["toString" := VNull]> ∅)] None]> ∅).

(* ------------------------------------------------------------------ *)
(** ** Numbers: algebra *)

#[export] Instance num_eq_equiv : Equivalence num_eq.
Proof.
  split.
  - intros []; simpl; auto with qarith.
  - intros [] []; simpl; auto with qarith.
  - intros [] [] []; simpl; try tauto. intros H1 H2. now rewrite H1.
Qed.

#[export] Instance jadd_proper : Proper (num_eq ==> num_eq ==> num_eq) jadd.
Proof.
  intros [] [] H1 [] [] H2; simpl in *; try tauto. now rewrite H1, H2.
Qed.

Lemma jadd_comm (a b : JsNum) : num_eq (jadd a b) (jadd b a).
Proof. destruct a, b; simpl; auto. ring. Qed.

Lemma jadd_assoc (a b c : JsNum) :
  num_eq (jadd a (jadd b c)) (jadd (jadd a b) c).
Proof. destruct a, b, c; simpl; auto. ring. Qed.

Lemma jadd_0_l (a : JsNum) : num_eq (jadd (Fin 0) a) a.
Proof. destruct a; simpl; auto. ring. Qed.

Lemma jadd_0_r (a : JsNum) : num_eq (jadd a (Fin 0)) a.
Proof. destruct a; simpl; auto. ring. Qed.

Lemma num_eqb_eq (a b : JsNum) : num_eqb a b = true <-> num_eq a b.
Proof.
  destruct a, b; simpl; try (split; (discriminate || tauto)).
  apply Qeq_bool_iff.
Qed.

Lemma num_or_zero_fin (q : Q) : num_eq (num_or_zero (Fin q)) (Fin q).
Proof.
  unfold num_or_zero, num_truthy.
  destruct (Qeq_bool q 0) eqn:E; simpl; [|reflexivity].
  apply Qeq_bool_iff in E. now symmetry.
Qed.

#[export] Instance jdiv_lit_proper :
  Proper (num_eq ==> eq ==> num_eq) jdiv_lit.
Proof.
  intros [] [] H d ? <-; simpl in *; try tauto. now rewrite H.
Qed.

Lemma round2_comp (x y : Q) : (x == y)%Q -> round2 x = round2 y.
Proof.
  intros H. unfold round2.
  assert (E1 : Qfloor (Qabs x * 100 + (1 # 2))
               = Qfloor (Qabs y * 100 + (1 # 2)))
    by (apply Qfloor_comp; now rewrite H).
  assert (E2 : Qle_bool 0 x = Qle_bool 0 y).
  { destruct (Qle_bool 0 x) eqn:A, (Qle_bool 0 y) eqn:B; auto.
    - apply Qle_bool_iff in A. rewrite H in A. apply Qle_bool_iff in A.
      congruence.
    - apply Qle_bool_iff in B. rewrite <- H in B. apply Qle_bool_iff in B.
      congruence. }
  now rewrite E1, E2.
Qed.

#[export] Instance Number_toFixed2_proper :
  Proper (num_eq ==> num_eq) Number_toFixed2.
Proof.
  intros [] [] H; simpl in *; try tauto. now rewrite (round2_comp _ _ H).
Qed.

Lemma Qle_bool_comp_r (c x y : Q) : (x == y)%Q -> Qle_bool c x = Qle_bool c y.
Proof.
  intros H.
  destruct (Qle_bool c x) eqn:A, (Qle_bool c y) eqn:B; auto.
  - apply Qle_bool_iff in A. rewrite H in A. apply Qle_bool_iff in A.
    congruence.
  - apply Qle_bool_iff in B. rewrite <- H in B. apply Qle_bool_iff in B.
    congruence.
Qed.

#[export] Instance calculateGrade_proper :
  Proper (num_eq ==> eq) calculateGrade.
Proof.
  intros [] [] H; simpl in *; try tauto.
  unfold calculateGrade, jge.
  now rewrite !(Qle_bool_comp_r _ _ _ H).
Qed.

Lemma Qle_bool_false (x y : Q) : Qle_bool x y = false <-> (y < x)%Q.
Proof.
  split; intros H.
  - apply Qnot_le_lt. intros C. apply Qle_bool_iff in C. congruence.
  - destruct (Qle_bool x y) eqn:E; auto.
    apply Qle_bool_iff in E. apply Qlt_not_le in H. contradiction.
Qed.

(** [round2] is a rounding to two decimals: its value is a whole number of
    hundredths, at most half a hundredth away. *)
Lemma round2_spec (x : Q) :
  exists k : Z, round2 x = k # 100 /\ (Qabs (x - (k # 100)) <= 1 # 200)%Q.
Proof.
  unfold round2.
  set (n := Qfloor (Qabs x * 100 + (1 # 2))).
  pose proof (Qfloor_le (Qabs x * 100 + (1 # 2))) as F1.
  pose proof (Qlt_floor (Qabs x * 100 + (1 # 2))) as F2.
  fold n in F1, F2. rewrite inject_Z_plus in F2.
  change (inject_Z 1) with 1%Q in F2.
  assert (En : forall k : Z, (k # 100 == inject_Z k * (1 # 100))%Q).
  { intros k. unfold Qeq, Qmult, inject_Z. simpl. lia. }
  destruct (Qle_bool 0 x) eqn:E.
  - exists n. split; [reflexivity|].
    apply Qle_bool_iff in E. rewrite (Qabs_pos x E) in F1, F2.
    apply Qabs_Qle_condition. rewrite En. split; lra.
  - exists (- n)%Z. split; [reflexivity|].
    apply Qle_bool_false in E.
    rewrite (Qabs_neg x) in F1, F2 by lra.
    apply Qabs_Qle_condition. rewrite En, inject_Z_opp. split; lra.
Qed.

(** C5.  Grade classification goes through the thresholds from the top,
    each inclusive: a finite percentage of 90 or more is A+, otherwise of
    80 or more A, otherwise of 70 or more B, otherwise of 55 or more C,
    otherwise of 35 or more D, otherwise F.  Exactly 90.00 is A+, 89.99 is
    A, 35.00 is D and 34.99 is F, and every input, finite or not, gets one
    of the six grades. *)
Theorem calculateGrade_thresholds :
  (forall q : Q,
      (calculateGrade (Fin q) = "A+" <-> (90 <= q)%Q) /\
      (calculateGrade (Fin q) = "A" <-> (80 <= q < 90)%Q) /\
      (calculateGrade (Fin q) = "B" <-> (70 <= q < 80)%Q) /\
      (calculateGrade (Fin q) = "C" <-> (55 <= q < 70)%Q) /\
      (calculateGrade (Fin q) = "D" <-> (35 <= q < 55)%Q) /\
      (calculateGrade (Fin q) = "F" <-> (q < 35)%Q)) /\
  calculateGrade (Fin 90) = "A+" /\
  calculateGrade (Fin (8999 # 100)) = "A" /\
  calculateGrade (Fin 35) = "D" /\
  calculateGrade (Fin (3499 # 100)) = "F" /\
  (forall p : JsNum,
      In (calculateGrade p) ["A+"; "A"; "B"; "C"; "D"; "F"]).
Proof.
  split; [|repeat split; try reflexivity].
  - intros q. unfold calculateGrade, jge.
    destruct (Qle_bool 90 q) eqn:E90;
      [apply Qle_bool_iff in E90 | apply Qle_bool_false in E90];
    (destruct (Qle_bool 80 q) eqn:E80;
      [apply Qle_bool_iff in E80 | apply Qle_bool_false in E80]);
    (destruct (Qle_bool 70 q) eqn:E70;
      [apply Qle_bool_iff in E70 | apply Qle_bool_false in E70]);
    (destruct (Qle_bool 55 q) eqn:E55;
      [apply Qle_bool_iff in E55 | apply Qle_bool_false in E55]);
    (destruct (Qle_bool 35 q) eqn:E35;
      [apply Qle_bool_iff in E35 | apply Qle_bool_false in E35]);
    repeat split; intros; try discriminate; try lra.
  - intros p. unfold calculateGrade.
    repeat match goal with |- context [if ?b then _ else _] => destruct b end;
      simpl; tauto.
Qed.

(* ------------------------------------------------------------------ *)
(** ** Sums *)

Lemma add_mark_converts (a : JsNum) (v : JsVal) :
  converts v = true -> add_mark a v = Ok (jadd a (counted v)).
Proof.
  intros H. unfold add_mark, counted, ToNumber. rewrite H. reflexivity.
Qed.

Lemma add_mark_throws (a : JsNum) (v : JsVal) :
  converts v = false -> add_mark a v = Throw TypeError.
Proof. intros H. unfold add_mark, ToNumber. now rewrite H. Qed.

(** The reducer returns exactly when every value converts, and then returns
    the accumulator plus what the values count for. *)
Lemma reduce_add_mark (vals : list JsVal) (acc : JsNum) :
  if forallb converts vals
  then exists t : JsNum,
         reduce add_mark vals acc = Ok t /\
         num_eq t (jadd acc (jsum (List.map counted vals)))
  else reduce add_mark vals acc = Throw TypeError.
Proof.
  revert acc. induction vals as [|v vals IH]; intros acc; cbn [forallb].
  - exists acc. split; [reflexivity|]. symmetry. apply jadd_0_r.
  - destruct (converts v) eqn:Hv; cbn [andb reduce].
    + rewrite (add_mark_converts _ _ Hv). cbn [bind].
      specialize (IH (jadd acc (counted v))).
      destruct (forallb converts vals); [|exact IH].
      destruct IH as (t & Ht & Hs). exists t. split; [exact Ht|].
      rewrite Hs. cbn [List.map jsum fold_right].
      fold (jsum (List.map counted vals)).
      symmetry. apply jadd_assoc.
    + now rewrite (add_mark_throws _ _ Hv).
Qed.

Lemma reduce_total (vals : list JsVal) (t : JsNum) :
  reduce add_mark vals (Fin 0) = Ok t ->
  forallb converts vals = true /\
  num_eq t (jsum (List.map counted vals)).
Proof.
  intros H. pose proof (reduce_add_mark vals (Fin 0)) as R.
  destruct (forallb converts vals).
  - destruct R as (t' & Ht & Hs). rewrite H in Ht. injection Ht as <-.
    split; [reflexivity|]. rewrite Hs. apply jadd_0_l.
  - rewrite H in R. discriminate.
Qed.

Lemma jsum_perm (l1 l2 : list JsNum) :
  l1 ≡ₚ l2 -> num_eq (jsum l1) (jsum l2).
Proof.
  induction 1; simpl.
  - reflexivity.
  - now rewrite IHPermutation.
  - rewrite !jadd_assoc. now rewrite (jadd_comm y x).
  - etransitivity; eauto.
Qed.

(** Changing a function at one point of a duplicate-free list, from a value
    that counts for nothing, adds the new value to the sum. *)
Lemma jsum_update (K : list string) (i : string) (c : JsNum)
  (g g' : string -> JsNum) :
  NoDup K -> i ∈ K -> num_eq (g i) (Fin 0) -> g' i = c ->
  (forall k, k <> i -> g' k = g k) ->
  num_eq (jsum (List.map g' K)) (jadd c (jsum (List.map g K))).
Proof.
  intros ND Hin Hg Hi Hne. induction ND as [|k K Hk ND IH]; simpl.
  - inversion Hin.
  - destruct (decide (k = i)) as [->|Hki].
    + rewrite Hi.
      assert (E : List.map g' K = List.map g K).
      { apply map_ext_in. intros a Ha. apply Hne. intros ->.
        apply Hk. now apply list_elem_of_In. }
      rewrite E, Hg. now rewrite jadd_0_l.
    + rewrite (Hne k Hki).
      apply elem_of_cons in Hin as [Hin|Hin]; [congruence|].
      rewrite (IH Hin).
      rewrite !jadd_assoc. now rewrite (jadd_comm (g k) c).
Qed.

Lemma jsum_zeros {A : Type} (K : list A) :
  num_eq (jsum (List.map (fun _ => Fin 0) K)) (Fin 0).
Proof.
  induction K as [|k K IH]; [reflexivity|].
  change (num_eq (jadd (Fin 0) (jsum (List.map (fun _ => Fin 0) K))) (Fin 0)).
  now rewrite jadd_0_l.
Qed.

(** The values of an object whose keys all lie in a duplicate-free list [K]
    add up to the sum over [K] of what each key holds. *)
Lemma jsum_object (K : list string) (m : gmap string JsVal) :
  NoDup K -> (forall k, is_Some (m !! k) -> k ∈ K) ->
  num_eq (jsum (List.map counted (map_to_list m).*2))
         (jsum (List.map (fun k => counted_opt (m !! k)) K)).
Proof.
  intros ND. induction m as [|i x m Hi IH] using map_ind; intros Hdom.
  - rewrite map_to_list_empty.
    change (num_eq (Fin 0)
              (jsum (List.map
                       (fun k => counted_opt ((∅ : gmap string JsVal) !! k)) K))).
    assert (E : List.map (fun k => counted_opt ((∅ : gmap string JsVal) !! k)) K
                = List.map (fun _ => Fin 0) K)
      by (apply map_ext; intros; now rewrite lookup_empty).
    rewrite E. symmetry. apply jsum_zeros.
  - rewrite (jsum_perm _ (List.map counted ((i, x) :: map_to_list m).*2)).
    2:{ apply Permutation_map, fmap_Permutation. now apply map_to_list_insert. }
    simpl. rewrite IH.
    2:{ intros k Hk. apply Hdom. rewrite lookup_insert_ne; auto.
        intros ->. rewrite Hi in Hk. now destruct Hk. }
    symmetry.
    apply (jsum_update K i (counted x)
             (fun k => counted_opt (m !! k))
             (fun k => counted_opt (<[i:=x]> m !! k))); auto.
    + apply Hdom. rewrite lookup_insert_eq. eauto.
    + now rewrite Hi.
    + now rewrite lookup_insert_eq.
    + intros k Hk. now rewrite lookup_insert_ne.
Qed.

Lemma NoDup_subjects : NoDup subjects.
Proof. compute_done. Qed.

(* ------------------------------------------------------------------ *)
(** ** The normalizer *)

Lemma truthy_Object_values (v : JsVal) :
  truthy v = true -> exists vals, Object_values v = Ok vals.
Proof. destruct v; simpl; try discriminate; eauto. Qed.

Lemma truthy_val_or (x : option JsVal) :
  truthy (val_or x zero_marks) = true.
Proof.
  destruct x as [v|]; simpl; [|reflexivity].
  unfold js_or. destruct (truthy v) eqn:E; auto.
Qed.

(** Reading the values of the final marks never throws; the normalizer
    returns the record built around the reducer's total, or throws what the
    reducer throws. *)
Lemma processStudentData_cases (uuid : string) (data : Partial.t) :
  exists vals : list JsVal,
    Object_values (val_or (Partial.marks data) zero_marks) = Ok vals /\
    processStudentData uuid data =
      (try! total := reduce add_mark vals (Fin 0) in
       Ok (normalized uuid data total)).
Proof.
  destruct (truthy_Object_values _ (truthy_val_or (Partial.marks data)))
    as [vals Hv].
  exists vals. split; [exact Hv|].
  unfold processStudentData. now rewrite Hv.
Qed.

Lemma processStudentData_inv (uuid : string) (data : Partial.t)
  (s : Student.t) :
  processStudentData uuid data = Ok s ->
  exists (vals : list JsVal) (total : JsNum),
    Object_values (val_or (Partial.marks data) zero_marks) = Ok vals /\
    reduce add_mark vals (Fin 0) = Ok total /\
    s = normalized uuid data total.
Proof.
  intros H. destruct (processStudentData_cases uuid data) as (vals & Hv & E).
  rewrite E in H. exists vals.
  destruct (reduce add_mark vals (Fin 0)) as [total|e]; [|discriminate].
  exists total. cbn [bind] in H. injection H as <-. auto.
Qed.

(** The normalizer returns exactly on readable marks. *)
Lemma processStudentData_readable (uuid : string) (data : Partial.t) :
  if readable (val_or (Partial.marks data) zero_marks)
  then exists s : Student.t, processStudentData uuid data = Ok s
  else processStudentData uuid data = Throw TypeError.
Proof.
  destruct (processStudentData_cases uuid data) as (vals & Hv & E).
  unfold readable. rewrite Hv, E.
  pose proof (reduce_add_mark vals (Fin 0)) as R.
  destruct (forallb converts vals).
  - destruct R as (t & -> & _). cbn [bind]. eauto.
  - now rewrite R.
Qed.

Lemma plain_counted (v : JsVal) :
  plain v = true -> num_eq (counted v) (spec_value (Some v)).
Proof.
  destruct v as [| |b|n|s|l e|m]; unfold plain, counted;
    try (destruct (ToNumber _) as [x|]; [|discriminate];
         intros H; apply negb_true_iff in H;
         unfold num_or_zero; rewrite H; reflexivity).
  intros _. cbn.
  destruct n as [q| | |]; try reflexivity.
  apply (num_or_zero_fin q).
Qed.

Lemma jsum_ext (K : list string) (f g : string -> JsNum) :
  (forall k, k ∈ K -> num_eq (f k) (g k)) ->
  num_eq (jsum (List.map f K)) (jsum (List.map g K)).
Proof.
  induction K as [|k K IH]; intros H; simpl; [reflexivity|].
  rewrite (H k), IH; [reflexivity| |]; intros; (try apply H); set_solver.
Qed.

(** The derived fields of a normalized record, from its final marks. *)
Lemma derived_fields (uuid : string) (data : Partial.t) (s : Student.t) :
  processStudentData uuid data = Ok s ->
  derived_consistent s /\
  (forall m : gmap string JsVal,
      Student.marks s = VObj m ->
      (forall k v, m !! k = Some v -> k ∈ subjects) ->
      num_eq (Student.total s)
        (jsum (List.map (fun k => counted_opt (m !! k)) subjects)) /\
      ((forall k v, m !! k = Some v -> plain v = true) ->
       num_eq (Student.total s) (spec_total (Student.marks s)))).
Proof.
  intros H.
  destruct (processStudentData_inv _ _ _ H) as (vals & total & Hv & Hr & ->).
  destruct (reduce_total _ _ Hr) as [Hc Ht].
  cbn [normalized Student.marks Student.total Student.percentage
       Student.grade].
  split.
  - exists vals. cbn [normalized Student.marks Student.total
                       Student.percentage Student.grade]. auto.
  - intros m Hm Hkeys.
    assert (Hsum : num_eq total
              (jsum (List.map (fun k => counted_opt (m !! k)) subjects))).
    { rewrite Hm in Hv. cbn [Object_values] in Hv. injection Hv as <-.
      rewrite Ht. apply jsum_object; [apply NoDup_subjects|].
      intros k [v Hk]. eauto. }
    split; [exact Hsum|].
    intros Hplain. rewrite Hsum, Hm. unfold spec_total.
    apply jsum_ext. intros k _. cbn [own_prop].
    destruct (m !! k) as [v|] eqn:E; [|reflexivity]. cbn [counted_opt].
    apply plain_counted. eauto.
Qed.



Lemma Marks_keys (a b c d e : Z) (m : gmap string JsVal) :
  Marks a b c d e = VObj m ->
  forall k v, m !! k = Some v -> k ∈ subjects.
Proof.
  intros [= <-] k v H.
  repeat (apply lookup_insert_Some in H as [[<- _]|[_ H]]; [set_solver|]).
  now rewrite lookup_empty in H.
Qed.

Lemma Marks_readable (a b c d e : Z) : readable (Marks a b c d e) = true.
Proof.
  unfold readable, Marks. cbn [Object_values].
  apply forallb_forall. intros v Hv.
  apply list_elem_of_In, list_elem_of_fmap in Hv as ([k v'] & -> & Hv).
  apply elem_of_map_to_list in Hv. cbn [snd].
  repeat (apply lookup_insert_Some in Hv as [[_ <-]|[_ Hv]]; [reflexivity|]).
  now rewrite lookup_empty in Hv.
Qed.

Lemma Qfloor_unique (x : Q) (z : Z) :
  (inject_Z z <= x)%Q -> (x < inject_Z (z + 1))%Q -> Qfloor x = z.
Proof.
  intros H1 H2.
  pose proof (Qfloor_le x) as F1. pose proof (Qlt_floor x) as F2.
  assert (A : (inject_Z z < inject_Z (Qfloor x + 1))%Q) by lra.
  assert (B : (inject_Z (Qfloor x) < inject_Z (z + 1))%Q) by lra.
  rewrite <- Zlt_Qlt in A, B. lia.
Qed.

(** On a value that is not negative the program's rounding is the
    specification's. *)
Lemma round2_half_up (x : Q) : (0 <= x)%Q -> round2 x = round_half_up_2dp x.
Proof.
  intros H. unfold round2, round_half_up_2dp.
  assert (E : Qle_bool 0 x = true) by now apply Qle_bool_iff.
  rewrite E. f_equal. apply Qfloor_comp.
  now rewrite (Qabs_pos x H).
Qed.

(** A fifth of an integer has at most one decimal: rounding to two leaves
    it as it is. *)
Lemma round2_fifth (t : Z) :
  (0 <= t)%Z -> (round2 (inject_Z t / 5) == inject_Z t / 5)%Q.
Proof.
  intros H.
  assert (P : (0 <= inject_Z t / 5)%Q).
  { apply Qle_shift_div_l; [reflexivity|]. rewrite Qmult_0_l.
    change 0%Q with (inject_Z 0). now rewrite <- Zle_Qle. }
  rewrite (round2_half_up _ P). unfold round_half_up_2dp.
  assert (F : Qfloor (inject_Z t / 5 * 100 + (1 # 2)) = (20 * t)%Z).
  { assert (E : (inject_Z t / 5 * 100 + (1 # 2)
                 == inject_Z (20 * t) + (1 # 2))%Q).
    { rewrite inject_Z_mult. change (inject_Z 20) with 20%Q. field. }
    apply Qfloor_unique; rewrite E; [|rewrite inject_Z_plus];
      change (inject_Z 1) with 1%Q; lra. }
  rewrite F. unfold Qeq, Qdiv, Qmult, Qinv, inject_Z. simpl. lia.
Qed.

Lemma jsum_Marks (a b c d e : Z) (m : gmap string JsVal) :
  Marks a b c d e = VObj m ->
  num_eq (jsum (List.map (fun k => counted_opt (m !! k)) subjects))
         (Fin (inject_Z (a + b + c + d + e))).
Proof.
  intros [= <-]. unfold subjects. cbn [List.map jsum fold_right].
  repeat first [rewrite lookup_insert_eq
               | rewrite lookup_insert_ne by discriminate].
  unfold counted_opt.
  change (counted (VNum (Fin (inject_Z a)))) with (num_or_zero (Fin (inject_Z a))).
  change (counted (VNum (Fin (inject_Z b)))) with (num_or_zero (Fin (inject_Z b))).
  change (counted (VNum (Fin (inject_Z c)))) with (num_or_zero (Fin (inject_Z c))).
  change (counted (VNum (Fin (inject_Z d)))) with (num_or_zero (Fin (inject_Z d))).
  change (counted (VNum (Fin (inject_Z e)))) with (num_or_zero (Fin (inject_Z e))).
  rewrite !num_or_zero_fin. cbn [jadd num_eq].
  rewrite !inject_Z_plus. ring.
Qed.

(** C6.  For marks of five integers between 0 and 100 the total is their
    sum and is at most 500; the percentage is a fifth of the total rounded
    half up to two decimals, which here is a fifth of the total exactly.
    The marks 95, 92, 88, 90, 85 give total 450, percentage 90 and grade
    A+. *)
Theorem integer_marks_total_percentage (uuid : string) (data : Partial.t)
  (a b c d e : Z) :
  (0 <= a <= 100)%Z -> (0 <= b <= 100)%Z -> (0 <= c <= 100)%Z ->
  (0 <= d <= 100)%Z -> (0 <= e <= 100)%Z ->
  Partial.marks data = Some (Marks a b c d e) ->
  (exists s : Student.t,
      processStudentData uuid data = Ok s /\
      num_eq (Student.total s) (Fin (inject_Z (a + b + c + d + e))) /\
      (a + b + c + d + e <= 500)%Z /\
      num_eq (Student.percentage s)
        (Fin (round_half_up_2dp (inject_Z (a + b + c + d + e) / 5))) /\
      num_eq (Student.percentage s) (Fin (inject_Z (a + b + c + d + e) / 5)) /\
      Student.grade s = calculateGrade (Student.percentage s)) /\
  (exists s : Student.t,
      processStudentData uuid (only_marks (Marks 95 92 88 90 85)) = Ok s /\
      num_eq (Student.total s) (Fin 450) /\
      num_eq (Student.percentage s) (Fin 90) /\
      Student.grade s = "A+").
Proof.
  intros Ha Hb Hc Hd He Hm. split.
  - assert (Hfinal : val_or (Partial.marks data) zero_marks = Marks a b c d e)
      by now rewrite Hm.
    pose proof (processStudentData_readable uuid data) as R.
    rewrite Hfinal, Marks_readable in R. destruct R as [s Hs].
    exists s. split; [exact Hs|].
    destruct (derived_fields _ _ _ Hs) as [(vals & _ & _ & _ & Hp & Hg) Hobj].
    assert (Hmarks : Student.marks s = Marks a b c d e).
    { destruct (processStudentData_inv _ _ _ Hs) as (? & ? & _ & _ & ->).
      exact Hfinal. }
    assert (Htot : num_eq (Student.total s)
                     (Fin (inject_Z (a + b + c + d + e)))).
    { destruct (Hobj _ Hmarks (Marks_keys _ _ _ _ _ _ eq_refl)) as [H _].
      rewrite H. now apply jsum_Marks. }
    assert (Hnn : (0 <= a + b + c + d + e)%Z) by lia.
    assert (Hper : num_eq (Student.percentage s)
                     (Fin (round2 (inject_Z (a + b + c + d + e) / 5)))).
    { rewrite Hp, Htot. reflexivity. }
    split; [exact Htot|]. split; [lia|]. split; [|split].
    + rewrite Hper, round2_half_up; [reflexivity|].
      apply Qle_shift_div_l; [reflexivity|]. rewrite Qmult_0_l.
      change 0%Q with (inject_Z 0). now rewrite <- Zle_Qle.
    + rewrite Hper. cbn [num_eq]. now apply round2_fifth.
    + exact Hg.
  - eexists. split; [reflexivity|]. vm_compute. repeat split.
Qed.

(** C6, an instance: the marks 70, 65, 80, 55, 60 give total 330 and
    percentage 66. *)
Lemma integer_marks_total_percentage_witness :
  exists s : Student.t,
    processStudentData "id-1" (only_marks (Marks 70 65 80 55 60)) = Ok s /\
    num_eq (Student.total s) (Fin 330) /\
    num_eq (Student.percentage s) (Fin 66) /\
    Student.grade s = calculateGrade (Student.percentage s).
Proof.
  destruct (integer_marks_total_percentage "id-1"
              (only_marks (Marks 70 65 80 55 60)) 70 65 80 55 60)
    as [(s & Hs & Ht & _ & _ & Hp & Hg) _];
    [lia | lia | lia | lia | lia | reflexivity |].
  exists s. split; [exact Hs|]. split; [exact Ht|]. split; [|exact Hg].
  etransitivity; [exact Hp|]. reflexivity.
Defined.

Lemma str_or_idem (x : option string) (d : string) :
  str_or (Some (str_or x d)) d = str_or x d.
Proof.
  unfold str_or at 1. destruct (String.eqb (str_or x d) "") eqn:E; auto.
  apply String.eqb_eq in E. rewrite E.
  destruct x as [s|]; simpl in *; [|auto].
  destruct (String.eqb s "") eqn:F; auto.
  apply String.eqb_neq in F. congruence.
Qed.

Lemma str_or_keep (t d : string) : t <> "" -> str_or (Some t) d = t.
Proof.
  intros H. unfold str_or. apply String.eqb_neq in H. now rewrite H.
Qed.

(** C9.  The normalizer is idempotent: when it returns a record that has
    an identifier (one was supplied, or the generated one is not empty, as
    a UUID never is), normalizing that record again returns the same
    record, hence the same [id], [marks], [total], [percentage] and
    [grade], whatever a second generated identifier would have been. *)
Theorem normalize_idempotent (u1 u2 : string) (x : Partial.t)
  (y : Student.t) :
  str_or (Partial.id x) u1 <> "" ->
  processStudentData u1 x = Ok y ->
  exists z : Student.t,
    processStudentData u2 (as_partial y) = Ok z /\
    Student.id z = Student.id y /\
    Student.marks z = Student.marks y /\
    Student.total z = Student.total y /\
    Student.percentage z = Student.percentage y /\
    Student.grade z = Student.grade y /\
    z = y.
Proof.
  intros Hid Hy.
  destruct (processStudentData_inv _ _ _ Hy) as (vals & total & Hv & Hr & ->).
  exists (normalized u1 x total).
  split; [|repeat split].
  unfold processStudentData, as_partial, normalized.
  cbn [Partial.marks Partial.id Partial.name Partial.rollNo
       Partial.className Partial.examName Student.marks Student.id
       Student.name Student.rollNo Student.className Student.examName
       val_or].
  unfold js_or at 1. rewrite truthy_val_or, Hv. cbn [bind].
  rewrite Hr. cbn [bind].
  unfold js_or at 1. rewrite truthy_val_or.
  rewrite !str_or_idem, (str_or_keep _ u2 Hid). reflexivity.
Qed.

(** C9, an instance: a record normalized from partly filled marks is
    returned unchanged by a second pass. *)
Lemma normalize_idempotent_witness :
  exists y : Student.t,
    processStudentData "id-1" (only_marks partial_marks) = Ok y /\
    processStudentData "id-2" (as_partial y) = Ok y.
Proof.
  assert (H : exists y : Student.t,
             processStudentData "id-1" (only_marks partial_marks) = Ok y)
    by (eexists; reflexivity).
  destruct H as [y Hy]. exists y. split; [exact Hy|].
  destruct (normalize_idempotent "id-1" "id-2" (only_marks partial_marks) y)
    as (z & Hz & _ & _ & _ & _ & _ & E); [discriminate | exact Hy |].
  rewrite <- E at 2. exact Hz.
Defined.

Lemma zero_marks_complete :
  complete_marks zero_marks /\
  forall k, k ∈ subjects -> own_prop zero_marks k = Some (VNum (Fin 0)).
Proof.
  assert (H : forall k, k ∈ subjects ->
                own_prop zero_marks k = Some (VNum (Fin 0))).
  { intros k Hk. unfold subjects in Hk.
    repeat (apply elem_of_cons in Hk as [->|Hk]; [reflexivity|]).
    inversion Hk. }
  split; [|exact H].
  eexists. split; [reflexivity|]. intros k Hk. exists (Fin 0).
  exact (H k Hk).
Qed.

Lemma readable_object (m : gmap string JsVal) :
  readable (VObj m) = true <->
  forall k v, m !! k = Some v -> converts v = true.
Proof.
  unfold readable. cbn [Object_values]. rewrite forallb_forall. split.
  - intros H k v Hk. apply H.
    apply list_elem_of_In, list_elem_of_fmap. exists (k, v).
    split; [reflexivity|]. now apply elem_of_map_to_list.
  - intros H v Hv.
    apply list_elem_of_In, list_elem_of_fmap in Hv as ([k v'] & -> & Hv).
    apply elem_of_map_to_list in Hv. eauto.
Qed.

(* ------------------------------------------------------------------ *)
(** ** Strings: trimming and case *)

Lemma code_inj (a b : ascii) : code a = code b -> a = b.
Proof.
  unfold code. intros H.
  now rewrite <- (ascii_N_embedding a), <- (ascii_N_embedding b), H.
Qed.

Lemma code_lower_char (c : ascii) :
  code (lower_char c)
  = if ((65 <=? code c) && (code c <=? 90))%N then (code c + 32)%N
    else code c.
Proof.
  unfold lower_char.
  destruct ((65 <=? code c) && (code c <=? 90))%N eqn:E; [|reflexivity].
  apply andb_true_iff in E as [_ E]. apply N.leb_le in E.
  unfold code at 1. apply N_ascii_embedding. lia.
Qed.

(** [toLowerCase] sends two characters to the same one exactly when they
    are the same up to the case of an ASCII letter. *)
Lemma lower_char_same (a b : ascii) :
  lower_char a = lower_char b <-> same_letter a b.
Proof.
  unfold same_letter. split.
  - intros H. apply (f_equal code) in H. rewrite !code_lower_char in H.
    destruct (N.leb_spec 65 (code a)), (N.leb_spec (code a) 90),
      (N.leb_spec 65 (code b)), (N.leb_spec (code b) 90);
      cbn [andb] in H;
      first [ left; apply code_inj; lia
            | right; left; lia
            | right; right; lia ].
  - intros H. apply code_inj. rewrite !code_lower_char.
    destruct (N.leb_spec 65 (code a)), (N.leb_spec (code a) 90),
      (N.leb_spec 65 (code b)), (N.leb_spec (code b) 90);
      cbn [andb];
      destruct H as [->|[H|H]]; lia.
Qed.

Lemma toLowerCase_eq (s t : string) :
  toLowerCase s = toLowerCase t <-> eq_ignore_case s t.
Proof.
  revert t. induction s as [|a s IH]; intros [|b t]; simpl;
    try (split; (discriminate || tauto)).
  rewrite <- IH, <- lower_char_same. split.
  - intros [= H1 H2]. auto.
  - intros [H1 H2]. now rewrite H1, H2.
Qed.

Lemma append_cons (c : ascii) (s t : string) :
  String c s ++ t = String c (s ++ t).
Proof. reflexivity. Qed.

Lemma append_empty (t : string) : "" ++ t = t.
Proof. reflexivity. Qed.

Lemma append_nil_r (s : string) : s ++ "" = s.
Proof.
  induction s; rewrite ?append_cons, ?append_empty; congruence.
Qed.

Lemma list_ascii_app (s t : string) :
  list_ascii_of_string (s ++ t) =
  (list_ascii_of_string s ++ list_ascii_of_string t)%list.
Proof.
  induction s; rewrite ?append_cons, ?append_empty; simpl; congruence.
Qed.

Lemma string_of_list_app (l k : list ascii) :
  string_of_list_ascii (l ++ k)%list =
  string_of_list_ascii l ++ string_of_list_ascii k.
Proof.
  induction l; simpl; rewrite ?append_cons, ?append_empty; congruence.
Qed.

Lemma str_rev_app (s t : string) : str_rev (s ++ t) = str_rev t ++ str_rev s.
Proof.
  unfold str_rev. now rewrite list_ascii_app, rev_app_distr, string_of_list_app.
Qed.

Lemma all_white_app (s t : string) :
  all_white (s ++ t) = all_white s && all_white t.
Proof.
  induction s as [|c s IH]; rewrite ?append_cons, ?append_empty; simpl;
    [reflexivity|].
  now rewrite IH, andb_assoc.
Qed.

Lemma all_white_rev (s : string) : all_white (str_rev s) = all_white s.
Proof.
  induction s as [|c s IH]; [reflexivity|].
  change (String c s) with (String c "" ++ s).
  rewrite str_rev_app, !all_white_app, IH.
  change (str_rev (String c "")) with (String c "").
  apply andb_comm.
Qed.

Lemma trimStart_white (w s : string) :
  all_white w = true -> trimStart (w ++ s) = trimStart s.
Proof.
  induction w as [|c w IH]; rewrite ?append_cons, ?append_empty; simpl;
    [reflexivity|].
  intros H. apply andb_true_iff in H as [H1 H2]. rewrite H1. auto.
Qed.

Lemma trimStart_all_white (w : string) :
  all_white w = true -> trimStart w = "".
Proof.
  intros H. rewrite <- (append_nil_r w). now rewrite trimStart_white.
Qed.

Lemma trimStart_app (s w : string) :
  all_white s = false -> trimStart (s ++ w) = trimStart s ++ w.
Proof.
  induction s as [|c s IH]; rewrite ?append_cons, ?append_empty; simpl;
    [discriminate|].
  destruct (is_white c); simpl; auto.
Qed.

Lemma trimEnd_white (s w : string) :
  all_white w = true -> trimEnd (s ++ w) = trimEnd s.
Proof.
  intros H. unfold trimEnd. rewrite str_rev_app, trimStart_white; auto.
  now rewrite all_white_rev.
Qed.

Lemma trimEnd_all_white (w : string) : all_white w = true -> trimEnd w = "".
Proof.
  intros H. unfold trimEnd. rewrite trimStart_all_white; [reflexivity|].
  now rewrite all_white_rev.
Qed.

(** White space around a text does not change what [trim] returns. *)
Lemma trim_padding (w1 s w2 : string) :
  all_white w1 = true -> all_white w2 = true ->
  trim (w1 ++ s ++ w2) = trim s.
Proof.
  intros H1 H2. unfold trim. rewrite trimStart_white by exact H1.
  destruct (all_white s) eqn:E.
  - rewrite (trimStart_all_white s E), trimStart_all_white; [reflexivity|].
    now rewrite all_white_app, E, H2.
  - rewrite trimStart_app by exact E. now apply trimEnd_white.
Qed.

Lemma str_rev_involutive (s : string) : str_rev (str_rev s) = s.
Proof.
  unfold str_rev.
  now rewrite list_ascii_of_string_of_list_ascii, rev_involutive,
    string_of_list_ascii_of_string.
Qed.

Lemma trimStart_decomp (s : string) :
  exists w : string,
    all_white w = true /\ s = w ++ trimStart s /\
    not_white_first (trimStart s).
Proof.
  induction s as [|c s (w & Hw & Hs & Hf)].
  - exists "". repeat split.
  - cbn [trimStart]. destruct (is_white c) eqn:E.
    + exists (String c w). cbn [all_white]. rewrite E, Hw.
      rewrite append_cons, <- Hs. repeat split. exact Hf.
    + exists "". repeat split. exact E.
Qed.

Lemma trimEnd_decomp (s : string) :
  exists w : string,
    all_white w = true /\ s = trimEnd s ++ w /\
    not_white_first (str_rev (trimEnd s)).
Proof.
  destruct (trimStart_decomp (str_rev s)) as (w & Hw & Hs & Hf).
  exists (str_rev w). split; [now rewrite all_white_rev|].
  unfold trimEnd. split.
  - rewrite <- str_rev_app, <- Hs. symmetry. apply str_rev_involutive.
  - now rewrite str_rev_involutive.
Qed.

(** [trim] removes white space at both ends and nothing else. *)
Lemma trim_decomp (s : string) :
  exists w1 w2 : string,
    all_white w1 = true /\ all_white w2 = true /\
    s = w1 ++ trim s ++ w2 /\
    not_white_first (trim s) /\ not_white_first (str_rev (trim s)).
Proof.
  destruct (trimStart_decomp s) as (w1 & Hw1 & Hs1 & Hf1).
  destruct (trimEnd_decomp (trimStart s)) as (w2 & Hw2 & Hs2 & Hf2).
  exists w1, w2. unfold trim. repeat split; auto.
  - now rewrite <- Hs2.
  - destruct (trimEnd (trimStart s)) as [|c t] eqn:E; [exact I|].
    rewrite Hs2, append_cons in Hf1. exact Hf1.
Qed.

(* ------------------------------------------------------------------ *)
(** ** The record store *)

Lemma filter_In_neg {A : Type} (p : A -> bool) (l : list A) (x : A) :
  In x (List.filter (fun y => negb (p y)) l) <-> In x l /\ p x = false.
Proof. rewrite filter_In, negb_true_iff. reflexivity. Qed.

Lemma filter_split_length {A : Type} (p : A -> bool) (l : list A) :
  (List.length (List.filter (fun y => negb (p y)) l)
   + List.length (List.filter p l) = List.length l)%nat.
Proof.
  induction l as [|x l IH]; simpl; [reflexivity|].
  destruct (p x); simpl; lia.
Qed.

Lemma filter_sublist {A : Type} (p : A -> bool) (l : list A) :
  sublist (List.filter p l) l.
Proof.
  induction l as [|x l IH]; simpl; [constructor|].
  destruct (p x); now constructor.
Qed.

Lemma filter_all {A : Type} (p : A -> bool) (l : list A) :
  (forall x, In x l -> p x = true) -> List.filter p l = l.
Proof.
  induction l as [|x l IH]; simpl; intros H; [reflexivity|].
  rewrite (H x) by auto. f_equal. apply IH. auto.
Qed.

Lemma find_id_unique (id : string) (l : list Exam.t) (e0 ex : Exam.t) :
  NoDup (List.map Exam.id l) -> In e0 l -> Exam.id e0 = id ->
  List.find (fun e => String.eqb (Exam.id e) id) l = Some ex -> ex = e0.
Proof.
  induction l as [|e l IH]; simpl; intros ND Hin Hid Hf; [contradiction|].
  apply NoDup_cons in ND as [Hn ND].
  destruct (String.eqb (Exam.id e) id) eqn:E.
  - injection Hf as <-. apply String.eqb_eq in E.
    destruct Hin as [->|Hin]; [reflexivity|].
    exfalso. apply Hn. apply list_elem_of_In, in_map_iff.
    exists e0. split; [congruence|exact Hin].
  - destruct Hin as [->|Hin].
    + apply String.eqb_neq in E. contradiction.
    + now apply IH.
Qed.

(** C2.  Deleting by an identifier that an exam of the collection carries
    finds that exam (the first with the identifier, the only one when
    identifiers are unique); in the state the handler returns, the exams
    are those with another identifier, the students are exactly those whose
    [examName] differs from the found exam's name, in their order, and the
    number of students has gone down by the number of students that had
    that name.  Both collections change in the one returned state, and
    nothing else does. *)
Theorem onDeleteExam_cascade (id : string) (a : App.state) (e0 : Exam.t) :
  In e0 (App.exams a) -> Exam.id e0 = id ->
  exists ex : Exam.t,
    List.find (fun e => String.eqb (Exam.id e) id) (App.exams a) = Some ex /\
    In ex (App.exams a) /\ Exam.id ex = id /\
    (NoDup (List.map Exam.id (App.exams a)) -> ex = e0) /\
    let a' := onDeleteExam id a in
    (forall e, In e (App.exams a') <-> In e (App.exams a) /\ Exam.id e <> id) /\
    (forall s, In s (App.students a') <->
               In s (App.students a) /\ Student.examName s <> Exam.name ex) /\
    sublist (App.students a') (App.students a) /\
    (List.length (App.students a')
     + List.length
         (List.filter
            (fun s => String.eqb (Student.examName s) (Exam.name ex))
            (App.students a))
     = List.length (App.students a))%nat /\
    App.page a' = App.page a /\ App.isAdmin a' = App.isAdmin a /\
    App.selected a' = App.selected a.
Proof.
  intros Hin Hid.
  destruct (List.find (fun e => String.eqb (Exam.id e) id) (App.exams a))
    as [ex|] eqn:Hf.
  2:{ exfalso. apply (find_none _ _ Hf) in Hin.
      apply String.eqb_neq in Hin. contradiction. }
  exists ex. split; [reflexivity|].
  pose proof (find_some _ _ Hf) as [Hex Hexid]. apply String.eqb_eq in Hexid.
  split; [exact Hex|]. split; [exact Hexid|].
  split; [intros ND; eapply find_id_unique; eauto|].
  unfold onDeleteExam. rewrite Hf. cbn.
  split; [|split; [|split; [|split]]].
  - intros e. rewrite filter_In_neg. now rewrite String.eqb_neq.
  - intros s. rewrite filter_In_neg. now rewrite String.eqb_neq.
  - apply filter_sublist.
  - apply (filter_split_length
             (fun s => String.eqb (Student.examName s) (Exam.name ex))).
  - auto.
Qed.

(** C2, an instance: of three students, two in Finals, deleting Finals
    leaves the one in Midterm, and the exam Midterm. *)
Lemma onDeleteExam_cascade_witness :
  let finals := Exam.mk "e1" "Finals" "2024-05-01" in
  let midterm := Exam.mk "e2" "Midterm" "2024-02-01" in
  let st (i n : string) :=
    Student.mk i "" "" "" n zero_marks (Fin 0) (Fin 0) "F" in
  let a := App.mk "admin" true
             [st "s1" "Finals"; st "s2" "Midterm"; st "s3" "Finals"]
             [finals; midterm] None in
  App.exams (onDeleteExam "e1" a) = [midterm] /\
  App.students (onDeleteExam "e1" a) = [st "s2" "Midterm"] /\
  exists ex : Exam.t, In ex (App.exams a) /\ Exam.id ex = "e1" /\
    forall s, In s (App.students (onDeleteExam "e1" a)) <->
              In s (App.students a) /\ Student.examName s <> Exam.name ex.
Proof.
  intros finals midterm st a.
  split; [reflexivity|]. split; [reflexivity|].
  destruct (onDeleteExam_cascade "e1" a finals)
    as (ex & _ & Hex & Hid & _ & _ & Hs & _); [now left | reflexivity |].
  exists ex. auto.
Defined.

(** C10.  Deleting by an identifier that no exam carries leaves the exams
    and the students as they were: the state is unchanged. *)
Theorem onDeleteExam_unknown_id (id : string) (a : App.state) :
  (forall e, In e (App.exams a) -> Exam.id e <> id) ->
  App.exams (onDeleteExam id a) = App.exams a /\
  App.students (onDeleteExam id a) = App.students a /\
  onDeleteExam id a = a.
Proof.
  intros H.
  assert (Hf : List.find (fun e => String.eqb (Exam.id e) id) (App.exams a)
               = None).
  { destruct (List.find _ _) as [ex|] eqn:Hf; [|reflexivity].
    apply find_some in Hf as [Hin E]. apply String.eqb_eq in E.
    now apply H in Hin. }
  assert (He : List.filter (fun e => negb (String.eqb (Exam.id e) id))
                 (App.exams a) = App.exams a).
  { apply filter_all. intros e Hin. apply negb_true_iff, String.eqb_neq. auto. }
  assert (Hs : List.filter
                 (fun s => negb (str_strict_eq (Student.examName s) None))
                 (App.students a) = App.students a)
    by (apply filter_all; reflexivity).
  unfold onDeleteExam. rewrite Hf. unfold setStudents, setExams.
  cbn [App.page App.isAdmin App.students App.exams App.selected option_map].
  rewrite He, Hs. destruct a. auto.
Qed.

(** C10, an instance: deleting by an identifier that no exam has changes
    nothing. *)
Lemma onDeleteExam_unknown_id_witness :
  let a := App.mk "admin" true
             [Student.mk "s1" "Ann" "7" "X" "Finals" zero_marks
                (Fin 0) (Fin 0) "F"]
             [Exam.mk "e1" "Finals" "2024-05-01"] None in
  onDeleteExam "e9" a = a.
Proof.
  intros a. apply (onDeleteExam_unknown_id "e9" a).
  intros e [<-|[]]. discriminate.
Defined.

Lemma matches_iff (r ex : string) (st : Student.t) :
  matches r ex st = true <->
  eq_ignore_case (trim (Student.rollNo st)) (trim r) /\
  Student.examName st = ex.
Proof.
  unfold matches. rewrite andb_true_iff, !String.eqb_eq, toLowerCase_eq.
  reflexivity.
Qed.

(* ------------------------------------------------------------------ *)
(** ** [JSON.parse]: the fuel is enough *)

Lemma skip_ws_length (s : string) :
  (String.length (skip_ws s) <= String.length s)%nat.
Proof.
  induction s as [|c s IH]; simpl; [lia|].
  destruct (json_ws c); simpl; lia.
Qed.

Lemma skip_ws_cons (s r : string) (c : ascii) :
  skip_ws s = String c r -> (String.length r < String.length s)%nat.
Proof.
  intros H. pose proof (skip_ws_length s) as L. rewrite H in L.
  simpl in L. lia.
Qed.

Lemma strip_prefix_length (p s r : string) :
  strip_prefix p s = Some r ->
  String.length s = (String.length p + String.length r)%nat.
Proof.
  revert s. induction p as [|a p IH]; intros [|b s]; simpl;
    try discriminate; try (intros [= <-]; reflexivity).
  destruct (Ascii.eqb a b); [|discriminate].
  intros H. apply IH in H. lia.
Qed.

Lemma read_digits_length (base : N) (dig : ascii -> option N) (s : string)
  (acc : N) (cnt : nat) (v : N) (n : nat) (r : string) :
  read_digits base dig s acc cnt = (v, n, r) ->
  (String.length r + n = String.length s + cnt)%nat.
Proof.
  revert acc cnt. induction s as [|c s IH]; intros acc cnt; simpl.
  - intros [= _ <- <-]. reflexivity.
  - destruct (dig c).
    + intros H. apply IH in H. lia.
    + intros [= _ <- <-]. reflexivity.
Qed.

Lemma json_exponent_length (s r : string) (e : Z) :
  json_exponent s = Some (e, r) ->
  (String.length r <= String.length s)%nat.
Proof.
  unfold json_exponent. destruct s as [|c s]; [intros [= _ <-]; lia|].
  destruct ((code c =? 101) || (code c =? 69))%N;
    [|intros [= _ <-]; lia].
  destruct s as [|d s'].
  - simpl. discriminate.
  - destruct (code d =? 45)%N; [|destruct (code d =? 43)%N];
      (destruct (read_digits _ _ _ _ _) as [[v n] r'] eqn:E;
       apply read_digits_length in E;
       destruct n; [discriminate|]; intros [= _ <-]; simpl in *; lia).
Qed.

Lemma json_number_length (s r : string) (q : JsNum) :
  json_number s = Some (q, r) ->
  (String.length r < String.length s)%nat.
Proof.
  unfold json_number.
  set (sg := match s with
             | String c r0 =>
                 if (code c =? 45)%N then (true, r0) else (false, s)
             | EmptyString => (false, s)
             end).
  assert (Hsg : (String.length (snd sg) <= String.length s)%nat).
  { subst sg. destruct s as [|c s0]; simpl; [lia|].
    destruct (code c =? 45)%N; simpl; lia. }
  destruct sg as [neg s1]. simpl in Hsg.
  destruct s1 as [|c s2]; [discriminate|].
  match goal with
  | |- match ?ip with _ => _ end = _ -> _ =>
      assert (Hip : forall ipv r1, ip = Some (ipv, r1) ->
                (String.length r1 < String.length (String c s2))%nat)
  end.
  { intros ipv r1. destruct (code c =? 48)%N.
    - intros [= _ <-]. simpl. lia.
    - destruct (read_digits 10 dec_digit (String c s2) 0 0)
        as [[v n] r'] eqn:E.
      apply read_digits_length in E.
      destruct n; [discriminate|]. intros [= _ <-]. lia. }
  match goal with
  | |- match ?ip with _ => _ end = _ -> _ => destruct ip as [[ipv r1]|]
  end; [|discriminate].
  specialize (Hip ipv r1 eq_refl).
  match goal with
  | |- match ?fr with _ => _ end = _ -> _ =>
      assert (Hfr : forall fp fc r2, fr = Some (fp, fc, r2) ->
                (String.length r2 <= String.length r1)%nat)
  end.
  { intros fp fc r2. destruct r1 as [|c1 r1']; [intros [= _ _ <-]; lia|].
    destruct (code c1 =? 46)%N; [|intros [= _ _ <-]; lia].
    destruct (read_digits 10 dec_digit r1' 0 0) as [[v n] r'] eqn:E.
    apply read_digits_length in E.
    destruct n; [discriminate|]. intros [= _ _ <-]. simpl. lia. }
  match goal with
  | |- match ?fr with _ => _ end = _ -> _ => destruct fr as [[[fp fc] r2]|]
  end; [|discriminate].
  specialize (Hfr fp fc r2 eq_refl).
  destruct (json_exponent r2) as [[e r3]|] eqn:E; [|discriminate].
  apply json_exponent_length in E.
  intros [= _ <-]. lia.
Qed.

Lemma json_string_body_length (s t r : string) :
  json_string_body s = Some (t, r) ->
  (String.length r < String.length s)%nat.
Proof.
  remember (String.length s) as n eqn:Hn. revert s Hn t r.
  induction n as [n IH] using lt_wf_ind. intros s -> t r.
  destruct s as [|c s]; [discriminate|].
  cbn [json_string_body].
  destruct (code c =? 34)%N; [intros [= _ <-]; simpl; lia|].
  destruct (code c <? 32)%N; [discriminate|].
  destruct (code c =? 92)%N.
  - destruct s as [|e s']; [discriminate|].
    destruct (code e =? 117)%N.
    + destruct s' as [|h1 [|h2 [|h3 [|h4 s'']]]]; try discriminate.
      destruct (hex4 h1 h2 h3 h4); [|discriminate].
      destruct (json_string_body s'') as [[t' r']|] eqn:E; [|discriminate].
      pose proof (IH (String.length s'') ltac:(simpl; lia) s'' eq_refl _ _ E).
      intros [= _ <-]. simpl in *. lia.
    + destruct (simple_escape e); [|discriminate].
      destruct (json_string_body s') as [[t' r']|] eqn:E; [|discriminate].
      pose proof (IH (String.length s') ltac:(simpl; lia) s' eq_refl _ _ E).
      intros [= _ <-]. simpl in *. lia.
  - destruct (json_string_body s) as [[t' r']|] eqn:E; [|discriminate].
    pose proof (IH (String.length s) ltac:(simpl; lia) s eq_refl _ _ E).
    intros [= _ <-]. simpl in *. lia.
Qed.

(** Each of the three readers consumes input, and returns the same result
    with any fuel that is at least twice the length of its input (one more
    for the element and member loops). *)
Lemma json_fuel (f : nat) :
  (forall s v r,
      json_value f s = Some (v, r) ->
      (String.length r < String.length s)%nat /\
      forall g, (2 * String.length s <= g)%nat ->
                json_value g s = Some (v, r)) /\
  (forall s acc v r,
      json_elements f s acc = Some (v, r) ->
      (String.length r < String.length s)%nat /\
      forall g, (2 * String.length s + 1 <= g)%nat ->
                json_elements g s acc = Some (v, r)) /\
  (forall s acc v r,
      json_members f s acc = Some (v, r) ->
      (String.length r < String.length s)%nat /\
      forall g, (2 * String.length s + 1 <= g)%nat ->
                json_members g s acc = Some (v, r)).
Proof.
  induction f as [|f (IHv & IHe & IHm)];
    [repeat split; intros; discriminate|].
  split; [|split].
  - intros s v r H. cbn [json_value json_elements json_members] in H.
    destruct (skip_ws s) as [|c t] eqn:Es; [discriminate|].
    pose proof (skip_ws_cons _ _ _ Es) as Lt.
    assert (Hg : forall g, (2 * String.length s <= g)%nat ->
                 exists g', g = S g' /\ (2 * String.length t + 1 <= g')%nat).
    { intros g Hg. destruct g as [|g']; [lia|]. exists g'.
      split; [reflexivity|lia]. }
    destruct (code c =? 123)%N eqn:E1.
    { destruct (skip_ws t) as [|d t'] eqn:Et; [discriminate|].
      pose proof (skip_ws_cons _ _ _ Et) as Lt'.
      destruct (code d =? 125)%N eqn:E2.
      - cbv beta iota in H; injection H as <- <-. split; [lia|].
        intros g Hle. destruct (Hg g Hle) as (g' & -> & _).
        cbn [json_value json_elements json_members]. now rewrite Es, E1, Et, E2.
      - cbv beta iota in H; apply IHm in H as [L H]. split; [lia|].
        intros g Hle. destruct (Hg g Hle) as (g' & -> & Hle').
        cbn [json_value json_elements json_members]. rewrite Es, E1, Et, E2.
        now apply H. }
    destruct (code c =? 91)%N eqn:E3.
    { destruct (skip_ws t) as [|d t'] eqn:Et; [discriminate|].
      pose proof (skip_ws_cons _ _ _ Et) as Lt'.
      destruct (code d =? 93)%N eqn:E2.
      - cbv beta iota in H; injection H as <- <-. split; [lia|].
        intros g Hle. destruct (Hg g Hle) as (g' & -> & _).
        cbn [json_value json_elements json_members].
        now rewrite Es, E1, E3, Et, E2.
      - cbv beta iota in H; apply IHe in H as [L H]. split; [lia|].
        intros g Hle. destruct (Hg g Hle) as (g' & -> & Hle').
        cbn [json_value json_elements json_members]. rewrite Es, E1, E3, Et, E2.
        now apply H. }
    destruct (code c =? 34)%N eqn:E4.
    { destruct (json_string_body t) as [[k rest]|] eqn:Eb; [|discriminate].
      pose proof (json_string_body_length _ _ _ Eb) as Lb.
      cbv beta iota in H; injection H as <- <-. split; [lia|].
      intros g Hle. destruct (Hg g Hle) as (g' & -> & _).
      cbn [json_value json_elements json_members].
      now rewrite Es, E1, E3, E4, Eb. }
    assert (L : (String.length r < String.length s)%nat).
    { pose proof (skip_ws_length s) as Ls. rewrite Es in Ls.
      destruct (strip_prefix "true" (String c t)) as [r1|] eqn:P1.
      { cbv beta iota in H; injection H as <- <-.
        apply strip_prefix_length in P1.
        simpl in *. lia. }
      destruct (strip_prefix "false" (String c t)) as [r2|] eqn:P2.
      { cbv beta iota in H; injection H as <- <-.
        apply strip_prefix_length in P2.
        simpl in *. lia. }
      destruct (strip_prefix "null" (String c t)) as [r3|] eqn:P3.
      { cbv beta iota in H; injection H as <- <-.
        apply strip_prefix_length in P3.
        simpl in *. lia. }
      destruct (json_number (String c t)) as [[q rest]|] eqn:Pn;
        [|discriminate].
      cbv beta iota in H; injection H as <- <-. apply json_number_length in Pn.
      lia. }
    split; [exact L|].
    intros g Hle. destruct (Hg g Hle) as (g' & -> & _).
    cbn [json_value json_elements json_members]. rewrite Es, E1, E3, E4.
    exact H.
  - intros s acc v r H. cbn [json_value json_elements json_members] in H.
    destruct (json_value f s) as [[v0 r0]|] eqn:Ev; [|discriminate].
    destruct (IHv _ _ _ Ev) as [L0 Ev'].
    destruct (skip_ws r0) as [|c r'] eqn:Es; [discriminate|].
    pose proof (skip_ws_cons _ _ _ Es) as Lt.
    assert (Hg : forall g, (2 * String.length s + 1 <= g)%nat ->
                 exists g', g = S g' /\ (2 * String.length s <= g')%nat
                            /\ (2 * String.length r' + 1 <= g')%nat).
    { intros g Hg. destruct g as [|g']; [lia|]. exists g'. repeat split; lia. }
    destruct (code c =? 44)%N eqn:E1.
    + cbv beta iota in H; apply IHe in H as [L H]. split; [lia|].
      intros g Hle. destruct (Hg g Hle) as (g' & -> & H1 & H2).
      cbn [json_value json_elements json_members]. rewrite (Ev' g' H1), Es, E1.
      now apply H.
    + destruct (code c =? 93)%N eqn:E2; [|discriminate].
      cbv beta iota in H; injection H as <- <-. split; [lia|].
      intros g Hle. destruct (Hg g Hle) as (g' & -> & H1 & H2).
      cbn [json_value json_elements json_members].
      now rewrite (Ev' g' H1), Es, E1, E2.
  - intros s acc v r H. cbn [json_value json_elements json_members] in H.
    destruct (skip_ws s) as [|c t] eqn:Es; [discriminate|].
    pose proof (skip_ws_cons _ _ _ Es) as Lt.
    destruct (code c =? 34)%N eqn:E1; [|discriminate].
    destruct (json_string_body t) as [[k r1]|] eqn:Eb; [|discriminate].
    pose proof (json_string_body_length _ _ _ Eb) as Lb.
    destruct (skip_ws r1) as [|d r2] eqn:Es1; [discriminate|].
    pose proof (skip_ws_cons _ _ _ Es1) as Lt1.
    destruct (code d =? 58)%N eqn:E2; [|discriminate].
    destruct (json_value f r2) as [[v0 r3]|] eqn:Ev; [|discriminate].
    destruct (IHv _ _ _ Ev) as [L0 Ev'].
    destruct (skip_ws r3) as [|e r4] eqn:Es3; [discriminate|].
    pose proof (skip_ws_cons _ _ _ Es3) as Lt3.
    assert (Hg : forall g, (2 * String.length s + 1 <= g)%nat ->
                 exists g', g = S g' /\ (2 * String.length r2 <= g')%nat
                            /\ (2 * String.length r4 + 1 <= g')%nat).
    { intros g Hg. destruct g as [|g']; [lia|]. exists g'. repeat split; lia. }
    destruct (code e =? 44)%N eqn:E3.
    + cbv beta iota in H; apply IHm in H as [L H]. split; [lia|].
      intros g Hle. destruct (Hg g Hle) as (g' & -> & H1 & H2).
      cbn [json_value json_elements json_members].
      rewrite Es, E1, Eb, Es1, E2, (Ev' g' H1), Es3, E3. now apply H.
    + destruct (code e =? 125)%N eqn:E4; [|discriminate].
      cbv beta iota in H; injection H as <- <-. split; [lia|].
      intros g Hle. destruct (Hg g Hle) as (g' & -> & H1 & H2).
      cbn [json_value json_elements json_members].
      now rewrite Es, E1, Eb, Es1, E2, (Ev' g' H1), Es3, E3, E4.
Qed.

(** Whatever fuel makes the reader accept a whole text, [JSON_parse]
    accepts the text with the same value: its fuel is never the reason for
    a [SyntaxError]. *)
Lemma JSON_parse_fuel (f : nat) (s r : string) (v : JsVal) :
  json_value f s = Some (v, r) -> skip_ws r = EmptyString ->
  JSON_parse s = Some v.
Proof.
  intros H Hr. destruct (json_fuel f) as (Hv & _ & _).
  apply Hv in H as [_ H]. unfold JSON_parse.
  rewrite (H (2 * String.length s + 2)%nat) by lia. now rewrite Hr.
Qed.

(* ------------------------------------------------------------------ *)
(** ** Persistence *)

Lemma stored_item (x : option string) :
  match stored x with
  | Absent => item_truthy x = false
  | Valid v =>
      item_truthy x = true /\ JSON_parse_or_throw (text_of x) = Ok v
  | Corrupt =>
      item_truthy x = true /\
      JSON_parse_or_throw (text_of x) = Throw SyntaxError
  end.
Proof.
  unfold stored, item_truthy, JSON_parse_or_throw.
  destruct x as [t|]; [|reflexivity]. cbn [text_of].
  destruct (String.eqb t ""); [reflexivity|].
  destruct (JSON_parse t); split; reflexivity.
Qed.

(** C4, counterexample.  A student item that is not JSON makes the load end
    in a [SyntaxError] instead of an empty collection; so does a corrupt
    exam item beside a valid student item. *)
Lemma corrupt_data_aborts_load :
  JSON_parse "{oops" = None /\
  stored (corrupt_students "student_db") = Corrupt /\
  load corrupt_students no_items initial_slots = Throw SyntaxError /\
  stored (corrupt_exams "student_db") = Valid (VArr [] None) /\
  stored (corrupt_exams "exam_db") = Corrupt /\
  load corrupt_exams no_items initial_slots = Throw SyntaxError.
Proof. vm_compute. repeat split. Qed.

(** C4, as amended.  When neither stored item is corrupt the load succeeds:
    a collection whose item is absent or empty is the empty collection, a
    collection whose item is valid JSON is the value it denotes, and the
    admin flag is set exactly when the session holds it.  When either item
    is present and not valid JSON the load throws the parser's
    [SyntaxError]. *)
Theorem load_from_storage (localStorage sessionStorage : Storage) :
  let s := stored (localStorage "student_db") in
  let e := stored (localStorage "exam_db") in
  (s <> Corrupt -> e <> Corrupt ->
   exists st : Slots.t,
     load localStorage sessionStorage initial_slots = Ok st /\
     Slots.students st = restored s /\
     Slots.exams st = restored e /\
     (Slots.isAdmin st = true <-> sessionStorage "is_admin" = Some "true")) /\
  (s = Corrupt \/ e = Corrupt ->
   load localStorage sessionStorage initial_slots = Throw SyntaxError) /\
  restored Absent = VArr [] None /\
  (forall v, restored (Valid v) = v).
Proof.
  intros s e.
  pose proof (stored_item (localStorage "student_db")) as Hs.
  pose proof (stored_item (localStorage "exam_db")) as He.
  fold s in Hs. fold e in He.
  split; [|split; [|split; reflexivity]].
  - intros Ns Ne. unfold load.
    destruct s as [|v|]; [| |contradiction];
      (destruct e as [|v'|]; [| |contradiction]);
      repeat match goal with
             | H : _ /\ _ |- _ => destruct H as [?H ?H]
             end;
      repeat match goal with
             | H : item_truthy _ = _ |- _ => rewrite H
             | H : JSON_parse_or_throw _ = _ |- _ => rewrite H
             end;
      cbn [bind]; eexists; (split; [reflexivity|]);
      (destruct (sessionStorage "is_admin") as [flag|] eqn:Hf;
       [destruct (String.eqb flag "true") eqn:E|]);
      cbn [Slots.students Slots.exams Slots.isAdmin restored initial_slots];
      (split; [reflexivity|]); (split; [reflexivity|]);
      try (apply String.eqb_eq in E; subst; tauto);
      try (apply String.eqb_neq in E; split;
           [discriminate | intros [= ->]; contradiction]);
      split; discriminate.
  - unfold load. intros [H|H].
    + rewrite H in Hs. destruct Hs as [H1 H2]. now rewrite H1, H2.
    + rewrite H in He. destruct He as [H1 H2].
      destruct s as [|v|];
        repeat match goal with
               | H : _ /\ _ |- _ => destruct H as [?H ?H]
               end;
        repeat match goal with
               | H : item_truthy _ = _ |- _ => rewrite H
               | H : JSON_parse_or_throw _ = _ |- _ => rewrite H
               end; reflexivity.
Qed.

(** C4, an instance: with one stored exam and no student item the load
    returns that exam and no students. *)
Lemma load_from_storage_witness :
  exists st : Slots.t,
    load one_exam no_items initial_slots = Ok st /\
    Slots.students st = VArr [] None /\
    Slots.exams st =
      VArr [VObj (<["id" := VStr "e1"]> (<["name" := VStr "Finals"]> ∅))] None.
Proof.
  destruct (load_from_storage one_exam no_items) as (H & _).
  destruct H as (st & Hl & Hs & He & _);
    [vm_compute; discriminate | vm_compute; discriminate |].
  exists st. split; [exact Hl|]. split; [exact Hs|].
  rewrite He. vm_compute. reflexivity.
Defined.

(* ------------------------------------------------------------------ *)
(** ** Extraction *)

(** C8, counterexample.  The response [{}] is valid JSON and does not
    conform to the schema, yet the attempt is not a failure: no error is
    set and the object, with the folder's exam name, is handed to the form.
    A response without text behaves the same. *)
Lemma non_conforming_response_accepted :
  let attempt (text : option string) :=
    captureAndScan (Some "Finals") (Some "data:image/jpeg;base64,AAAA")
      (Responded text) idle_world in
  JSON_parse "{}" = Some (VObj ∅) /\
  conforms (VObj ∅) = false /\
  Scanner.error (World.scanner (attempt (Some "{}"))) = None /\
  Dashboard.formData (World.dashboard (attempt (Some "{}")))
  = VObj (<["examName" := VStr "Finals"]> ∅) /\
  Dashboard.showStudentModal (World.dashboard (attempt (Some "{}"))) = true /\
  attempt None = attempt (Some "{}").
Proof. vm_compute. repeat split. Qed.

(** C8, as amended.  No attempt changes the record store.  When the call is
    rejected, or the response text is not valid JSON, or the parsed value
    cannot take the folder's exam name, the scanner shows the failure
    message, drops the captured image and stops scanning, and nothing is
    handed to the form.  A response that parses (an absent text reads as
    [{}]) and can take the exam name is handed to the form, whether or not
    it conforms to the schema. *)
Theorem failed_extraction (fixedExamName : option string)
  (imageDataUrl : string) (o : ApiOutcome) (w : World.t) :
  let w' := captureAndScan fixedExamName (Some imageDataUrl) o w in
  (forall frame : option string,
      World.store (captureAndScan fixedExamName frame o w) = World.store w) /\
  (o = Rejected \/
   (exists text, o = Responded text /\ JSON_parse (str_or text "{}") = None) \/
   (exists text v, o = Responded text /\
      JSON_parse (str_or text "{}") = Some v /\
      item_truthy fixedExamName = true /\ is_object v = false) ->
   Scanner.error (World.scanner w') = Some failure_message /\
   Scanner.capturedImage (World.scanner w') = None /\
   Scanner.isScanning (World.scanner w') = false /\
   World.dashboard w' = World.dashboard w) /\
  (forall text v,
      o = Responded text -> JSON_parse (str_or text "{}") = Some v ->
      item_truthy fixedExamName = false \/ is_object v = true ->
      exists d : JsVal,
        (if item_truthy fixedExamName
         then assign_examName v (text_of fixedExamName)
         else Ok v) = Ok d /\
        World.dashboard w' = Dashboard.mk d false true /\
        Scanner.error (World.scanner w') = Scanner.error (World.scanner w) /\
        Scanner.capturedImage (World.scanner w') = Some imageDataUrl /\
        Scanner.isScanning (World.scanner w') = false).
Proof.
  cbv zeta. split; [|split].
  - intros [url|]; [|reflexivity]. unfold captureAndScan.
    destruct (bind _ _); reflexivity.
  - intros [->|[(text & -> & Hp)|(text & v & -> & Hp & Hf & Hv)]];
      unfold captureAndScan, extractStudentDetailsFromImage,
        JSON_parse_or_throw; try rewrite Hp; cbn [bind].
    + repeat split.
    + repeat split.
    + rewrite Hf. destruct v; try discriminate Hv; repeat split.
  - intros text v -> Hp Hcase.
    unfold captureAndScan, extractStudentDetailsFromImage,
      JSON_parse_or_throw. rewrite Hp. cbn [bind].
    destruct (item_truthy fixedExamName) eqn:Hf.
    + destruct Hcase as [Hc|Hc]; [discriminate|].
      destruct v; try discriminate Hc; eexists; repeat split.
    + eexists. repeat split.
Qed.

(** C8, an instance: a response that is not JSON sets the failure message
    and leaves the store and the form as they were. *)
Lemma failed_extraction_witness :
  let w' := captureAndScan (Some "Finals") (Some "data:image/jpeg;base64,AAAA")
              (Responded (Some "{oops")) idle_world in
  World.store w' = World.store idle_world /\
  Scanner.error (World.scanner w') = Some failure_message /\
  World.dashboard w' = World.dashboard idle_world.
Proof.
  intros w'.
  destruct (failed_extraction (Some "Finals") "data:image/jpeg;base64,AAAA"
              (Responded (Some "{oops")) idle_world) as (Hs & Hf & _).
  destruct Hf as (He & _ & _ & Hd).
  { right. left. exists (Some "{oops"). split; reflexivity. }
  split; [exact (Hs (Some "data:image/jpeg;base64,AAAA"))|].
  split; [exact He|exact Hd].
Defined.

(* ------------------------------------------------------------------ *)
(** ** Further properties *)

(** X1.  The normalizer keeps an identifier that is supplied and assigns the
    generated one when none is (or the empty one); a missing name, roll
    number or class becomes the empty text and a supplied one is kept; a
    missing or empty exam name becomes "Standard Exam" and any other is
    kept. *)
Theorem normalizer_defaults (uuid : string) (data : Partial.t)
  (s : Student.t) :
  processStudentData uuid data = Ok s ->
  (forall i, Partial.id data = Some i -> i <> "" -> Student.id s = i) /\
  (Partial.id data = None \/ Partial.id data = Some "" ->
   Student.id s = uuid) /\
  (Partial.name data = None -> Student.name s = "") /\
  (forall n, Partial.name data = Some n -> Student.name s = n) /\
  (Partial.rollNo data = None -> Student.rollNo s = "") /\
  (forall n, Partial.rollNo data = Some n -> Student.rollNo s = n) /\
  (Partial.className data = None -> Student.className s = "") /\
  (forall n, Partial.className data = Some n -> Student.className s = n) /\
  (Partial.examName data = None \/ Partial.examName data = Some "" ->
   Student.examName s = "Standard Exam") /\
  (forall n, Partial.examName data = Some n -> n <> "" ->
             Student.examName s = n).
Proof.
  intros H.
  destruct (processStudentData_inv _ _ _ H) as (vals & total & _ & _ & ->).
  cbn [normalized Student.id Student.name Student.rollNo Student.className
       Student.examName].
  assert (K : forall n : string, str_or (Some n) "" = n).
  { intros n. unfold str_or. destruct (String.eqb n "") eqn:E; auto.
    apply String.eqb_eq in E. now subst. }
  repeat split.
  - intros i -> Hi. now apply str_or_keep.
  - intros [->| ->]; reflexivity.
  - now intros ->.
  - intros n ->. now apply K.
  - now intros ->.
  - intros n ->. now apply K.
  - now intros ->.
  - intros n ->. now apply K.
  - intros [->| ->]; reflexivity.
  - intros n -> Hn. now apply str_or_keep.
Qed.

(** X1, an instance: with nothing but marks supplied the record gets the
    generated identifier, an empty name and the placeholder exam name. *)
Lemma normalizer_defaults_witness :
  exists s : Student.t,
    processStudentData "id-1" (only_marks partial_marks) = Ok s /\
    Student.id s = "id-1" /\ Student.name s = "" /\
    Student.examName s = "Standard Exam".
Proof.
  assert (H : exists s : Student.t,
             processStudentData "id-1" (only_marks partial_marks) = Ok s)
    by (eexists; reflexivity).
  destruct H as [s Hs]. exists s. split; [exact Hs|].
  destruct (normalizer_defaults "id-1" (only_marks partial_marks) s Hs)
    as (_ & Hid & Hname & _ & _ & _ & _ & _ & Hexam & _).
  split; [apply Hid; now left|].
  split; [apply Hname; reflexivity|apply Hexam; now left].
Defined.

(** X2.  Inside an exam folder the scanner overwrites the exam name of an
    extracted object with the folder's and leaves every other property as
    extracted. *)
Theorem scan_overrides_examName (fixedExamName imageDataUrl : string)
  (text : option string) (m : gmap string JsVal) (w : World.t) :
  fixedExamName <> "" ->
  JSON_parse (str_or text "{}") = Some (VObj m) ->
  let d := Dashboard.formData
             (World.dashboard
                (captureAndScan (Some fixedExamName) (Some imageDataUrl)
                   (Responded text) w)) in
  d = VObj (<["examName" := VStr fixedExamName]> m) /\
  own_prop d "examName" = Some (VStr fixedExamName) /\
  forall k, k <> "examName" -> own_prop d k = m !! k.
Proof.
  intros Hne Hp. cbv zeta.
  unfold captureAndScan, extractStudentDetailsFromImage, JSON_parse_or_throw.
  rewrite Hp. cbn [bind item_truthy].
  apply String.eqb_neq in Hne. rewrite Hne.
  cbn [negb assign_examName text_of World.dashboard onScanComplete
       Dashboard.formData own_prop].
  split; [reflexivity|]. split.
  - now rewrite lookup_insert_eq.
  - intros k Hk. now rewrite lookup_insert_ne.
Qed.

(** X2, an instance: an extracted exam name Mock becomes Finals inside the
    folder Finals. *)
Lemma scan_overrides_examName_witness :
  Dashboard.formData
    (World.dashboard
       (captureAndScan (Some "Finals") (Some "data:image/jpeg;base64,AAAA")
          (Responded (Some ("{" ++ quoted "examName" ++ ":"
                            ++ quoted "Mock" ++ "}"))) idle_world))
  = VObj (<["examName" := VStr "Finals"]> ∅).
Proof.
  destruct (scan_overrides_examName "Finals" "data:image/jpeg;base64,AAAA"
              (Some ("{" ++ quoted "examName" ++ ":" ++ quoted "Mock" ++ "}"))
              (<["examName" := VStr "Mock"]> ∅) idle_world)
    as (H & _); [discriminate | vm_compute; reflexivity |].
  rewrite H. now rewrite insert_insert_eq.
Defined.

(** X3.  Deleting a student, once confirmed, removes exactly the records
    with that identifier and touches nothing else; when the dialog is
    declined the state is unchanged.  Updating a student replaces the
    records with its identifier and keeps the number of records. *)
Theorem student_delete_and_update (id : string) (s : Student.t)
  (a : App.state) :
  (forall st, In st (App.students (onDeleteStudent true id a)) <->
              In st (App.students a) /\ Student.id st <> id) /\
  App.exams (onDeleteStudent true id a) = App.exams a /\
  onDeleteStudent false id a = a /\
  List.length (App.students (onUpdateStudent s a))
  = List.length (App.students a) /\
  (forall st, In st (App.students (onUpdateStudent s a)) ->
              st = s \/ (In st (App.students a) /\
                         Student.id st <> Student.id s)) /\
  App.exams (onUpdateStudent s a) = App.exams a.
Proof.
  split; [|split; [|split; [|split; [|split]]]]; try reflexivity.
  - intros st. unfold onDeleteStudent, setStudents. cbn [App.students].
    rewrite filter_In_neg. now rewrite String.eqb_neq.
  - unfold onUpdateStudent, setStudents. cbn [App.students].
    apply length_map.
  - unfold onUpdateStudent, setStudents. cbn [App.students].
    intros st Hst. apply in_map_iff in Hst as (x & Hx & Hin).
    destruct (String.eqb (Student.id x) (Student.id s)) eqn:E.
    + left. congruence.
    + right. subst. split; [exact Hin|]. now apply String.eqb_neq.
Qed.

(* ------------------------------------------------------------------ *)
(** ** Whole marks *)

Lemma round2_opp (x : Q) : (0 < x)%Q -> (round2 (- x) == - round2 x)%Q.
Proof.
  intros H. unfold round2.
  assert (E1 : Qle_bool 0 (- x) = false) by (apply Qle_bool_false; lra).
  assert (E2 : Qle_bool 0 x = true) by (apply Qle_bool_iff; lra).
  rewrite E1, E2, Qabs_opp. reflexivity.
Qed.

(** A fifth of a whole number, of either sign, has at most one decimal. *)
Lemma round2_fifth_any (t : Z) :
  (round2 (inject_Z t / 5) == inject_Z t / 5)%Q.
Proof.
  destruct (Z_lt_le_dec t 0) as [H|H]; [|now apply round2_fifth].
  assert (E : (inject_Z t / 5 == - (inject_Z (- t) / 5))%Q).
  { rewrite inject_Z_opp. field. }
  assert (P : (0 < inject_Z (- t) / 5)%Q).
  { apply Qlt_shift_div_l; [reflexivity|]. rewrite Qmult_0_l.
    change 0%Q with (inject_Z 0). rewrite <- Zlt_Qlt. lia. }
  rewrite (round2_comp _ _ E), (round2_opp _ P), round2_fifth by lia.
  symmetry. exact E.
Qed.

Lemma jsum_whole (vals : list JsVal) (zs : list Z) :
  Forall2 (fun v z => ascii_value v = true /\
                      num_eq (counted v) (Fin (inject_Z z))) vals zs ->
  num_eq (jsum (List.map counted vals)) (Fin (inject_Z (zsum zs))).
Proof.
  induction 1 as [|v z vals zs [_ Hv] _ IH]; [reflexivity|].
  cbn [List.map jsum zsum fold_right].
  fold (jsum (List.map counted vals)). fold (zsum zs).
  rewrite Hv, IH. cbn [jadd num_eq]. now rewrite inject_Z_plus.
Qed.





(* ------------------------------------------------------------------ *)
(** ** The marks of a normalized record *)

Lemma converts_cases (v : JsVal) :
  converts v = true <->
  match v with
  | VObj m => m !! "toString" = None
  | VArr l _ => forall x, In x l -> converts x = true
  | _ => True
  end.
Proof.
  destruct v as [| |b|n|s|l e|m]; cbn [converts]; try tauto.
  - apply forallb_forall.
  - rewrite negb_true_iff, bool_decide_eq_false. split.
    + intros H. destruct (m !! "toString") eqn:E; [|reflexivity].
      destruct H. eauto.
    + intros -> [x Hx]. discriminate.
Qed.

(** C3, counterexample.  The partly filled marks
    [{ math: "N/A", science: 50 }] come out as they went in: [math] still
    holds the text, [history] is still absent, and the marks of the record
    are not complete.  In [{ math: "12", science: true }] the values that
    are not numbers are kept, and count for 12 and 1, not for 0: the total
    is 13.  And the normalizer throws on a mark that is an object with a
    [toString] property of its own, and on a mark that is a list of such
    an object. *)
Lemma partial_marks_not_completed :
  (exists s : Student.t,
      processStudentData "id-1" (only_marks partial_marks) = Ok s /\
      Student.marks s = partial_marks /\
      own_prop (Student.marks s) "math" = Some (VStr "N/A") /\
      own_prop (Student.marks s) "history" = None /\
      ~ complete_marks (Student.marks s)) /\
  (exists s : Student.t,
      processStudentData "id-1" (only_marks marks_with_text) = Ok s /\
      Student.marks s = marks_with_text /\
      own_prop (Student.marks s) "math" = Some (VStr "12") /\
      own_prop (Student.marks s) "science" = Some (VBool true) /\
      Student.total s = Fin 13) /\
  processStudentData "id-1" (only_marks marks_with_object)
  = Throw TypeError /\
  processStudentData "id-1" (only_marks marks_with_array)
  = Throw TypeError.
Proof.
  split; [|split; [|split; reflexivity]].
  - eexists. split; [reflexivity|]. cbn [Student.marks].
    split; [reflexivity|]. split; [reflexivity|]. split; [reflexivity|].
    intros (m & Hm & Hall).
    assert (E : m = <["math" := VStr "N/A"]>
                      (<["science" := VNum (Fin 50)]> ∅))
      by (symmetry; now injection Hm).
    destruct (Hall "history") as [n Hn]; [set_solver|].
    rewrite E in Hn. discriminate Hn.
  - eexists. split; [reflexivity|]. vm_compute. repeat split.
Qed.

(** C3, as amended.  Missing marks, and marks that are falsy, become the
    all-zero Marks, in which the five keys are present with 0, and the
    normalizer returns.  Marks that are present are stored as they are: no
    key is added and no value is changed.  On them the normalizer returns
    a record exactly when [Number] returns on every value they hold, and
    throws a [TypeError] otherwise.  [Number] returns on every number,
    string, boolean, [null] and [undefined]; on an object exactly when it
    has no [toString] property of its own; on a list exactly when it
    returns on every element. *)
Theorem normalizer_marks (uuid : string) (data : Partial.t) :
  (forall s : Student.t,
      processStudentData uuid data = Ok s ->
      (Partial.marks data = None -> Student.marks s = zero_marks) /\
      (forall v, Partial.marks data = Some v -> truthy v = false ->
                 Student.marks s = zero_marks) /\
      (forall v, Partial.marks data = Some v -> truthy v = true ->
                 Student.marks s = v)) /\
  (Partial.marks data = None ->
   exists s : Student.t, processStudentData uuid data = Ok s) /\
  (forall v, Partial.marks data = Some v -> truthy v = false ->
             exists s : Student.t, processStudentData uuid data = Ok s) /\
  (forall v, Partial.marks data = Some v -> truthy v = true ->
             exists vals : list JsVal,
               Object_values v = Ok vals /\
               ((forall x, In x vals -> converts x = true) ->
                exists s : Student.t, processStudentData uuid data = Ok s) /\
               (forall x, In x vals -> converts x = false ->
                          processStudentData uuid data = Throw TypeError)) /\
  (forall v : JsVal,
      converts v = true <->
      match v with
      | VObj m => m !! "toString" = None
      | VArr l _ => forall x, In x l -> converts x = true
      | _ => True
      end) /\
  complete_marks zero_marks /\
  (forall k, k ∈ subjects -> own_prop zero_marks k = Some (VNum (Fin 0))).
Proof.
  pose proof (processStudentData_readable uuid data) as R.
  destruct zero_marks_complete as [Hc Hz].
  split; [|split; [|split; [|split; [|split; [|split]]]]]; auto.
  - intros s Hs.
    assert (Hm : Student.marks s = val_or (Partial.marks data) zero_marks).
    { now destruct (processStudentData_inv _ _ _ Hs) as (? & ? & _ & _ & ->). }
    split; [|split].
    + intros H. now rewrite Hm, H.
    + intros v H Hv. rewrite Hm, H. cbn [val_or]. unfold js_or.
      now rewrite Hv.
    + intros v H Hv. rewrite Hm, H. cbn [val_or]. unfold js_or.
      now rewrite Hv.
  - intros H. now rewrite H in R.
  - intros v H Hv. rewrite H in R. cbn [val_or] in R. unfold js_or in R.
    now rewrite Hv in R.
  - intros v H Hv. rewrite H in R. cbn [val_or] in R. unfold js_or in R.
    rewrite Hv in R. unfold readable in R.
    destruct (truthy_Object_values v Hv) as [vals Hvals].
    rewrite Hvals in R. exists vals. split; [exact Hvals|]. split.
    + intros Hall. apply forallb_forall in Hall. now rewrite Hall in R.
    + intros x Hx Hn.
      destruct (forallb converts vals) eqn:E; [|exact R].
      rewrite forallb_forall in E. rewrite (E x Hx) in Hn. discriminate.
  - apply converts_cases.
Qed.

(** C3, an instance: partly filled marks are kept; with no marks at all the
    record has the all-zero Marks. *)
Lemma normalizer_marks_witness :
  (exists s : Student.t,
      processStudentData "id-1" (only_marks partial_marks) = Ok s /\
      Student.marks s = partial_marks) /\
  (exists s : Student.t,
      processStudentData "id-1"
        (Partial.mk None None None None None None None None None) = Ok s /\
      Student.marks s = zero_marks).
Proof.
  split.
  - destruct (normalizer_marks "id-1" (only_marks partial_marks))
      as (Hret & _ & _ & Hok & _).
    destruct (Hok partial_marks eq_refl eq_refl) as (vals & Hv & Hs & _).
    destruct Hs as [s Hs].
    { assert (E : Object_values partial_marks
                  = Ok [VNum (Fin 50); VStr "N/A"]) by reflexivity.
      rewrite E in Hv. injection Hv as <-.
      intros x [<-|[<-|[]]]; reflexivity. }
    destruct (Hret s Hs) as (_ & _ & Hkeep).
    exists s. split; [exact Hs|]. apply Hkeep; reflexivity.
  - destruct (normalizer_marks "id-1"
                (Partial.mk None None None None None None None None None))
      as (Hret & Hnone & _).
    destruct (Hnone eq_refl) as [s Hs].
    exists s. split; [exact Hs|].
    destruct (Hret s Hs) as (Hzero & _). apply Hzero. reflexivity.
Defined.

(* ------------------------------------------------------------------ *)
(** ** The lookup on ASCII text *)

Lemma is_white_codes (c : ascii) :
  is_white c = true <-> In (code c) [9; 10; 11; 12; 13; 32]%N.
Proof.
  unfold is_white. cbn [In].
  rewrite orb_true_iff, andb_true_iff, !N.leb_le, N.eqb_eq. split.
  - intros [[H1 H2]|H]; [|auto 7].
    assert (E : code c = 9%N \/ code c = 10%N \/ code c = 11%N \/
                code c = 12%N \/ code c = 13%N) by lia.
    intuition auto.
  - intros [H|[H|[H|[H|[H|[H|[]]]]]]]; rewrite <- H; [left..|right];
      (split || idtac); (lia || reflexivity).
Qed.

(** C7.  On ASCII text, where [trim] and [toLowerCase] are the
    program's: white space is the tab, the line feed, the vertical tab, the
    form feed, the carriage return and the space, and trimming removes it
    at both ends of a text and nothing else.  The lookup matches a record
    exactly when its roll number and the query, both trimmed, are equal up
    to the case of the letters A to Z, and its exam name is the query's
    exactly; white space around either roll number changes nothing.  The
    query 2024-001 in Finals matches a record stored with a space on both
    sides of 2024-001, and not under the exam name in lower case; the
    query ab-7 matches the stored AB-7 and the query 2024-001 does not
    match the stored 2024-002.  When no record matches, the result is the
    unchanged state and the notice that the record was not found; when one
    does, a matching record is selected and the result page is shown. *)
Theorem onCheckResult_lookup :
  (forall c : ascii,
      is_white c = true <-> In (code c) [9; 10; 11; 12; 13; 32]%N) /\
  (forall s : string,
      ascii_text s = true ->
      exists w1 w2 : string,
        all_white w1 = true /\ all_white w2 = true /\
        s = w1 ++ trim s ++ w2 /\
        not_white_first (trim s) /\ not_white_first (str_rev (trim s))) /\
  (forall (r ex : string) (st : Student.t),
      ascii_text r = true -> ascii_text (Student.rollNo st) = true ->
      (matches r ex st = true <->
       eq_ignore_case (trim (Student.rollNo st)) (trim r) /\
       Student.examName st = ex)) /\
  (forall (r ex w1 w2 w3 w4 : string) (st st' : Student.t),
      ascii_text r = true -> ascii_text (Student.rollNo st) = true ->
      all_white w1 = true -> all_white w2 = true ->
      all_white w3 = true -> all_white w4 = true ->
      Student.rollNo st' = w3 ++ Student.rollNo st ++ w4 ->
      Student.examName st' = Student.examName st ->
      matches (w1 ++ r ++ w2) ex st' = matches r ex st) /\
  (forall st : Student.t,
      Student.examName st = "Finals" ->
      (Student.rollNo st = " 2024-001 " ->
       matches "2024-001" "Finals" st = true /\
       matches "2024-001" "finals" st = false) /\
      (Student.rollNo st = "AB-7" ->
       matches "ab-7" "Finals" st = true /\
       matches "Ab-7" "Finals" st = true) /\
      (Student.rollNo st = "2024-002" ->
       matches "2024-001" "Finals" st = false)) /\
  (forall (r ex : string) (a : App.state),
      ascii_text r = true ->
      (forall st, In st (App.students a) ->
                  ascii_text (Student.rollNo st) = true) ->
      ((forall st, In st (App.students a) ->
                   ~ (eq_ignore_case (trim (Student.rollNo st)) (trim r) /\
                      Student.examName st = ex)) ->
       onCheckResult r ex a = (a, Some "Record not found.")) /\
      (forall st,
          In st (App.students a) ->
          eq_ignore_case (trim (Student.rollNo st)) (trim r) ->
          Student.examName st = ex ->
          exists s : Student.t,
            In s (App.students a) /\
            eq_ignore_case (trim (Student.rollNo s)) (trim r) /\
            Student.examName s = ex /\
            onCheckResult r ex a
            = (setPage "result" (setSelected s a), None))).
Proof.
  split; [exact is_white_codes|].
  split; [intros s _; apply trim_decomp|].
  split; [intros r ex st _ _; apply matches_iff|].
  split; [|split].
  - intros r ex w1 w2 w3 w4 st st' _ _ H1 H2 H3 H4 Hr He.
    unfold matches. now rewrite Hr, He, !trim_padding.
  - intros st He. unfold matches. rewrite He.
    split; [|split]; intros ->; try split; reflexivity.
  - intros r ex a _ _. split.
    + intros H. unfold onCheckResult.
      destruct (List.find (matches r ex) (App.students a)) as [s|] eqn:Hf;
        [|reflexivity].
      apply find_some in Hf as [Hin Hm]. apply matches_iff in Hm.
      now destruct (H s Hin).
    + intros st Hin Hq He. unfold onCheckResult.
      destruct (List.find (matches r ex) (App.students a)) as [s|] eqn:Hf.
      * apply find_some in Hf as [Hin' Hm'].
        apply matches_iff in Hm' as [M1 M2]. exists s. auto.
      * assert (Hm : matches r ex st = true) by (apply matches_iff; auto).
        rewrite (find_none _ _ Hf st Hin) in Hm. discriminate.
Qed.

(** C7, an instance: a space before the query changes nothing; an unknown
    roll number gives the notice; a query in small letters finds the
    record stored in capitals. *)
Lemma onCheckResult_lookup_witness :
  let st := Student.mk "s1" "Ann" " AB-7 " "X" "Finals" zero_marks
              (Fin 0) (Fin 0) "F" in
  let a := App.mk "landing" false [st] [] None in
  matches " ab-7" "Finals" st = matches "ab-7" "Finals" st /\
  onCheckResult "ab-8" "Finals" a = (a, Some "Record not found.") /\
  exists s : Student.t,
    onCheckResult "ab-7" "Finals" a
    = (setPage "result" (setSelected s a), None).
Proof.
  intros st a.
  destruct onCheckResult_lookup as (_ & _ & _ & Hpad & _ & Hfind).
  split; [|split].
  - apply (Hpad "ab-7" "Finals" " " "" "" "" st st); reflexivity.
  - destruct (Hfind "ab-8" "Finals" a) as [Hnone _];
      [reflexivity | intros s [<-|[]]; reflexivity |].
    apply Hnone. intros s [<-|[]] [Hq _].
    apply toLowerCase_eq in Hq. discriminate.
  - destruct (Hfind "ab-7" "Finals" a) as [_ Hsome];
      [reflexivity | intros s [<-|[]]; reflexivity |].
    destruct (Hsome st) as (s & _ & _ & _ & Hs);
      [now left | | reflexivity |].
    + apply toLowerCase_eq. reflexivity.
    + exists s. exact Hs.
Defined.

(* ------------------------------------------------------------------ *)
(** ** The dashboard *)

Lemma trim_empty_iff (s : string) : trim s = "" <-> all_white s = true.
Proof.
  split.
  - intros H. destruct (trim_decomp s) as (w1 & w2 & H1 & H2 & E & _).
    rewrite H, append_empty in E. rewrite E, all_white_app, H1, H2.
    reflexivity.
  - intros H. unfold trim. rewrite (trimStart_all_white s H). reflexivity.
Qed.

(** X4.  On a folder name typed in ASCII text, where [trim] is the
    program's.  A name of white space only creates nothing: the dashboard
    and the store stay as they are.  Any other name is trimmed and one exam
    with that name, the generated identifier and the clock's time is put
    after the existing exams; the students are untouched, the input is
    cleared and the dialog closed.  The name of a folder created this way
    is never empty and has no white space at either end.  No existing
    folder is looked at: a name already in use is accepted again. *)
Theorem handleAddExam_folder (uuid now : string) (d : AdminDashboard.t)
  (a : App.state) :
  ascii_text (AdminDashboard.examInput d) = true ->
  let n := trim (AdminDashboard.examInput d) in
  (all_white (AdminDashboard.examInput d) = true ->
   handleAddExam uuid now d a = (d, a)) /\
  (all_white (AdminDashboard.examInput d) = false ->
   exists d' : AdminDashboard.t,
     handleAddExam uuid now d a
     = (d', setExams (App.exams a ++ [Exam.mk uuid n now])%list a) /\
     AdminDashboard.examInput d' = "" /\
     AdminDashboard.showExamModal d' = false /\
     AdminDashboard.currentExam d' = AdminDashboard.currentExam d /\
     AdminDashboard.formData d' = AdminDashboard.formData d /\
     App.students (snd (handleAddExam uuid now d a)) = App.students a /\
     n <> "" /\ not_white_first n /\ not_white_first (str_rev n)).
Proof.
  intros _ n. unfold handleAddExam. fold n. split.
  - intros H. apply trim_empty_iff in H. fold n in H. now rewrite H.
  - intros H.
    assert (Hn : n <> "").
    { intros E. apply trim_empty_iff in E. congruence. }
    apply String.eqb_neq in Hn as Hb. rewrite Hb. cbn [negb].
    eexists. split; [reflexivity|].
    cbn [AdminDashboard.examInput AdminDashboard.showExamModal
         AdminDashboard.currentExam AdminDashboard.formData].
    destruct (trim_decomp (AdminDashboard.examInput d))
      as (_ & _ & _ & _ & _ & F & L).
    repeat split; auto.
Qed.

(** X4, an instance: the input [  Finals 2024 ] creates the folder
    [Finals 2024]; a second folder of the same name is accepted. *)
Lemma handleAddExam_folder_witness :
  let d := AdminDashboard.mk None true false false None "  Finals 2024 "
             (blank_form "") in
  let a := App.mk "admin" true [] [Exam.mk "e0" "Finals 2024" "t0"] None in
  App.exams (snd (handleAddExam "e1" "t1" d a))
  = [Exam.mk "e0" "Finals 2024" "t0"; Exam.mk "e1" "Finals 2024" "t1"].
Proof.
  intros d a.
  destruct (handleAddExam_folder "e1" "t1" d a) as [_ H]; [reflexivity|].
  destruct H as (d' & E & _); [reflexivity|].
  rewrite E. reflexivity.
Defined.

Lemma filter_nil_iff {A : Type} (p : A -> bool) (l : list A) :
  List.filter p l = [] <-> forall x, In x l -> p x = false.
Proof.
  induction l as [|y l IH]; cbn [List.filter].
  - split; [intros _ x []|reflexivity].
  - destruct (p y) eqn:E; split.
    + discriminate.
    + intros H. specialize (H y (or_introl eq_refl)). congruence.
    + intros H x [<-|Hx]; [exact E|]. now apply IH.
    + intros H. apply IH. intros x Hx. apply H. now right.
Qed.

(** X5.  Folders are told apart by identifier but own their records by
    name: when an exam is deleted, every other exam of the same name stays
    in the collection and is left without a single record. *)
Theorem onDeleteExam_same_name (id : string) (a : App.state)
  (e e' : Exam.t) :
  List.find (fun x => String.eqb (Exam.id x) id) (App.exams a) = Some e ->
  In e' (App.exams a) -> Exam.id e' <> id -> Exam.name e' = Exam.name e ->
  In e' (App.exams (onDeleteExam id a)) /\
  filteredStudents (Some e') (App.students (onDeleteExam id a)) = [] /\
  enrolled e' (App.students (onDeleteExam id a)) = 0%nat.
Proof.
  intros Hf Hin Hid Hname. unfold onDeleteExam, setStudents, setExams.
  cbn [App.exams App.students]. rewrite Hf.
  cbn [option_map str_strict_eq].
  assert (E : List.filter
                (fun s => String.eqb (Student.examName s) (Exam.name e'))
                (List.filter
                   (fun s => negb (String.eqb (Student.examName s)
                                     (Exam.name e)))
                   (App.students a)) = []).
  { apply filter_nil_iff. intros s Hs. apply filter_In in Hs as [_ Hs].
    rewrite Hname. now apply negb_true_iff in Hs. }
  split; [|split].
  - apply filter_In. split; [exact Hin|].
    apply negb_true_iff. now apply String.eqb_neq.
  - exact E.
  - unfold enrolled. now rewrite E.
Qed.

(** X5, an instance: of two folders named Finals, deleting the second
    empties the first. *)
Lemma onDeleteExam_same_name_witness :
  let st := Student.mk "s1" "Ann" "1" "X" "Finals" zero_marks (Fin 0)
              (Fin 0) "F" in
  let e1 := Exam.mk "e1" "Finals" "t1" in
  let e2 := Exam.mk "e2" "Finals" "t2" in
  let a := App.mk "admin" true [st] [e1; e2] None in
  enrolled e1 (App.students a) = 1%nat /\
  In e1 (App.exams (onDeleteExam "e2" a)) /\
  enrolled e1 (App.students (onDeleteExam "e2" a)) = 0%nat.
Proof.
  intros st e1 e2 a. split; [reflexivity|].
  destruct (onDeleteExam_same_name "e2" a e2 e1) as (H1 & _ & H3);
    [reflexivity | now left | discriminate | reflexivity |].
  split; [exact H1 | exact H3].
Defined.

Lemma processStudentData_examName (uuid : string) (data : Partial.t)
  (s : Student.t) :
  processStudentData uuid data = Ok s ->
  Student.examName s = str_or (Partial.examName data) "Standard Exam" /\
  Student.id s = str_or (Partial.id data) uuid.
Proof.
  intros H.
  destruct (processStudentData_inv _ _ _ H) as (vals & total & _ & _ & ->).
  split; reflexivity.
Qed.

Lemma filter_app_one {A : Type} (p : A -> bool) (l : list A) (x : A) :
  p x = true -> List.filter p (l ++ [x]) = (List.filter p l ++ [x])%list.
Proof.
  intros H. rewrite List.filter_app. cbn [List.filter]. now rewrite H.
Qed.

(** X6.  A form submitted inside a folder whose name is not empty always
    yields a record of that folder, whatever exam name the form carried.
    A new record is put last in the store and last in the folder's list,
    whose count grows by one; an edit replaces the records with the edited
    identifier and keeps the number of records.  The exams are untouched,
    the dialog is closed and the edit ended. *)
Theorem submit_inside_folder (uuid : string) (d d' : AdminDashboard.t)
  (a a' : App.state) (e : Exam.t) :
  AdminDashboard.currentExam d = Some e -> Exam.name e <> "" ->
  submitStudentForm uuid d a = Ok (d', a') ->
  App.exams a' = App.exams a /\
  AdminDashboard.showStudentModal d' = false /\
  AdminDashboard.editingId d' = None /\
  exists s : Student.t,
    Student.examName s = Exam.name e /\
    (AdminDashboard.editingId d = None \/
     AdminDashboard.editingId d = Some "" ->
     Student.id s = str_or (Partial.id (AdminDashboard.formData d)) uuid /\
     App.students a' = (App.students a ++ [s])%list /\
     filteredStudents (Some e) (App.students a')
     = (filteredStudents (Some e) (App.students a) ++ [s])%list /\
     enrolled e (App.students a') = S (enrolled e (App.students a))) /\
    (forall i : string,
        AdminDashboard.editingId d = Some i -> i <> "" ->
        Student.id s = i /\
        App.students a'
        = List.map (fun st => if String.eqb (Student.id st) i then s else st)
            (App.students a) /\
        List.length (App.students a') = List.length (App.students a)).
Proof.
  intros Hc Hn H. unfold submitStudentForm in H. rewrite Hc in H.
  destruct (handleStudentSubmit uuid (Some e) (AdminDashboard.editingId d)
              (AdminDashboard.formData d) a) as [a1|] eqn:Hs;
    [|discriminate].
  cbn [bind] in H. injection H as <- <-.
  cbn [AdminDashboard.showStudentModal AdminDashboard.editingId].
  unfold handleStudentSubmit in Hs. cbn [option_map] in Hs.
  apply String.eqb_neq in Hn as Hb. rewrite Hb in Hs.
  assert (Add : forall data : Partial.t,
             Partial.examName data = Some (Exam.name e) ->
             Partial.id data = Partial.id (AdminDashboard.formData d) ->
             (try! s := processStudentData uuid data in Ok (onAddStudent s a))
             = Ok a1 ->
             exists s : Student.t,
               Student.examName s = Exam.name e /\
               Student.id s
               = str_or (Partial.id (AdminDashboard.formData d)) uuid /\
               a1 = onAddStudent s a).
  { intros data He Hi Hd.
    destruct (processStudentData uuid data) as [s|] eqn:Hp; [|discriminate].
    cbn [bind] in Hd. injection Hd as <-. exists s.
    apply processStudentData_examName in Hp as [E I].
    rewrite He in E. rewrite Hi in I.
    split; [|split; [exact I|reflexivity]].
    rewrite E. now apply str_or_keep. }
  assert (Done : forall s : Student.t,
             Student.examName s = Exam.name e ->
             Student.id s
             = str_or (Partial.id (AdminDashboard.formData d)) uuid ->
             a1 = onAddStudent s a ->
             App.exams a1 = App.exams a /\
             Student.id s
             = str_or (Partial.id (AdminDashboard.formData d)) uuid /\
             App.students a1 = (App.students a ++ [s])%list /\
             filteredStudents (Some e) (App.students a1)
             = (filteredStudents (Some e) (App.students a) ++ [s])%list /\
             enrolled e (App.students a1)
             = S (enrolled e (App.students a))).
  { intros s E I ->. unfold onAddStudent, setStudents, enrolled.
    cbn [App.exams App.students filteredStudents].
    assert (P : String.eqb (Student.examName s) (Exam.name e) = true)
      by now apply String.eqb_eq.
    rewrite (filter_app_one
               (fun x => String.eqb (Student.examName x) (Exam.name e))
               (App.students a) s P), length_app.
    cbn [List.length].
    repeat split; auto. lia. }
  destruct (AdminDashboard.editingId d) as [i|] eqn:Hi;
    [destruct (String.eqb i "") eqn:Ei|].
  - apply String.eqb_eq in Ei. subst i.
    apply Add in Hs as (s & E & I & Ha); [|reflexivity|reflexivity].
    destruct (Done s E I Ha) as (X & Y).
    split; [exact X|]. split; [reflexivity|]. split; [reflexivity|].
    exists s. split; [exact E|]. split; [intros _; exact Y|].
    intros i [= <-] F. contradiction.
  - apply String.eqb_neq in Ei.
    destruct (processStudentData uuid _) as [s|] eqn:Hp in Hs;
      [|discriminate].
    cbn [bind] in Hs. injection Hs as <-.
    apply processStudentData_examName in Hp as [E I].
    cbn [Partial.examName Partial.id] in E, I.
    rewrite (str_or_keep _ _ Ei) in I.
    split; [reflexivity|]. split; [reflexivity|]. split; [reflexivity|].
    exists s. split.
    { rewrite E. apply str_or_keep. now apply String.eqb_neq. }
    split.
    { intros [F|F]; [discriminate|]. injection F as ->. contradiction. }
    intros j [= <-] _. unfold onUpdateStudent, setStudents.
    cbn [App.students]. rewrite I.
    split; [reflexivity|]. split; [reflexivity|]. apply length_map.
  - apply Add in Hs as (s & E & I & Ha); [|reflexivity|reflexivity].
    destruct (Done s E I Ha) as (X & Y).
    split; [exact X|]. split; [reflexivity|]. split; [reflexivity|].
    exists s. split; [exact E|]. split; [intros _; exact Y|].
    intros i [=].
Qed.

(** X6, an instance: a form left on the exam name Mock and submitted inside
    the folder Finals gives a record of Finals, the only one listed. *)
Lemma submit_inside_folder_witness :
  let e := Exam.mk "e1" "Finals" "t1" in
  let d := AdminDashboard.mk (Some e) false true false None ""
             (blank_form "Mock") in
  let a := App.mk "admin" true [] [e] None in
  exists (d' : AdminDashboard.t) (a' : App.state) (s : Student.t),
    submitStudentForm "u1" d a = Ok (d', a') /\
    Student.examName s = "Finals" /\
    filteredStudents (Some e) (App.students a') = [s].
Proof.
  intros e d a.
  assert (H : exists p, submitStudentForm "u1" d a = Ok p)
    by (eexists; vm_compute; reflexivity).
  destruct H as [[d' a'] H]. exists d', a'.
  destruct (submit_inside_folder "u1" d d' a a' e eq_refl) as
    (_ & _ & _ & s & E & Hadd & _); [discriminate | exact H |].
  exists s. split; [exact H|]. split; [exact E|].
  destruct Hadd as (_ & _ & F & _); [now left|]. exact F.
Defined.





Lemma form_marks_zero : form_marks zero_marks.
Proof.
  eexists. split; [reflexivity|]. split.
  - intros k. unfold subjects.
    rewrite !lookup_insert_is_Some, lookup_empty, !elem_of_cons,
      elem_of_nil.
    split.
    + intros [->|[_ [->|[_ [->|[_ [->|[_ [->|[_ [? H]]]]]]]]]]];
        [tauto..|discriminate].
    + intros [->|[->|[->|[->|[->|[]]]]]].
      * now left.
      * right. split; [discriminate|]. now left.
      * right. split; [discriminate|]. right. split; [discriminate|].
        now left.
      * right. split; [discriminate|]. right. split; [discriminate|].
        right. split; [discriminate|]. now left.
      * right. split; [discriminate|]. right. split; [discriminate|].
        right. split; [discriminate|]. right. split; [discriminate|].
        now left.
  - intros k x H. exists 0%Z.
    repeat (apply lookup_insert_Some in H as [[_ <-]|[_ H]];
            [split; [reflexivity|vm_compute; discriminate]|]).
    rewrite lookup_empty in H. discriminate.
Qed.

Lemma onChange_form_marks (f : FormField) (value : string)
  (fd : Partial.t) :
  match f with
  | MarkField sub => sub ∈ subjects /\ mark_text value
  | _ => True
  end ->
  (exists v, Partial.marks fd = Some v /\ form_marks v) ->
  (exists v, Partial.marks (onChange f value fd) = Some v /\ form_marks v) /\
  Partial.id (onChange f value fd) = Partial.id fd.
Proof.
  intros Hf (v & Hv & Hm).
  destruct f as [| | |sub]; cbn [onChange Partial.marks Partial.id];
    try (split; [exists v; split; [exact Hv|exact Hm]|reflexivity]).
  split; [|reflexivity]. rewrite Hv.
  destruct Hm as (m & -> & Hdom & Hw). cbn [spread].
  eexists. split; [reflexivity|]. eexists. split; [reflexivity|]. split.
  - destruct Hf as [Hf _].
    intros k. rewrite lookup_insert_is_Some, Hdom. split.
    + intros [<-|[_ H]]; auto.
    + intros H. destruct (decide (sub = k)); auto.
  - intros k x H. apply lookup_insert_Some in H as [[_ <-]|[_ H]].
    + apply Hf.
    + eauto.
Qed.

Lemma typed_form_marks (changes : list (FormField * string))
  (fd : Partial.t) :
  (forall sub v, In (MarkField sub, v) changes ->
                 sub ∈ subjects /\ mark_text v) ->
  (exists v, Partial.marks fd = Some v /\ form_marks v) ->
  let fd' := fold_left (fun x c => onChange (fst c) (snd c) x) changes fd in
  (exists v, Partial.marks fd' = Some v /\ form_marks v) /\
  Partial.id fd' = Partial.id fd.
Proof.
  revert fd. induction changes as [|[f value] l IH]; intros fd Hs Hm;
    cbn [fold_left fst snd].
  - auto.
  - destruct (onChange_form_marks f value fd) as [H1 H2]; [|exact Hm|].
    + destruct f; auto. apply (Hs sub value). now left.
    + destruct (IH (onChange f value fd)) as [H3 H4]; [|exact H1|].
      * intros sub v H. apply (Hs sub v). now right.
      * split; [exact H3|]. now rewrite H4, H2.
Qed.

Lemma whole_plain (v : JsVal) : whole v -> plain v = true /\ converts v = true.
Proof. intros (z & -> & _). split; reflexivity. Qed.

Lemma whole_values (vals : list JsVal) :
  Forall whole vals ->
  exists zs : list Z,
    Forall2 (fun v z => ascii_value v = true /\
                        num_eq (counted v) (Fin (inject_Z z))) vals zs.
Proof.
  induction 1 as [|v vals (z & -> & _) _ [zs IH]].
  - exists []. constructor.
  - exists (z :: zs). constructor; [|exact IH].
    split; [reflexivity|]. unfold counted, ToNumber. cbn [converts].
    apply num_or_zero_fin.
Qed.

(** The normalizer on marks as the form leaves them. *)
Lemma processStudentData_form_marks (uuid : string) (data : Partial.t)
  (v : JsVal) :
  Partial.marks data = Some v -> form_marks v ->
  exists s : Student.t,
    processStudentData uuid data = Ok s /\
    Student.marks s = v /\
    complete_marks v /\
    num_eq (Student.total s) (spec_total v) /\
    num_eq (Student.percentage s) (jdiv_lit (Student.total s) 5) /\
    Student.grade s = calculateGrade (Student.percentage s).
Proof.
  intros Hv (m & -> & Hdom & Hw).
  pose proof (processStudentData_readable uuid data) as R.
  rewrite Hv in R. cbn [val_or js_or truthy] in R.
  assert (Hr : readable (VObj m) = true).
  { apply readable_object. intros k x Hk. now apply whole_plain, (Hw k). }
  rewrite Hr in R. destruct R as [s Hs]. exists s. split; [exact Hs|].
  destruct (processStudentData_inv _ _ _ Hs) as (vals & total & _ & _ & E).
  assert (Hmarks : Student.marks s = VObj m).
  { rewrite E. cbn [normalized Student.marks]. now rewrite Hv. }
  destruct (derived_fields _ _ _ Hs) as [_ Ht].
  destruct (Ht m Hmarks) as [_ Hspec].
  { intros k x Hk. apply Hdom. eauto. }
  split; [exact Hmarks|]. split; [|split].
  - exists m. split; [reflexivity|]. intros k Hk.
    apply Hdom in Hk as [x Hx]. destruct (Hw k x Hx) as (z & -> & _). eauto.
  - rewrite <- Hmarks. apply Hspec. intros k x Hk.
    now apply whole_plain, (Hw k).
  - destruct (whole_values (map_to_list m).*2) as [zs Hzs].
    { apply List.Forall_forall. intros x Hx.
      apply list_elem_of_In, list_elem_of_fmap in Hx as ([k x'] & -> & Hx).
      apply elem_of_map_to_list in Hx. eauto. }
    assert (Hz : num_eq (Student.total s) (Fin (inject_Z (zsum zs)))).
    { destruct (processStudentData_inv _ _ _ Hs)
        as (vals' & total' & Hv' & Hr' & ->).
      rewrite Hv in Hv'. cbn [val_or js_or truthy Object_values] in Hv'.
      injection Hv' as <-.
      destruct (reduce_total _ _ Hr') as [_ Ht'].
      cbn [normalized Student.total]. rewrite Ht'.
      now apply jsum_whole. }
    assert (Hp : Student.percentage s
                 = Number_toFixed2 (jdiv_lit (Student.total s) 5)).
    { rewrite E. reflexivity. }
    split.
    + rewrite Hp at 1. rewrite Hz. cbn [jdiv_lit Number_toFixed2 num_eq].
      apply round2_fifth_any.
    + rewrite E. reflexivity.
Qed.

(** X8.  A record entered by hand has complete marks.  From the empty form,
    after any sequence of changes to the name, the roll number, the class
    and the five mark inputs, every text typed into a mark input being
    ASCII text whose leading whole number, if any, is of magnitude at most
    2 * 10^13, the submit returns and adds one record under the generated
    identifier; its marks hold exactly the five subjects, each with a
    whole number of that magnitude; its total is the sum of the five
    subject values, its percentage a fifth of the total and its grade the
    class of the percentage. *)
Theorem form_entry_marks (uuid : string)
  (changes : list (FormField * string)) (d : AdminDashboard.t)
  (a : App.state) :
  (forall sub v, In (MarkField sub, v) changes ->
                 sub ∈ subjects /\ mark_text v) ->
  exists (s : Student.t) (d' : AdminDashboard.t),
    submitStudentForm uuid (typed changes (openStudentModal None d)) a
    = Ok (d', onAddStudent s a) /\
    Student.id s = uuid /\
    form_marks (Student.marks s) /\
    complete_marks (Student.marks s) /\
    num_eq (Student.total s) (spec_total (Student.marks s)) /\
    num_eq (Student.percentage s) (jdiv_lit (Student.total s) 5) /\
    Student.grade s = calculateGrade (Student.percentage s).
Proof.
  intros Hs.
  destruct (typed_form_marks changes
              (AdminDashboard.formData (openStudentModal None d)) Hs)
    as [(v & Hv & Hm) Hid].
  { eexists. split; [reflexivity|]. apply form_marks_zero. }
  unfold submitStudentForm, typed, setFormData, handleStudentSubmit.
  cbn [AdminDashboard.currentExam AdminDashboard.editingId
       AdminDashboard.formData AdminDashboard.showExamModal
       AdminDashboard.showScanner AdminDashboard.examInput
       AdminDashboard.showStudentModal openStudentModal].
  cbn [AdminDashboard.formData openStudentModal] in Hv, Hid.
  set (fd := fold_left _ changes _) in *.
  set (data := Partial.mk (Partial.id fd) _ _ _ _ _ _ _ _).
  destruct (processStudentData_form_marks uuid data v Hv Hm)
    as (s & Hp & Hmarks & Hc & Ht & Hper & Hg).
  rewrite Hp. cbn [bind]. eexists s, _. split; [reflexivity|].
  rewrite Hmarks. repeat split; auto.
  apply processStudentData_examName in Hp as [_ ->].
  subst data. cbn [Partial.id]. now rewrite Hid.
Qed.

(** X8, an instance: the texts 95, 12.7 and abc typed into three mark
    inputs give the marks 95, 12 and 0, and a total of 107. *)
Lemma form_entry_marks_witness :
  let changes := [(NameField, "Ann"); (MarkField "math", "95");
                  (MarkField "science", "12.7");
                  (MarkField "english", "abc")] in
  let a := App.mk "admin" true [] [] None in
  exists (s : Student.t) (d' : AdminDashboard.t),
    submitStudentForm "u1"
      (typed changes (openStudentModal None initial_dashboard)) a
    = Ok (d', onAddStudent s a) /\
    own_prop (Student.marks s) "math" = Some (VNum (Fin 95)) /\
    own_prop (Student.marks s) "science" = Some (VNum (Fin 12)) /\
    own_prop (Student.marks s) "english" = Some (VNum (Fin 0)) /\
    num_eqb (Student.total s) (Fin 107) = true.
Proof.
  intros changes a.
  destruct (form_entry_marks "u1" changes initial_dashboard a)
    as (s & d' & H & _).
  { intros sub v Hin. unfold changes in Hin. unfold subjects, mark_text.
    repeat (destruct Hin as [Hin|Hin];
            [first [ discriminate
                   | injection Hin as <- <-;
                     split; [set_solver|];
                     split; [reflexivity|];
                     eexists; split; [reflexivity|vm_compute; discriminate]
                   ]|]).
    destruct Hin. }
  exists s, d'. split; [exact H|].
  assert (E : exists s0 d0,
             submitStudentForm "u1"
               (typed changes (openStudentModal None initial_dashboard)) a
             = Ok (d0, onAddStudent s0 a) /\
             own_prop (Student.marks s0) "math" = Some (VNum (Fin 95)) /\
             own_prop (Student.marks s0) "science" = Some (VNum (Fin 12)) /\
             own_prop (Student.marks s0) "english" = Some (VNum (Fin 0)) /\
             num_eqb (Student.total s0) (Fin 107) = true).
  { eexists _, _. split; [vm_compute; reflexivity|].
    vm_compute. repeat split. }
  destruct E as (s0 & d0 & H0 & E).
  rewrite H in H0. injection H0 as _ ->. exact E.
Defined.

Lemma submitStudentForm_update (uuid i : string) (d : AdminDashboard.t)
  (a : App.state) (p : AdminDashboard.t * App.state) :
  AdminDashboard.editingId d = Some i -> i <> "" ->
  submitStudentForm uuid d a = Ok p ->
  exists r : Student.t, Student.id r = i /\ snd p = onUpdateStudent r a.
Proof.
  intros He Hi H. unfold submitStudentForm, handleStudentSubmit in H.
  rewrite He in H. apply String.eqb_neq in Hi as Hb. rewrite Hb in H.
  destruct (processStudentData uuid _) as [r|] eqn:Hp in H; [|discriminate].
  cbn [bind] in H. injection H as <-. exists r.
  apply processStudentData_examName in Hp as [_ I].
  cbn [Partial.id] in I. rewrite (str_or_keep _ _ Hi) in I.
  split; [exact I|reflexivity].
Qed.

Lemma submitStudentForm_new (uuid : string) (d : AdminDashboard.t)
  (a : App.state) (p : AdminDashboard.t * App.state) :
  AdminDashboard.editingId d = None \/
  AdminDashboard.editingId d = Some "" ->
  submitStudentForm uuid d a = Ok p ->
  exists r : Student.t,
    Student.id r = str_or (Partial.id (AdminDashboard.formData d)) uuid /\
    snd p = onAddStudent r a.
Proof.
  intros He H. unfold submitStudentForm, handleStudentSubmit in H.
  destruct He as [He|He]; rewrite He in H; cbn [String.eqb] in H;
    (destruct (processStudentData uuid _) as [r|] eqn:Hp in H;
     [|discriminate]);
    cbn [bind] in H; injection H as <-; exists r;
    apply processStudentData_examName in Hp as [_ I];
    (split; [exact I|reflexivity]).
Qed.

(** X19.  An edit is ended by saving, or by opening the dialog for a new
    record, and by nothing else.  Closing the edit dialog keeps the edited
    identifier; when a sheet is scanned next and the form it fills is
    saved, the scanned record takes the place of the record that was being
    edited, under its identifier, and the store holds as many records as
    before.  When the dialog for a new record was opened in between, the
    scanned record is added under the generated identifier. *)
Theorem scan_after_closed_edit (uuid : string) (s : Student.t)
  (scanned : Partial.t) (d d' : AdminDashboard.t) (a a' : App.state) :
  Student.id s <> "" ->
  (submitStudentForm uuid
     (scanComplete scanned
        (openScanner (closeStudentModal (openStudentModal (Some s) d)))) a
   = Ok (d', a') ->
   exists r : Student.t,
     Student.id r = Student.id s /\
     a' = onUpdateStudent r a /\
     List.length (App.students a') = List.length (App.students a) /\
     (In s (App.students a) -> In r (App.students a')) /\
     (r <> s -> ~ In s (App.students a'))) /\
  (submitStudentForm uuid
     (scanComplete scanned
        (openScanner
           (closeStudentModal
              (openStudentModal None
                 (closeStudentModal (openStudentModal (Some s) d)))))) a
   = Ok (d', a') ->
   exists r : Student.t,
     Student.id r = str_or (Partial.id scanned) uuid /\
     a' = onAddStudent r a).
Proof.
  intros Hid. split; intros H.
  - apply (submitStudentForm_update uuid (Student.id s)) in H
      as (r & I & E); [|reflexivity|exact Hid].
    cbn [snd] in E. subst a'. exists r.
    split; [exact I|]. split; [reflexivity|].
    unfold onUpdateStudent, setStudents. cbn [App.students].
    split; [apply length_map|]. split.
    + intros Hin. apply in_map_iff. exists s. split; [|exact Hin].
      now rewrite I, String.eqb_refl.
    + intros Hne Hin. apply in_map_iff in Hin as (x & Hx & _).
      destruct (String.eqb (Student.id x) (Student.id r)) eqn:E.
      * congruence.
      * subst x. rewrite I, String.eqb_refl in E. discriminate.
  - apply submitStudentForm_new in H as (r & I & E); [|now left].
    cbn [snd] in E. subst a'. exists r. split; [exact I|reflexivity].
Qed.

(** X19, an instance: Ann's record is opened for an edit and the dialog
    closed; a scan of Bob's sheet, saved, puts a record under Ann's
    identifier and adds none. *)
Lemma scan_after_closed_edit_witness :
  let ann := Student.mk "s1" "Ann" "1" "X" "Finals" zero_marks (Fin 0)
               (Fin 0) "F" in
  let bob := Partial.mk None (Some "Bob") (Some "2") (Some "X")
               (Some "Finals") (Some zero_marks) None None None in
  let e := Exam.mk "e1" "Finals" "t1" in
  let d := AdminDashboard.mk (Some e) false false false None ""
             (blank_form "") in
  let a := App.mk "admin" true [ann] [e] None in
  exists (d' : AdminDashboard.t) (a' : App.state) (r : Student.t),
    submitStudentForm "u2"
      (scanComplete bob
         (openScanner (closeStudentModal (openStudentModal (Some ann) d))))
      a = Ok (d', a') /\
    Student.id r = "s1" /\ a' = onUpdateStudent r a /\
    List.length (App.students a') = 1%nat.
Proof.
  intros ann bob e d a.
  assert (H : exists p,
             submitStudentForm "u2"
               (scanComplete bob
                  (openScanner
                     (closeStudentModal (openStudentModal (Some ann) d))))
               a = Ok p) by (eexists; vm_compute; reflexivity).
  destruct H as [[d' a'] H]. exists d', a'.
  destruct (scan_after_closed_edit "u2" ann bob d d' a a') as [U _];
    [discriminate|].
  destruct (U H) as (r & Hid & Ha & Hlen & _).
  exists r. split; [exact H|]. split; [exact Hid|]. split; [exact Ha|].
  exact Hlen.
Defined.

Lemma map_id_update (r : Student.t) (l : list Student.t) :
  List.map Student.id
    (List.map (fun st => if String.eqb (Student.id st) (Student.id r)
                         then r else st) l)
  = List.map Student.id l.
Proof.
  induction l as [|x l IH]; cbn [List.map]; [reflexivity|].
  rewrite IH. f_equal.
  destruct (String.eqb (Student.id x) (Student.id r)) eqn:E;
    [|reflexivity].
  apply String.eqb_eq in E. now symmetry.
Qed.

Lemma NoDup_map_filter {A B : Type} (f : A -> B) (p : A -> bool)
  (l : list A) :
  List.NoDup (List.map f l) -> List.NoDup (List.map f (List.filter p l)).
Proof.
  induction l as [|x l IH]; cbn [List.map List.filter]; [auto|].
  intros H. inversion H as [|? ? Hx Hl]; subst.
  destruct (p x); [|now apply IH].
  cbn [List.map]. constructor; [|now apply IH].
  intros Hin. apply Hx. apply in_map_iff in Hin as (y & E & Hy).
  apply filter_In in Hy as [Hy _]. apply in_map_iff. eauto.
Qed.

Lemma NoDup_snoc {A : Type} (l : list A) (x : A) :
  List.NoDup l -> ~ In x l -> List.NoDup (l ++ [x]).
Proof.
  induction l as [|y l IH]; cbn [app]; intros N H.
  - repeat constructor. intros [].
  - inversion N as [|? ? Hy Hl]; subst. constructor.
    + intros Hin. apply in_app_or in Hin as [Hin|[<-|[]]]; [auto|].
      apply H. now left.
    + apply IH; [exact Hl|]. intros Hin. apply H. now right.
Qed.

(** X20.  The identifiers of the stored records stay pairwise distinct.
    When they are distinct, they still are after a student or an exam is
    deleted and after an edit is saved, which leaves the sequence of
    identifiers as it was; and they still are after a new record is saved,
    provided its identifier, the form's or else the generated one, is not
    that of a stored record, as a fresh UUID never is. *)
Theorem identifiers_stay_distinct (uuid : string)
  (d d' : AdminDashboard.t) (a a' : App.state) :
  List.NoDup (List.map Student.id (App.students a)) ->
  (forall (confirmed : bool) (id : string),
      List.NoDup
        (List.map Student.id
           (App.students (onDeleteStudent confirmed id a)))) /\
  (forall id : string,
      List.NoDup (List.map Student.id (App.students (onDeleteExam id a)))) /\
  (submitStudentForm uuid d a = Ok (d', a') ->
   (forall i : string,
       AdminDashboard.editingId d = Some i -> i <> "" ->
       List.map Student.id (App.students a')
       = List.map Student.id (App.students a)) /\
   ((AdminDashboard.editingId d = None \/
     AdminDashboard.editingId d = Some "" ->
     ~ In (str_or (Partial.id (AdminDashboard.formData d)) uuid)
         (List.map Student.id (App.students a))) ->
    List.NoDup (List.map Student.id (App.students a')))).
Proof.
  intros ND. split; [|split].
  - intros confirmed id. unfold onDeleteStudent.
    destruct confirmed; [|exact ND].
    unfold setStudents. cbn [App.students]. now apply NoDup_map_filter.
  - intros id. unfold onDeleteExam, setStudents. cbn [App.students].
    now apply NoDup_map_filter.
  - intros H.
    assert (U : forall i : string,
               AdminDashboard.editingId d = Some i -> i <> "" ->
               List.map Student.id (App.students a')
               = List.map Student.id (App.students a)).
    { intros i Hi Hne.
      destruct (submitStudentForm_update uuid i d a (d', a') Hi Hne H)
        as (r & I & E).
      cbn [snd] in E. subst a'. unfold onUpdateStudent, setStudents.
      cbn [App.students]. apply map_id_update. }
    split; [exact U|]. intros Hfresh.
    destruct (AdminDashboard.editingId d) as [i|] eqn:Hi;
      [destruct (String.eqb_spec i "") as [->|Hne]|].
    + apply submitStudentForm_new in H as (r & I & E); [|now right].
      cbn [snd] in E. subst a'. unfold onAddStudent, setStudents.
      cbn [App.students]. rewrite map_app. cbn [List.map].
      apply NoDup_snoc; [exact ND|]. rewrite I. apply Hfresh. now right.
    + now rewrite (U i eq_refl Hne).
    + apply submitStudentForm_new in H as (r & I & E); [|now left].
      cbn [snd] in E. subst a'. unfold onAddStudent, setStudents.
      cbn [App.students]. rewrite map_app. cbn [List.map].
      apply NoDup_snoc; [exact ND|]. rewrite I. apply Hfresh. now left.
Qed.

(** X20, an instance: a second record entered under a fresh identifier
    leaves the two identifiers distinct. *)
Lemma identifiers_stay_distinct_witness :
  let ann := Student.mk "s1" "Ann" "1" "X" "Finals" zero_marks (Fin 0)
               (Fin 0) "F" in
  let e := Exam.mk "e1" "Finals" "t1" in
  let d := AdminDashboard.mk (Some e) false true false None ""
             (blank_form "Finals") in
  let a := App.mk "admin" true [ann] [e] None in
  exists (d' : AdminDashboard.t) (a' : App.state),
    submitStudentForm "s2" d a = Ok (d', a') /\
    List.NoDup (List.map Student.id (App.students a')).
Proof.
  intros ann e d a.
  assert (H : exists p, submitStudentForm "s2" d a = Ok p)
    by (eexists; vm_compute; reflexivity).
  destruct H as [[d' a'] H]. exists d', a'. split; [exact H|].
  destruct (identifiers_stay_distinct "s2" d d' a a') as (_ & _ & S).
  - repeat constructor. intros [].
  - destruct (S H) as [_ N]. apply N. intros _ [F|[]]. discriminate.
Defined.

(* ------------------------------------------------------------------ *)
(** ** The landing page *)

Lemma string_compare_cons (a b : ascii) (s t : string) :
  String.compare (String a s) (String b t)
  = match Ascii.compare a b with
    | Eq => String.compare s t
    | o => o
    end.
Proof. reflexivity. Qed.

Lemma string_compare_refl (s : string) : String.compare s s = Eq.
Proof.
  pose proof (String.compare_antisym s s) as H.
  destruct (String.compare s s); [reflexivity|discriminate..].
Qed.

Lemma string_leb_trans (a b c : string) :
  String.leb a b = true -> String.leb b c = true -> String.leb a c = true.
Proof.
  unfold String.leb. revert b c.
  induction a as [|x a IH]; intros [|y b] [|z c]; cbn [String.compare];
    try reflexivity; try discriminate.
  unfold Ascii.compare.
  destruct (N.compare_spec (N_of_ascii x) (N_of_ascii y)) as [E1|L1|G1];
    destruct (N.compare_spec (N_of_ascii y) (N_of_ascii z)) as [E2|L2|G2];
    destruct (N.compare_spec (N_of_ascii x) (N_of_ascii z)) as [E3|L3|G3];
    try reflexivity; try discriminate; try lia.
  apply IH.
Qed.

Lemma string_ltb_leb (a b : string) :
  String.ltb a b = true <-> String.leb a b = true /\ a <> b.
Proof.
  unfold String.ltb, String.leb. split.
  - intros H. split.
    + now destruct (String.compare a b).
    + intros ->. now rewrite string_compare_refl in H.
  - intros [H N]. destruct (String.compare a b) eqn:E;
      [|reflexivity|discriminate].
    now apply String.compare_eq_iff in E.
Qed.

Lemma Set_from_In (l : list string) (x : string) :
  In x (Set_from l) <-> In x l.
Proof.
  induction l as [|y l IH]; cbn [Set_from]; [reflexivity|].
  cbn [In]. rewrite filter_In, IH, negb_true_iff, String.eqb_neq.
  destruct (String.eqb_spec y x); intuition congruence.
Qed.

Lemma Set_from_NoDup (l : list string) : List.NoDup (Set_from l).
Proof.
  induction l as [|y l IH]; cbn [Set_from]; constructor.
  - rewrite filter_In, negb_true_iff, String.eqb_neq. tauto.
  - now apply List.NoDup_filter.
Qed.

Lemma insert_sorted_perm (x : string) (l : list string) :
  Permutation (x :: l) (insert_sorted x l).
Proof.
  induction l as [|y l IH]; cbn [insert_sorted]; [reflexivity|].
  destruct (String.leb x y); [reflexivity|].
  rewrite perm_swap. now constructor.
Qed.

Lemma sort_perm (l : list string) : Permutation l (sort l).
Proof.
  induction l as [|x l IH]; cbn [sort fold_right]; [reflexivity|].
  fold (sort l). rewrite <- insert_sorted_perm. now constructor.
Qed.

Lemma insert_sorted_sorted (x : string) (l : list string) :
  StronglySorted (fun a b => String.leb a b = true) l ->
  StronglySorted (fun a b => String.leb a b = true) (insert_sorted x l).
Proof.
  induction 1 as [|y l Hl IH Hy]; cbn [insert_sorted].
  - repeat constructor.
  - destruct (String.leb x y) eqn:E.
    + constructor; [now constructor|]. constructor; [exact E|].
      rewrite List.Forall_forall in Hy |- *. intros z Hz.
      apply (string_leb_trans x y z E). now apply Hy.
    + constructor; [exact IH|].
      rewrite List.Forall_forall in Hy |- *. intros z Hz.
      apply (Permutation_in _ (Permutation_sym (insert_sorted_perm x l)))
        in Hz as [<-|Hz]; [|now apply Hy].
      destruct (String.leb_total x y) as [F|F]; [congruence|exact F].
Qed.

Lemma sort_sorted (l : list string) :
  StronglySorted (fun a b => String.leb a b = true) (sort l).
Proof.
  induction l as [|x l IH]; cbn [sort fold_right]; [constructor|].
  now apply insert_sorted_sorted.
Qed.

(** A list of strings has one ascending arrangement. *)
Lemma sorted_unique (l k : list string) :
  Permutation l k ->
  StronglySorted (fun a b => String.leb a b = true) l ->
  StronglySorted (fun a b => String.leb a b = true) k ->
  l = k.
Proof.
  revert k. induction l as [|x l IH]; intros k P Hl Hk.
  - apply Permutation_nil in P. now subst.
  - destruct k as [|y k].
    { apply Permutation_sym, Permutation_nil in P. discriminate. }
    apply StronglySorted_inv in Hl as [Hl Hx].
    apply StronglySorted_inv in Hk as [Hk Hy].
    rewrite List.Forall_forall in Hx, Hy.
    assert (E : x = y).
    { assert (I1 : In x (y :: k))
        by (apply (Permutation_in _ P); now left).
      assert (I2 : In y (x :: l))
        by (apply (Permutation_in _ (Permutation_sym P)); now left).
      destruct I1 as [->|I1]; [reflexivity|].
      destruct I2 as [->|I2]; [reflexivity|].
      apply String.leb_antisym; auto. }
    subst y. f_equal. apply IH; auto.
    now apply Permutation_cons_inv in P.
Qed.

Lemma Landing_exams_In (students : list Student.t) (n : string) :
  In n (Landing_exams students) <->
  exists s, In s students /\ Student.examName s = n.
Proof.
  assert (P : Permutation (Set_from (List.map Student.examName students))
                (Landing_exams students)) by apply sort_perm.
  split.
  - intros H. apply (Permutation_in _ (Permutation_sym P)) in H.
    apply Set_from_In, in_map_iff in H as (s & E & H). eauto.
  - intros (s & H & E). apply (Permutation_in _ P), Set_from_In.
    apply in_map_iff. eauto.
Qed.

(** X9.  The exam list of the landing page holds exactly the exam names
    that occur among the stored records, each once; an exam folder is
    offered only through its records.  When nothing is selected yet and
    there is a record, one of the names becomes the selection; a selection
    already made is kept; with no record nothing is selected and the
    button stays disabled.  When the exam names of the records are ASCII
    text, on which the order of the embedding is the program's order of
    code units, the list is in strictly ascending order, any other way of
    sorting the distinct names gives the same list, and the name selected
    first is the first of the list and the least. *)
Theorem Landing_exam_list (students : list Student.t) :
  let exams := Landing_exams students in
  (forall n : string,
      In n exams <-> exists s, In s students /\ Student.examName s = n) /\
  List.NoDup exams /\
  (forall selectedExam : string,
      selectedExam <> "" -> select_first exams selectedExam = selectedExam) /\
  (students <> [] -> In (select_first exams "") exams) /\
  (students = [] ->
   exams = [] /\ select_first exams "" = "" /\
   forall rollNo, can_check rollNo (select_first exams "") = false) /\
  ((forall s, In s students -> ascii_text (Student.examName s) = true) ->
   StronglySorted (fun a b => String.ltb a b = true) exams /\
   (forall k : list string,
       Permutation (Set_from (List.map Student.examName students)) k ->
       StronglySorted (fun a b => String.leb a b = true) k ->
       k = exams) /\
   (students <> [] ->
    List.hd_error exams = Some (select_first exams "")) /\
   (forall n, In n exams -> String.leb (select_first exams "") n = true)).
Proof.
  intros exams.
  assert (P : Permutation (Set_from (List.map Student.examName students))
                exams) by apply sort_perm.
  assert (S : StronglySorted (fun a b => String.leb a b = true) exams)
    by apply sort_sorted.
  assert (M : forall n : string,
             In n exams <->
             exists s, In s students /\ Student.examName s = n)
    by apply Landing_exams_In.
  assert (ND : List.NoDup exams).
  { apply (Permutation_NoDup P), Set_from_NoDup. }
  split; [exact M|]. split; [exact ND|].
  split; [|split; [|split]].
  - intros sel Hsel. unfold select_first. destruct exams; [reflexivity|].
    apply String.eqb_neq in Hsel. now rewrite Hsel.
  - intros Hne.
    destruct exams as [|x l] eqn:E.
    + destruct students as [|s r]; [contradiction|].
      destruct (proj2 (M (Student.examName s))) as [].
      exists s. split; [now left|reflexivity].
    + cbn [select_first String.eqb]. now left.
  - intros ->. cbn. split; [reflexivity|]. split; [reflexivity|].
    intros r. unfold can_check. cbn. apply andb_false_r.
  - intros _. split; [|split; [|split]].
    + clear P M. induction S as [|x l Hl IH Hx]; constructor.
      * apply IH. now inversion ND.
      * rewrite List.Forall_forall in Hx |- *. intros y Hy.
        apply string_ltb_leb. split; [now apply Hx|].
        intros ->. now inversion ND.
    + intros k Pk Sk. apply sorted_unique; auto.
      now rewrite <- Pk.
    + intros Hne. destruct exams as [|x l] eqn:E; [|reflexivity].
      destruct students as [|s r]; [contradiction|].
      destruct (proj2 (M (Student.examName s))) as [].
      exists s. split; [now left|reflexivity].
    + destruct exams as [|x l] eqn:E; [intros n []|].
      cbn [select_first String.eqb].
      intros n [<-|Hn].
      * unfold String.leb. now rewrite string_compare_refl.
      * apply StronglySorted_inv in S as [_ Hx].
        rewrite List.Forall_forall in Hx. now apply Hx.
Qed.

(** X9, an instance: records of Finals, Mock, Finals and Annual offer
    Annual, Finals and Mock, and Annual, the least, is selected. *)
Lemma Landing_exam_list_witness :
  let st (n : string) :=
    Student.mk "" "" "" "" n zero_marks (Fin 0) (Fin 0) "F" in
  let students := [st "Finals"; st "Mock"; st "Finals"; st "Annual"] in
  Landing_exams students = ["Annual"; "Finals"; "Mock"] /\
  select_first (Landing_exams students) "" = "Annual" /\
  forall n, In n (Landing_exams students) ->
            String.leb (select_first (Landing_exams students) "") n = true.
Proof.
  intros st students. split; [reflexivity|]. split; [reflexivity|].
  destruct (Landing_exam_list students) as (_ & _ & _ & _ & _ & H).
  apply H. intros s Hs.
  repeat (destruct Hs as [<-|Hs]; [reflexivity|]). destruct Hs.
Defined.

Lemma find_first {A : Type} (p : A -> bool) (l1 l2 : list A) (x : A) :
  (forall y, In y l1 -> p y = false) -> p x = true ->
  List.find p (l1 ++ x :: l2) = Some x.
Proof.
  intros H Hx. induction l1 as [|y l1 IH]; cbn [app List.find].
  - now rewrite Hx.
  - rewrite (H y (or_introl eq_refl)). apply IH.
    intros z Hz. apply H. now right.
Qed.

(** X10.  The lookup selects the first record, in the order the records
    were added, that matches; a record added later never changes the
    outcome of a lookup that finds one, so of two records with the same
    roll number in one exam only the older can be looked up.  Whatever its
    outcome, the lookup leaves the students, the exams and the admin flag
    as they were. *)
Theorem onCheckResult_first_match (r ex : string) (a : App.state) :
  (forall (l1 l2 : list Student.t) (s : Student.t),
      App.students a = (l1 ++ s :: l2)%list ->
      matches r ex s = true ->
      (forall x, In x l1 -> matches r ex x = false) ->
      onCheckResult r ex a = (setPage "result" (setSelected s a), None) /\
      forall s' : Student.t,
        onCheckResult r ex (onAddStudent s' a)
        = (setPage "result" (setSelected s (onAddStudent s' a)), None)) /\
  App.students (fst (onCheckResult r ex a)) = App.students a /\
  App.exams (fst (onCheckResult r ex a)) = App.exams a /\
  App.isAdmin (fst (onCheckResult r ex a)) = App.isAdmin a.
Proof.
  split.
  - intros l1 l2 s E Hs Hl. unfold onCheckResult. split.
    + now rewrite E, (find_first _ l1 l2 s Hl Hs).
    + intros s'. unfold onAddStudent at 1, setStudents at 1.
      cbn [App.students]. rewrite E, <- app_assoc.
      cbn [app]. now rewrite (find_first _ l1 _ s Hl Hs).
  - unfold onCheckResult.
    destruct (List.find (matches r ex) (App.students a));
      repeat split.
Qed.

(** X10, an instance: of two records with roll number 7 in Finals the one
    added first is shown. *)
Lemma onCheckResult_first_match_witness :
  let st (i : string) :=
    Student.mk i "" "7" "" "Finals" zero_marks (Fin 0) (Fin 0) "F" in
  let a := App.mk "landing" false [st "old"] [] None in
  option_map Student.id
    (App.selected
       (fst (onCheckResult "7" "Finals" (onAddStudent (st "new") a))))
  = Some "old".
Proof.
  intros st a.
  destruct (onCheckResult_first_match "7" "Finals" a) as [H _].
  destruct (H [] [] (st "old")) as [_ E];
    [reflexivity | reflexivity | intros x [] |].
  rewrite E. reflexivity.
Defined.

(* ------------------------------------------------------------------ *)
(** ** Login, session and navigation *)

Lemma select_first_In (l : list string) :
  select_first l "" = "" \/ In (select_first l "") l.
Proof. destruct l as [|x l]; cbn; auto. Qed.

Lemma rendered_coherent (a : App.state) (ss : Storage) (p : Portal.t) :
  coherent p ->
  App.students a = App.students (Portal.app p) ->
  In (App.page a) ["landing"; "login"; "result"; "admin"] ->
  (App.page a = "result" ->
   exists s, App.selected a = Some s /\ In s (App.students a)) ->
  (App.page a = "admin" -> App.isAdmin a = true) ->
  (App.page a = "login" -> App.isAdmin a = false) ->
  (App.isAdmin a = true <-> ss "is_admin" = Some "true") ->
  coherent (rendered a ss p).
Proof.
  intros (_ & _ & _ & _ & _ & L) Hst Hp Hr Ha Hl Hs.
  unfold coherent, rendered.
  cbn [Portal.app Portal.sessionStorage Portal.landing].
  repeat (split; [assumption|]).
  intros E. rewrite E. cbn [String.eqb Ascii.eqb Bool.eqb andb].
  rewrite andb_true_r.
  destruct (String.eqb_spec (App.page (Portal.app p)) "landing") as [F|F];
    cbn [negb].
  - rewrite Hst. auto.
  - apply select_first_In.
Qed.

Lemma boot_coherent (students : list Student.t) (exams : list Exam.t)
  (ss : Storage) : coherent (boot students exams ss).
Proof.
  unfold coherent, boot. cbn [Portal.app Portal.sessionStorage
    Portal.landing App.page App.isAdmin App.selected App.students].
  split; [now left|]. repeat (split; [discriminate|]). split.
  - destruct (ss "is_admin") as [f|]; [|split; discriminate].
    destruct (String.eqb_spec f "true"); split; congruence.
  - intros _. apply select_first_In.
Qed.

Lemma step_coherent (ev : Event) (p p' : Portal.t) :
  coherent p -> step ev p = Some p' -> coherent p'.
Proof.
  intros C. pose proof C as (Hp & Hr & Ha & Hl & Hs & Hx).
  destruct p as [a ss la lo mo ti]. cbn [Portal.app Portal.sessionStorage
    Portal.landing] in Hp, Hr, Ha, Hl, Hs, Hx.
  assert (Dash : forall a' : App.state,
             App.page a' = App.page a -> App.isAdmin a' = App.isAdmin a ->
             (if String.eqb (App.page a) "admin" && App.isAdmin a
              then Some (with_app a' (Portal.mk a ss la lo mo ti))
              else None) = Some p' -> coherent p').
  { intros a' E1 E2 H.
    destruct (String.eqb_spec (App.page a) "admin") as [E|E];
      [|discriminate].
    destruct (App.isAdmin a) eqn:F; [|discriminate].
    injection H as <-. unfold coherent, with_app.
    cbn [Portal.app Portal.sessionStorage Portal.landing].
    rewrite E1, E2, E.
    split; [cbn; tauto|]. repeat (split; [discriminate|]).
    split; [tauto|]. split; [discriminate|]. split; [exact Hs|].
    discriminate. }
  destruct ev; cbn [step Portal.app Portal.sessionStorage Portal.landing
    Portal.login Portal.mounts Portal.timers]; intros H.
  - (* ClickLogo *)
    injection H as <-. apply rendered_coherent; auto; cbn; try tauto;
      try discriminate.
  - (* ClickAdminAccess *)
    destruct (App.isAdmin a) eqn:F; [discriminate|]. injection H as <-.
    apply rendered_coherent; auto; cbn; try tauto; try discriminate.
    rewrite F. exact Hs.
  - (* ClickLogout *)
    destruct (App.isAdmin a) eqn:F; [|discriminate].
    unfold handleLogout in H. injection H as <-.
    apply rendered_coherent; auto; cbn; try tauto; try discriminate.
    unfold removeItem. cbn. split; discriminate.
  - (* TypeRollNo *)
    destruct (String.eqb_spec (App.page a) "landing"); [|discriminate].
    injection H as <-. unfold coherent. cbn. tauto.
  - (* SelectExam *)
    destruct (String.eqb_spec (App.page a) "landing"); [|discriminate].
    cbn [andb] in H.
    destruct (existsb _ _) eqn:X in H; [|discriminate].
    injection H as <-. unfold coherent.
    cbn [Portal.app Portal.sessionStorage Portal.landing
         Landing.selectedExam].
    repeat (split; [assumption|]). intros _. right.
    apply existsb_exists in X as (n & Hn & En).
    apply String.eqb_eq in En. now subst.
  - (* ClickViewMarksheet *)
    destruct (String.eqb_spec (App.page a) "landing") as [E|E];
      [|discriminate].
    cbn [andb] in H. destruct (can_check _ _); [|discriminate].
    injection H as <-. unfold onCheckResult.
    destruct (List.find _ (App.students a)) as [s|] eqn:F; cbn [fst].
    + apply find_some in F as [Hin _].
      apply rendered_coherent; auto; cbn; try tauto; try discriminate.
      intros _. eauto.
    + apply rendered_coherent; auto.
  - (* ClickBack *)
    destruct (App.selected a); [|discriminate].
    destruct (String.eqb_spec (App.page a) "result"); [|discriminate].
    injection H as <-.
    apply rendered_coherent; auto; cbn; try tauto; try discriminate.
  - (* TypeUser *)
    destruct (String.eqb (App.page a) "login"); [|discriminate].
    injection H as <-. exact C.
  - (* TypePass *)
    destruct (String.eqb (App.page a) "login"); [|discriminate].
    injection H as <-. exact C.
  - (* SubmitLogin *)
    destruct (_ && _) in H; [|discriminate]. injection H as <-. exact C.
  - (* TimerFires *)
    destruct ti as [|t rest]; [discriminate|].
    destruct (_ && _) in H.
    + unfold handleLogin in H. injection H as <-.
      apply rendered_coherent; auto; cbn; try tauto; try discriminate.
    + destruct (_ && _) in H; injection H as <-; exact C.
  - exact (Dash (onAddStudent s a) eq_refl eq_refl H).
  - exact (Dash (onUpdateStudent s a) eq_refl eq_refl H).
  - refine (Dash (onDeleteStudent confirmed id a) _ _ H);
      unfold onDeleteStudent; now destruct confirmed.
  - exact (Dash (onAddExam uuid now n a) eq_refl eq_refl H).
  - exact (Dash (onDeleteExam id a) eq_refl eq_refl H).
Qed.

Lemma run_coherent (evs : list Event) (p p' : Portal.t) :
  coherent p -> run evs p = Some p' -> coherent p'.
Proof.
  revert p. induction evs as [|ev evs IH]; intros p C; cbn [run].
  - now intros [= <-].
  - destruct (step ev p) as [q|] eqn:E; [|discriminate].
    apply IH. exact (step_coherent ev p q C E).
Qed.

(** X11.  Whatever is clicked or typed, whenever a timer fires and whatever
    the dashboard does, from the start of the application on: the main
    area shows exactly one page; the result page shows a record that is in
    the store; the dashboard is shown to an admin only and the login page
    to others only; the admin flag is set exactly when the session holds
    the marker; and the exam selected on the landing page, if any, is the
    exam of a stored record. *)
Theorem navigation_invariants (students : list Student.t)
  (exams : list Exam.t) (sessionStorage : Storage) (evs : list Event)
  (p : Portal.t) :
  run evs (boot students exams sessionStorage) = Some p ->
  let a := Portal.app p in
  (exists v : View,
      main a = [v] /\
      match v with
      | LandingView =>
          Landing.selectedExam (Portal.landing p) = "" \/
          In (Landing.selectedExam (Portal.landing p))
            (Landing_exams (App.students a))
      | LoginView => App.isAdmin a = false
      | ResultView s => In s (App.students a)
      | AdminView => App.isAdmin a = true
      end) /\
  (App.isAdmin a = true <->
   Portal.sessionStorage p "is_admin" = Some "true").
Proof.
  intros H a.
  pose proof (run_coherent evs _ p (boot_coherent _ _ _) H)
    as (Hp & Hr & Ha & Hl & Hs & Hx).
  fold a in Hp, Hr, Ha, Hl, Hs, Hx. split; [|exact Hs].
  unfold main. cbn [In] in Hp.
  destruct Hp as [E|[E|[E|[E|[]]]]]; symmetry in E; rewrite E;
    cbn [String.eqb Ascii.eqb Bool.eqb andb app].
  - exists LandingView. auto.
  - exists LoginView. auto.
  - destruct (Hr E) as (s & -> & Hin). exists (ResultView s). auto.
  - rewrite (Ha E). exists AdminView. auto.
Qed.

(** X11, an instance: after a lookup that finds the record, the result
    page shows it. *)
Lemma navigation_invariants_witness :
  let st := Student.mk "s1" "Ann" "7" "X" "Finals" zero_marks (Fin 0)
              (Fin 0) "F" in
  let evs := [TypeRollNo "7"; ClickViewMarksheet] in
  exists p : Portal.t,
    run evs (boot [st] [] no_items) = Some p /\
    main (Portal.app p) = [ResultView st] /\
    exists v, main (Portal.app p) = [v].
Proof.
  intros st evs.
  assert (H : exists p, run evs (boot [st] [] no_items) = Some p)
    by (eexists; vm_compute; reflexivity).
  destruct H as [p H]. exists p. split; [exact H|]. split.
  - assert (E : option_map (fun q => main (Portal.app q))
                  (run evs (boot [st] [] no_items)) = Some [ResultView st])
      by (vm_compute; reflexivity).
    rewrite H in E. now injection E.
  - destruct (navigation_invariants [st] [] no_items evs p H)
      as [(v & Hv & _) _].
    exists v. exact Hv.
Defined.

Lemma step_no_password (ev : Event) (p p' : Portal.t) :
  (forall v, ev = TypePass v -> v <> "admin") ->
  App.isAdmin (Portal.app p) = false -> no_password p ->
  step ev p = Some p' ->
  App.isAdmin (Portal.app p') = false /\ no_password p' /\
  App.students (Portal.app p') = App.students (Portal.app p) /\
  App.exams (Portal.app p') = App.exams (Portal.app p) /\
  Portal.sessionStorage p' = Portal.sessionStorage p.
Proof.
  intros Hev Hadm [Hpw Hti]. destruct p as [a ss la lo mo ti].
  cbn [Portal.app Portal.login Portal.timers] in Hadm, Hpw, Hti.
  unfold no_password.
  destruct ev; cbn [step Portal.app Portal.sessionStorage Portal.landing
    Portal.login Portal.mounts Portal.timers]; rewrite ?Hadm, ?andb_false_r;
    intros H; try discriminate.
  - (* ClickLogo *)
    injection H as <-. unfold rendered. cbn. rewrite andb_false_r. auto.
  - (* ClickAdminAccess *)
    injection H as <-. unfold rendered. cbn. rewrite !andb_true_r.
    repeat split; auto.
    destruct (negb _); [discriminate|exact Hpw].
  - (* TypeRollNo *)
    destruct (String.eqb _ _); [|discriminate]. injection H as <-. cbn. auto.
  - (* SelectExam *)
    destruct (_ && _); [|discriminate]. injection H as <-. cbn. auto.
  - (* ClickViewMarksheet *)
    destruct (_ && _); [|discriminate]. injection H as <-.
    unfold onCheckResult, rendered.
    destruct (List.find _ _); cbn; rewrite ?andb_false_r; auto.
    destruct (_ && _); auto.
  - (* ClickBack *)
    destruct (App.selected a); [|discriminate].
    destruct (String.eqb _ _); [|discriminate]. injection H as <-.
    unfold rendered. cbn. rewrite andb_false_r. auto.
  - (* TypeUser *)
    destruct (String.eqb _ _); [|discriminate]. injection H as <-. cbn. auto.
  - (* TypePass *)
    destruct (String.eqb _ _); [|discriminate]. injection H as <-. cbn.
    repeat split; auto.
  - (* SubmitLogin *)
    destruct (_ && _); [|discriminate]. injection H as <-. cbn.
    repeat split; auto. apply Forall_app. split; [exact Hti|].
    constructor; [exact Hpw|constructor].
  - (* TimerFires *)
    destruct ti as [|t rest]; [discriminate|].
    apply Forall_cons in Hti as [Ht Hrest].
    apply String.eqb_neq in Ht. rewrite Ht, andb_false_r in H.
    destruct (_ && _) in H; injection H as <-; cbn; auto.
Qed.

Lemma run_no_password (evs : list Event) (p p' : Portal.t) :
  (forall v, In (TypePass v) evs -> v <> "admin") ->
  App.isAdmin (Portal.app p) = false -> no_password p ->
  run evs p = Some p' ->
  App.isAdmin (Portal.app p') = false /\
  App.students (Portal.app p') = App.students (Portal.app p) /\
  App.exams (Portal.app p') = App.exams (Portal.app p) /\
  Portal.sessionStorage p' = Portal.sessionStorage p.
Proof.
  revert p. induction evs as [|ev evs IH]; intros p Hev Hadm Hno;
    cbn [run].
  - intros [= <-]. auto.
  - destruct (step ev p) as [q|] eqn:E; [|discriminate]. intros H.
    destruct (step_no_password ev p q) as (A & B & C & D & F); auto.
    { intros v ->. apply Hev. now left. }
    destruct (IH q) as (A' & C' & D' & F'); auto.
    { intros v Hv. apply Hev. now right. }
    rewrite C', D', F'. auto.
Qed.

(** X12.  Without the password the store cannot be touched.  When the
    application starts without the admin marker in the session, then as
    long as the text [admin] is never typed into the password input,
    whatever else is clicked, typed or fired, the students and the exams
    stay as they were loaded, the admin flag stays unset, the session
    storage is not written and the dashboard is never shown. *)
Theorem store_needs_password (students : list Student.t)
  (exams : list Exam.t) (sessionStorage : Storage) (evs : list Event)
  (p : Portal.t) :
  sessionStorage "is_admin" <> Some "true" ->
  (forall v, In (TypePass v) evs -> v <> "admin") ->
  run evs (boot students exams sessionStorage) = Some p ->
  App.students (Portal.app p) = students /\
  App.exams (Portal.app p) = exams /\
  App.isAdmin (Portal.app p) = false /\
  Portal.sessionStorage p = sessionStorage /\
  ~ In AdminView (main (Portal.app p)).
Proof.
  intros Hm Hev H.
  assert (Hadm : App.isAdmin (Portal.app (boot students exams sessionStorage))
                 = false).
  { cbn. destruct (sessionStorage "is_admin") as [f|]; [|reflexivity].
    destruct (String.eqb_spec f "true"); congruence. }
  destruct (run_no_password evs _ p Hev Hadm) as (A & B & C & D); auto.
  { split; [discriminate|constructor]. }
  repeat (split; [assumption|]).
  unfold main. rewrite A, andb_false_r, app_nil_r.
  destruct (String.eqb (App.page (Portal.app p)) "landing"),
    (String.eqb (App.page (Portal.app p)) "login"),
    (String.eqb (App.page (Portal.app p)) "result"),
    (App.selected (Portal.app p));
    cbn; intuition discriminate.
Qed.

(** X12, an instance: a login attempt with the password [letmein] leaves
    the stored exam where it was. *)
Lemma store_needs_password_witness :
  let e := Exam.mk "e1" "Finals" "t1" in
  let evs := [ClickAdminAccess; TypeUser "admin"; TypePass "letmein";
              SubmitLogin; TimerFires] in
  exists p : Portal.t,
    run evs (boot [] [e] no_items) = Some p /\
    App.exams (Portal.app p) = [e] /\
    App.isAdmin (Portal.app p) = false /\
    Login.error (Portal.login p) = "Unauthorized Credentials".
Proof.
  intros e evs.
  assert (H : exists p, run evs (boot [] [e] no_items) = Some p)
    by (eexists; vm_compute; reflexivity).
  destruct H as [p H]. exists p. split; [exact H|].
  destruct (store_needs_password [] [e] no_items evs p) as (_ & B & C & _).
  - discriminate.
  - intros v Hv. unfold evs in Hv. cbn [In] in Hv.
    repeat (destruct Hv as [Hv|Hv]; [try discriminate|]).
    + injection Hv as <-. discriminate.
    + destruct Hv.
  - exact H.
  - split; [exact B|]. split; [exact C|].
    assert (E : option_map (fun q => Login.error (Portal.login q))
                  (run evs (boot [] [e] no_items))
                = Some "Unauthorized Credentials")
      by (vm_compute; reflexivity).
    rewrite H in E. now injection E.
Defined.

Lemma load_isAdmin (ls ss : Storage) (st : Slots.t) :
  load ls ss initial_slots = Ok st ->
  Slots.isAdmin st
  = match ss "is_admin" with
    | Some flag => String.eqb flag "true"
    | None => false
    end.
Proof.
  unfold load.
  destruct (item_truthy (ls "student_db"));
    [destruct (JSON_parse_or_throw (text_of (ls "student_db")))|];
    cbn [bind]; try discriminate;
    (destruct (item_truthy (ls "exam_db"));
     [destruct (JSON_parse_or_throw (text_of (ls "exam_db")))|]);
    cbn [bind]; try discriminate; intros [= <-];
    (destruct (ss "is_admin") as [f|]; [destruct (String.eqb f "true")|]);
    reflexivity.
Qed.

(** X13.  A login survives a reload and a logout does not.  After
    [handleLogin] the session holds the marker, so the load effect of the
    next start sets the admin flag; after [handleLogout] it is gone and the
    flag stays unset; no other item of the session is touched.  From a
    start without the marker, opening the login page, typing [admin] twice
    and submitting shows the dashboard once the timer fires, with the
    store as it was loaded. *)
Theorem login_survives_reload (a : App.state) (ss ls : Storage) :
  (forall st : Slots.t,
      load ls (snd (handleLogin a ss)) initial_slots = Ok st ->
      Slots.isAdmin st = true) /\
  (forall st : Slots.t,
      load ls (snd (handleLogout a ss)) initial_slots = Ok st ->
      Slots.isAdmin st = false) /\
  (forall k : string,
      k <> "is_admin" ->
      snd (handleLogin a ss) k = ss k /\ snd (handleLogout a ss) k = ss k) /\
  (forall (students : list Student.t) (exams : list Exam.t),
      ss "is_admin" <> Some "true" ->
      exists p : Portal.t,
        run [ClickAdminAccess; TypeUser "admin"; TypePass "admin";
             SubmitLogin; TimerFires] (boot students exams ss) = Some p /\
        main (Portal.app p) = [AdminView] /\
        App.students (Portal.app p) = students /\
        App.exams (Portal.app p) = exams /\
        Portal.sessionStorage p = snd (handleLogin a ss)).
Proof.
  split; [|split; [|split]].
  - intros st H. now rewrite (load_isAdmin _ _ _ H).
  - intros st H. now rewrite (load_isAdmin _ _ _ H).
  - intros k Hk. apply String.eqb_neq in Hk.
    unfold handleLogin, handleLogout, setItem, removeItem. cbn [snd].
    now rewrite Hk.
  - intros students exams Hm.
    assert (F : match ss "is_admin" with
                | Some flag => String.eqb flag "true"
                | None => false
                end = false).
    { destruct (ss "is_admin") as [f|]; [|reflexivity].
      destruct (String.eqb_spec f "true"); congruence. }
    unfold boot. rewrite F. eexists. split; [reflexivity|].
    repeat split.
Qed.

(** X13, an instance: a session that held nothing holds the marker after
    the login, and a start from it is an admin's. *)
Lemma login_survives_reload_witness :
  let a := App.mk "login" false [] [] None in
  exists st : Slots.t,
    load no_items (snd (handleLogin a no_items)) initial_slots = Ok st /\
    Slots.isAdmin st = true.
Proof.
  intros a.
  assert (H : exists st,
             load no_items (snd (handleLogin a no_items)) initial_slots
             = Ok st) by (eexists; reflexivity).
  destruct H as [st H]. exists st. split; [exact H|].
  destruct (login_survives_reload a no_items no_items) as [L _].
  exact (L st H).
Defined.

(* ------------------------------------------------------------------ *)
(** ** The grade as a function of the total *)

Lemma round2_nonneg (x : Q) : (0 <= x)%Q -> (0 <= round2 x)%Q.
Proof.
  intros H. rewrite (round2_half_up x H). unfold round_half_up_2dp.
  assert (F : (0 <= Qfloor (x * 100 + (1 # 2)))%Z).
  { change 0%Z with (Qfloor 0). apply Qfloor_resp_le. lra. }
  unfold Qle. cbn [Qnum Qden]. lia.
Qed.

Lemma round2_neg (x : Q) : (x < 0)%Q -> (round2 x <= 0)%Q.
Proof.
  intros H. unfold round2.
  assert (E : Qle_bool 0 x = false) by now apply Qle_bool_false.
  rewrite E.
  assert (F : (0 <= Qfloor (Qabs x * 100 + (1 # 2)))%Z).
  { change 0%Z with (Qfloor 0). apply Qfloor_resp_le.
    pose proof (Qabs_nonneg x). lra. }
  unfold Qle. cbn [Qnum Qden]. lia.
Qed.

Lemma round2_mono (x y : Q) : (x <= y)%Q -> (round2 x <= round2 y)%Q.
Proof.
  intros H. destruct (Qlt_le_dec x 0) as [Hx|Hx];
    destruct (Qlt_le_dec y 0) as [Hy|Hy].
  - unfold round2.
    rewrite (proj2 (Qle_bool_false 0 x) Hx), (proj2 (Qle_bool_false 0 y) Hy).
    assert (F : (Qfloor (Qabs y * 100 + (1 # 2))
                 <= Qfloor (Qabs x * 100 + (1 # 2)))%Z).
    { apply Qfloor_resp_le.
      rewrite (Qabs_neg x), (Qabs_neg y) by now apply Qlt_le_weak. lra. }
    unfold Qle. cbn [Qnum Qden]. lia.
  - apply Qle_trans with 0%Q; [now apply round2_neg|now apply round2_nonneg].
  - lra.
  - rewrite (round2_half_up x Hx), (round2_half_up y Hy).
    unfold round_half_up_2dp.
    assert (F : (Qfloor (x * 100 + (1 # 2))
                 <= Qfloor (y * 100 + (1 # 2)))%Z)
      by (apply Qfloor_resp_le; lra).
    unfold Qle. cbn [Qnum Qden]. lia.
Qed.

Lemma calculateGrade_mono (p q : Q) :
  (p <= q)%Q ->
  (grade_rank (calculateGrade (Fin p))
   <= grade_rank (calculateGrade (Fin q)))%nat.
Proof.
  intros H.
  assert (T : forall c : Q, Qle_bool c p = true -> Qle_bool c q = true).
  { intros c Hc. apply Qle_bool_iff in Hc. apply Qle_bool_iff. lra. }
  unfold calculateGrade, jge.
  destruct (Qle_bool 90 p) eqn:A1; [rewrite (T _ A1); reflexivity|].
  destruct (Qle_bool 80 p) eqn:A2;
    [rewrite (T _ A2); destruct (Qle_bool 90 q); cbn; lia|].
  destruct (Qle_bool 70 p) eqn:A3;
    [rewrite (T _ A3); destruct (Qle_bool 90 q), (Qle_bool 80 q); cbn; lia|].
  destruct (Qle_bool 55 p) eqn:A4;
    [rewrite (T _ A4);
     destruct (Qle_bool 90 q), (Qle_bool 80 q), (Qle_bool 70 q); cbn; lia|].
  destruct (Qle_bool 35 p) eqn:A5;
    [rewrite (T _ A5);
     destruct (Qle_bool 90 q), (Qle_bool 80 q), (Qle_bool 70 q),
       (Qle_bool 55 q); cbn; lia|].
  cbn. lia.
Qed.

(** X14.  A higher total never gives a lower grade: the grade the
    normalizer computes from a total, through the percentage rounded to
    two decimals, is monotone in the total.  For a whole total, which is
    what whole marks add up to, the rounding changes nothing and the grade
    is A+ from 450, A from 400, B from 350, C from 275, D from 175, and F
    below. *)
Theorem grade_of_total_monotone :
  (forall t1 t2 : Q,
      (t1 <= t2)%Q ->
      (grade_rank (grade_of_total (Fin t1))
       <= grade_rank (grade_of_total (Fin t2)))%nat) /\
  (forall t : Z,
      grade_of_total (Fin (inject_Z t))
      = if (450 <=? t)%Z then "A+"
        else if (400 <=? t)%Z then "A"
        else if (350 <=? t)%Z then "B"
        else if (275 <=? t)%Z then "C"
        else if (175 <=? t)%Z then "D"
        else "F").
Proof.
  split.
  - intros t1 t2 H. unfold grade_of_total.
    cbn [jdiv_lit Number_toFixed2].
    apply calculateGrade_mono, round2_mono.
    apply Qmult_le_compat_r; [exact H|]. now compute.
  - intros t. unfold grade_of_total. cbn [jdiv_lit Number_toFixed2].
    destruct (Z_lt_le_dec t 0) as [Hn|Hp].
    + assert (R : (round2 (inject_Z t / (5 # 1)) <= 0)%Q).
      { apply round2_neg. apply Qlt_shift_div_r; [reflexivity|].
        rewrite Qmult_0_l. change 0%Q with (inject_Z 0).
        now rewrite <- Zlt_Qlt. }
      unfold calculateGrade, jge.
      assert (F : forall c : Q, (0 < c)%Q ->
                    Qle_bool c (round2 (inject_Z t / (5 # 1))) = false).
      { intros c Hc. apply Qle_bool_false. lra. }
      rewrite !F by reflexivity.
      repeat (destruct (_ <=? t)%Z eqn:E in |- *;
              [apply Z.leb_le in E; lia|clear E]).
      reflexivity.
    + rewrite (calculateGrade_proper (Fin (round2 (inject_Z t / 5)))
                 (Fin (inject_Z t / 5)) (round2_fifth t Hp)).
      unfold calculateGrade, jge.
      assert (T : forall c : Z,
                 Qle_bool (inject_Z c) (inject_Z t / 5) = (5 * c <=? t)%Z).
      { intros c. apply eq_true_iff_eq.
        rewrite Qle_bool_iff, Z.leb_le. split.
        - intros Q.
          assert (Q' : (inject_Z c * 5 <= inject_Z t)%Q).
          { apply (Qmult_le_compat_r _ _ 5) in Q; [|discriminate].
            assert (E : (inject_Z t / 5 * 5 == inject_Z t)%Q) by field.
            now rewrite E in Q. }
          change 5%Q with (inject_Z 5) in Q'.
          rewrite <- inject_Z_mult, <- Zle_Qle in Q'. lia.
        - intros Q. apply Qle_shift_div_l; [reflexivity|].
          change 5%Q with (inject_Z 5).
          rewrite <- inject_Z_mult, <- Zle_Qle. lia. }
      change 90%Q with (inject_Z 90). change 80%Q with (inject_Z 80).
      change 70%Q with (inject_Z 70). change 55%Q with (inject_Z 55).
      change 35%Q with (inject_Z 35). rewrite !T. reflexivity.
Qed.

(** X14, an instance: a total of 449 is an A and a total of 450 an A+. *)
Lemma grade_of_total_monotone_witness :
  grade_of_total (Fin 449) = "A" /\ grade_of_total (Fin 450) = "A+" /\
  (grade_rank (grade_of_total (Fin 449))
   <= grade_rank (grade_of_total (Fin 450)))%nat.
Proof.
  destruct grade_of_total_monotone as [M T].
  split; [exact (T 449%Z)|]. split; [exact (T 450%Z)|].
  apply M. discriminate.
Defined.

(* ------------------------------------------------------------------ *)
(** ** Persistence: what is saved is read back *)

Lemma append_assoc_str (s t u : string) : (s ++ t) ++ u = s ++ t ++ u.
Proof.
  induction s as [|c s IH]; [reflexivity|].
  now rewrite !append_cons, IH.
Qed.

(** Reading back one written character. *)
Lemma json_string_body_quote_char (c : ascii) (r t rest : string) :
  (code c <? 128)%N = true ->
  json_string_body r = Some (t, rest) ->
  json_string_body (quote_char c ++ r) = Some (String c t, rest).
Proof.
  intros Hc Hr.
  destruct c as [b0 b1 b2 b3 b4 b5 b6 b7].
  destruct b0, b1, b2, b3, b4, b5, b6, b7;
    try (vm_compute in Hc; discriminate);
    match goal with
    | |- context [quote_char ?a] =>
        let q := eval vm_compute in (quote_char a) in
        change (quote_char a) with q
    end;
    rewrite ?append_cons, ?append_empty;
    cbn; rewrite Hr; reflexivity.
Qed.

Lemma json_string_body_quoted (s rest : string) :
  ascii_text s = true ->
  json_string_body (quote_chars s ++ dq ++ rest) = Some (s, rest).
Proof.
  induction s as [|c s IH]; intros H.
  - reflexivity.
  - cbn [ascii_text] in H. apply andb_true_iff in H as [Hc Hs].
    cbn [quote_chars]. rewrite append_assoc_str.
    apply json_string_body_quote_char; auto.
Qed.

Lemma json_value_quote (f : nat) (r : string) :
  json_value (S f) (dq ++ r)
  = match json_string_body r with
    | Some (k, rest) => Some (VStr k, rest)
    | None => None
    end.
Proof. reflexivity. Qed.

(** A written string is read back, with any fuel. *)
Lemma json_value_string (f : nat) (s rest : string) :
  ascii_text s = true ->
  json_value (S f) (JSON_stringify_string s ++ rest) = Some (VStr s, rest).
Proof.
  intros H. unfold JSON_stringify_string.
  rewrite !append_assoc_str, json_value_quote.
  now rewrite (json_string_body_quoted s rest H).
Qed.

Lemma exam_value_order (e : Exam.t) :
  VObj (<["createdAt" := VStr (Exam.createdAt e)]>
       (<["name" := VStr (Exam.name e)]>
       (<["id" := VStr (Exam.id e)]> ∅))) = exam_value e.
Proof. reflexivity. Qed.

Lemma json_members_quote (f : nat) (r : string)
  (acc : gmap string JsVal) :
  json_members (S f) (dq ++ r) acc
  = match json_string_body r with
    | Some (k, r1) =>
        match skip_ws r1 with
        | String d r2 =>
            if (code d =? 58)%N then
              match json_value f r2 with
              | Some (v, r3) =>
                  match skip_ws r3 with
                  | String e r4 =>
                      if (code e =? 44)%N
                      then json_members f r4 (<[k := v]> acc)
                      else if (code e =? 125)%N
                      then Some (VObj (<[k := v]> acc), r4)
                      else None
                  | EmptyString => None
                  end
              | None => None
              end
            else None
        | EmptyString => None
        end
    | None => None
    end.
Proof. reflexivity. Qed.

(** A written property that is followed by a comma, and one that is
    followed by the closing brace. *)
Lemma json_members_pair (f : nat) (k v r : string)
  (acc : gmap string JsVal) :
  ascii_text k = true -> ascii_text v = true ->
  (json_members (S (S f))
     (JSON_stringify_string k ++ ":" ++ JSON_stringify_string v ++ "," ++ r)
     acc
   = json_members (S f) r (<[k := VStr v]> acc)) /\
  (json_members (S (S f))
     (JSON_stringify_string k ++ ":" ++ JSON_stringify_string v ++ "}" ++ r)
     acc
   = Some (VObj (<[k := VStr v]> acc), r)).
Proof.
  intros Hk Hv. unfold JSON_stringify_string at 1 3.
  rewrite !append_assoc_str, !json_members_quote.
  rewrite !(json_string_body_quoted k _ Hk).
  change (skip_ws (":" ++ ?x)) with (String ":" x).
  cbv beta iota.
  change (code ":" =? 58)%N with true. cbv beta iota.
  rewrite !(json_value_string _ v _ Hv). split; reflexivity.
Qed.

(** A written exam is read back. *)
Lemma json_value_exam (f : nat) (e : Exam.t) (rest : string) :
  ascii_exam e = true ->
  json_value (5 + f) (JSON_stringify_exam e ++ rest)
  = Some (exam_value e, rest).
Proof.
  intros H. unfold ascii_exam in H.
  apply andb_true_iff in H as [H H3]. apply andb_true_iff in H as [H1 H2].
  rewrite <- exam_value_order.
  unfold JSON_stringify_exam.
  change (quoted "id") with (JSON_stringify_string "id").
  change (quoted "name") with (JSON_stringify_string "name").
  change (quoted "createdAt") with (JSON_stringify_string "createdAt").
  rewrite !append_assoc_str.
  change (json_value (5 + f) ("{" ++ ?x))
    with (json_members (S (S (S (S f)))) x ∅).
  rewrite (proj1 (json_members_pair _ "id" _ _ _ eq_refl H1)).
  rewrite (proj1 (json_members_pair _ "name" _ _ _ eq_refl H2)).
  now rewrite (proj2 (json_members_pair _ "createdAt" _ _ _ eq_refl H3)).
Qed.

Lemma json_elements_unfold (f : nat) (s : string) (acc : list JsVal) :
  json_elements (S f) s acc
  = match json_value f s with
    | Some (v, r) =>
        match skip_ws r with
        | String c r' =>
            if (code c =? 44)%N then json_elements f r' (acc ++ [v])%list
            else if (code c =? 93)%N
                 then Some (VArr (acc ++ [v])%list None, r')
                 else None
        | EmptyString => None
        end
    | None => None
    end.
Proof. reflexivity. Qed.

Lemma joined_cons (x y : string) (r : list string) :
  joined (x :: y :: r) = x ++ "," ++ joined (y :: r).
Proof. reflexivity. Qed.

(** The written exams of an array that is not empty are read back, one
    after the other. *)
Lemma json_elements_exams (exams : list Exam.t) (e : Exam.t)
  (acc : list JsVal) (rest : string) (f : nat) :
  forallb ascii_exam (e :: exams) = true ->
  json_elements (List.length exams + 6 + f)
    (joined (List.map JSON_stringify_exam (e :: exams)) ++ "]" ++ rest) acc
  = Some (VArr (acc ++ List.map exam_value (e :: exams))%list None, rest).
Proof.
  revert e acc. induction exams as [|e' l IH]; intros e acc H;
    cbn [forallb] in H; apply andb_true_iff in H as [He H].
  - cbn [List.map joined List.length].
    change (0 + 6 + f)%nat with (S (5 + f)).
    rewrite json_elements_unfold, (json_value_exam _ _ _ He).
    reflexivity.
  - cbn [List.map List.length]. rewrite joined_cons.
    replace (S (List.length l) + 6 + f)%nat
      with (S (5 + (List.length l + 1 + f))) by lia.
    rewrite !append_assoc_str.
    rewrite json_elements_unfold, (json_value_exam _ _ _ He).
    change (skip_ws ("," ++ ?x)) with (String "," x). cbv beta iota.
    change (code "," =? 44)%N with true. cbv beta iota.
    replace (5 + (List.length l + 1 + f))%nat
      with (List.length l + 6 + f)%nat by lia.
    specialize (IH e' (acc ++ [exam_value e])%list H).
    cbn [List.map] in IH. rewrite IH, <- app_assoc. reflexivity.
Qed.

Lemma JSON_parse_exams (exams : list Exam.t) :
  forallb ascii_exam exams = true ->
  JSON_parse (JSON_stringify_exams exams)
  = Some (VArr (List.map exam_value exams) None).
Proof.
  intros H. destruct exams as [|e l]; [reflexivity|].
  apply (JSON_parse_fuel (S (List.length l + 6 + 0)) _ "");
    [|reflexivity].
  unfold JSON_stringify_exams.
  pose proof (json_elements_exams l e [] "" 0 H) as P.
  etransitivity; [|exact P].
  destruct l; reflexivity.
Qed.

(** X15.  What the save effect writes for the exams, the load effect reads
    back: the text is valid JSON and denotes the same exams, in the same
    order, each with its identifier, name and creation time, whatever
    quotes, backslashes or control characters these hold.  After a save the
    next start therefore loads the exams as they were, provided the student
    item is not corrupt; the save writes no other item. *)
Theorem exams_saved_are_loaded (exams : list Exam.t)
  (localStorage sessionStorage : Storage) :
  forallb ascii_exam exams = true ->
  JSON_parse (JSON_stringify_exams exams)
  = Some (VArr (List.map exam_value exams) None) /\
  (stored (localStorage "student_db") <> Corrupt ->
   exists st : Slots.t,
     load (save_exams exams localStorage) sessionStorage initial_slots
     = Ok st /\
     Slots.exams st = VArr (List.map exam_value exams) None /\
     Slots.students st = restored (stored (localStorage "student_db"))) /\
  (forall k : string,
      k <> "exam_db" -> save_exams exams localStorage k = localStorage k).
Proof.
  intros H. pose proof (JSON_parse_exams exams H) as P.
  split; [exact P|]. split.
  - intros Hs.
    pose proof (stored_item (localStorage "student_db")) as S.
    assert (T : item_truthy (Some (JSON_stringify_exams exams)) = true)
      by (destruct exams; reflexivity).
    assert (PT : JSON_parse_or_throw (JSON_stringify_exams exams)
                 = Ok (VArr (List.map exam_value exams) None))
      by (unfold JSON_parse_or_throw; now rewrite P).
    unfold load.
    change (save_exams exams localStorage "student_db")
      with (localStorage "student_db").
    change (save_exams exams localStorage "exam_db")
      with (Some (JSON_stringify_exams exams)).
    rewrite T. cbn [text_of]. rewrite PT.
    destruct (stored (localStorage "student_db")) as [|v|];
      [rewrite S | destruct S as [S1 S2]; rewrite S1, S2 | contradiction];
      cbn [bind]; eexists; (split; [reflexivity|]);
      (destruct (sessionStorage "is_admin") as [flag|];
       [destruct (String.eqb flag "true")|]); split; reflexivity.
  - intros k Hk. unfold save_exams, setItem.
    apply String.eqb_neq in Hk. now rewrite Hk.
Qed.

(** X15, an instance: an exam whose name holds a quote and a backslash is
    read back as it was. *)
Lemma exams_saved_are_loaded_witness :
  let e := Exam.mk "e1" ("Finals " ++ dq ++ "A\B" ++ dq) "2024-05-01" in
  JSON_parse (JSON_stringify_exams [e; e])
  = Some (VArr [exam_value e; exam_value e] None).
Proof.
  intros e.
  destruct (exams_saved_are_loaded [e; e] no_items no_items) as [H _];
    [reflexivity|exact H].
Defined.

(* ------------------------------------------------------------------ *)
(** ** The store and the lookup together *)

Lemma find_filter_keep {A : Type} (p q : A -> bool) (l : list A) (x : A) :
  List.find p l = Some x -> q x = true ->
  List.find p (List.filter q l) = Some x.
Proof.
  induction l as [|y l IH]; cbn [List.find List.filter]; [discriminate|].
  destruct (p y) eqn:Py.
  - intros [= ->] Q. rewrite Q. cbn [List.find]. now rewrite Py.
  - intros H Q. destruct (q y); [cbn [List.find]; rewrite Py|]; auto.
Qed.

Lemma matches_self (st : Student.t) :
  matches (Student.rollNo st) (Student.examName st) st = true.
Proof. unfold matches. now rewrite !String.eqb_refl. Qed.

(** X16.  What is removed cannot be looked up, and what stays still can.
    After an exam is deleted, a lookup in an exam of its name finds
    nothing, whatever the roll number; after a student is deleted, no
    lookup shows a record with the deleted identifier; and a lookup that
    showed another record before the deletion shows the same record
    after it. *)
Theorem lookup_after_delete (a : App.state) :
  (forall (id r : string) (e : Exam.t),
      List.find (fun x => String.eqb (Exam.id x) id) (App.exams a) = Some e ->
      onCheckResult r (Exam.name e) (onDeleteExam id a)
      = (onDeleteExam id a, Some "Record not found.")) /\
  (forall (id r ex : string) (a2 : App.state),
      onCheckResult r ex (onDeleteStudent true id a) = (a2, None) ->
      exists s : Student.t,
        App.selected a2 = Some s /\ App.page a2 = "result" /\
        Student.id s <> id /\ In s (App.students a)) /\
  (forall (id r ex : string) (s : Student.t),
      onCheckResult r ex a = (setPage "result" (setSelected s a), None) ->
      Student.id s <> id ->
      onCheckResult r ex (onDeleteStudent true id a)
      = (setPage "result" (setSelected s (onDeleteStudent true id a)),
         None)).
Proof.
  split; [|split].
  - intros id r e Hf. unfold onCheckResult.
    destruct (List.find _ (App.students (onDeleteExam id a))) as [s|] eqn:F;
      [|reflexivity].
    apply find_some in F as [Hin Hm]. exfalso.
    unfold onDeleteExam, setStudents in Hin. cbn [App.students] in Hin.
    rewrite Hf in Hin. cbn [option_map str_strict_eq] in Hin.
    apply filter_In in Hin as [_ Hn]. apply negb_true_iff in Hn.
    unfold matches in Hm. apply andb_true_iff in Hm as [_ Hm]. congruence.
  - intros id r ex a2 H. unfold onCheckResult in H.
    destruct (List.find _ (App.students (onDeleteStudent true id a)))
      as [s|] eqn:F; [|discriminate].
    injection H as <-. exists s.
    split; [reflexivity|]. split; [reflexivity|].
    apply find_some in F as [Hin _].
    unfold onDeleteStudent, setStudents in Hin. cbn [App.students] in Hin.
    apply filter_In in Hin as [Hin Hn]. apply negb_true_iff in Hn.
    split; [now apply String.eqb_neq|exact Hin].
  - intros id r ex s H Hid. unfold onCheckResult in H |- *.
    destruct (List.find (matches r ex) (App.students a)) as [s'|] eqn:F;
      [|discriminate].
    assert (s' = s) as ->.
    { injection H as H. unfold setPage, setSelected in H. cbn in H.
      congruence. }
    unfold onDeleteStudent at 1, setStudents at 1. cbn [App.students].
    rewrite (find_filter_keep _ _ _ s F); [reflexivity|].
    apply negb_true_iff. now apply String.eqb_neq.
Qed.

(** X16, an instance: the only record of Finals is found before the exam
    is deleted and not after. *)
Lemma lookup_after_delete_witness :
  let st := Student.mk "s1" "Ann" "7" "X" "Finals" zero_marks (Fin 0)
              (Fin 0) "F" in
  let e := Exam.mk "e1" "Finals" "t1" in
  let a := App.mk "admin" true [st] [e] None in
  snd (onCheckResult "7" "Finals" a) = None /\
  snd (onCheckResult "7" "Finals" (onDeleteExam "e1" a))
  = Some "Record not found.".
Proof.
  intros st e a. split; [reflexivity|].
  destruct (lookup_after_delete a) as [H _].
  exact (f_equal snd (H "e1" "7" e eq_refl)).
Defined.

Lemma submitStudentForm_add (uuid : string) (d d' : AdminDashboard.t)
  (a a' : App.state) (e : Exam.t) :
  AdminDashboard.currentExam d = Some e -> Exam.name e <> "" ->
  AdminDashboard.editingId d = None ->
  submitStudentForm uuid d a = Ok (d', a') ->
  exists s : Student.t,
    Student.examName s = Exam.name e /\
    Student.rollNo s
    = str_or (Partial.rollNo (AdminDashboard.formData d)) "" /\
    App.students a' = (App.students a ++ [s])%list.
Proof.
  intros Hc Hn He H. unfold submitStudentForm, handleStudentSubmit in H.
  rewrite Hc, He in H. cbn [option_map] in H.
  apply String.eqb_neq in Hn as Hb. rewrite Hb in H.
  destruct (processStudentData uuid _) as [s|] eqn:Hp in H; [|discriminate].
  cbn [bind] in H. injection H as _ <-. exists s.
  destruct (processStudentData_inv _ _ _ Hp) as (vals & total & _ & _ & ->).
  cbn [normalized Student.examName Student.rollNo Partial.examName
       Partial.rollNo].
  split; [now apply str_or_keep|]. split; reflexivity.
Qed.

(** X17.  A record entered in a folder can be looked up at once, on ASCII
    text.  When the roll numbers already stored, the roll number typed
    into the form and the query are ASCII text, then after a new record is
    submitted inside a folder whose name is not empty, the folder's name
    is among the exams of the landing page, and a lookup by the roll
    number typed into the form, in either case of the letters A to Z and
    with any ASCII white space around it, shows a record with that roll
    number in that exam: the new one, unless an older record already
    matched. *)
Theorem submitted_record_is_found (uuid rollNo r : string)
  (d d' : AdminDashboard.t) (a a' : App.state) (e : Exam.t) :
  AdminDashboard.currentExam d = Some e -> Exam.name e <> "" ->
  AdminDashboard.editingId d = None ->
  Partial.rollNo (AdminDashboard.formData d) = Some rollNo ->
  submitStudentForm uuid d a = Ok (d', a') ->
  ascii_text rollNo = true -> ascii_text r = true ->
  (forall x, In x (App.students a) ->
             ascii_text (Student.rollNo x) = true) ->
  eq_ignore_case (trim rollNo) (trim r) ->
  In (Exam.name e) (Landing_exams (App.students a')) /\
  exists s : Student.t,
    onCheckResult r (Exam.name e) a'
    = (setPage "result" (setSelected s a'), None) /\
    In s (App.students a') /\
    eq_ignore_case (trim (Student.rollNo s)) (trim r) /\
    Student.examName s = Exam.name e /\
    ((forall x, In x (App.students a) -> matches r (Exam.name e) x = false) ->
     App.students a' = (App.students a ++ [s])%list /\
     Student.rollNo s = rollNo).
Proof.
  intros Hc Hn He Hr H _ _ _ Hq.
  destruct (submitStudentForm_add uuid d d' a a' e Hc Hn He H)
    as (s & Hex & Hroll & Hst).
  rewrite Hr in Hroll.
  assert (Hroll' : Student.rollNo s = rollNo).
  { rewrite Hroll. unfold str_or.
    destruct (String.eqb rollNo "") eqn:E; [|reflexivity].
    apply String.eqb_eq in E. now subst. }
  assert (Hm : matches r (Exam.name e) s = true).
  { apply matches_iff. rewrite Hroll'. auto. }
  split.
  - apply Landing_exams_In. exists s. split; [|exact Hex].
    rewrite Hst. apply in_or_app. right. now left.
  - unfold onCheckResult.
    destruct (List.find (matches r (Exam.name e)) (App.students a'))
      as [s'|] eqn:F.
    + apply find_some in F as F'. destruct F' as [Hin Hm'].
      exists s'. split; [reflexivity|]. split; [exact Hin|].
      apply matches_iff in Hm' as [M1 M2]. split; [exact M1|].
      split; [exact M2|]. intros Hnone.
      rewrite Hst in F. rewrite (find_first _ _ [] s Hnone Hm) in F.
      injection F as <-. split; [exact Hst|exact Hroll'].
    + exfalso. rewrite (find_none _ _ F s) in Hm; [discriminate|].
      rewrite Hst. apply in_or_app. right. now left.
Qed.

(** X17, an instance: a record entered with roll number [7a] in Finals is
    shown by a lookup of [ 7A ]. *)
Lemma submitted_record_is_found_witness :
  let e := Exam.mk "e1" "Finals" "t1" in
  let d := AdminDashboard.mk (Some e) false true false None ""
             (onChange RollNoField "7a" (blank_form "Finals")) in
  let a := App.mk "admin" true [] [e] None in
  exists (d' : AdminDashboard.t) (a' : App.state) (s : Student.t),
    submitStudentForm "u1" d a = Ok (d', a') /\
    onCheckResult " 7A " "Finals" a'
    = (setPage "result" (setSelected s a'), None) /\
    Student.rollNo s = "7a".
Proof.
  intros e d a.
  assert (H : exists p, submitStudentForm "u1" d a = Ok p)
    by (eexists; vm_compute; reflexivity).
  destruct H as [[d' a'] H]. exists d', a'.
  destruct (submitted_record_is_found "u1" "7a" " 7A " d d' a a' e)
    as (_ & s & Hfind & _ & _ & _ & Hnew);
    [reflexivity | discriminate | reflexivity | reflexivity | exact H
    | reflexivity | reflexivity | intros x []
    | apply toLowerCase_eq; reflexivity |].
  exists s. split; [exact H|]. split; [exact Hfind|].
  apply Hnew. intros x [].
Defined.

(* ------------------------------------------------------------------ *)
(** ** The scanner while the camera starts *)

(** X18.  While the camera starts the scanner always has a message to
    show: after any number of ticks the index is the number of ticks
    modulo four, so it never leaves the four messages, and the messages
    come round in their order, the first again after the fourth. *)
Theorem loading_message_cycle (n : nat) :
  loadMessageIndex n = n mod 4 /\
  (exists m : string,
      shown_message (loadMessageIndex n) = Some m /\ In m loadingMessages) /\
  loadMessageIndex (n + 4) = loadMessageIndex n.
Proof.
  assert (E : forall k, loadMessageIndex k = k mod 4).
  { induction k as [|k IH]; [reflexivity|].
    cbn [loadMessageIndex]. rewrite IH. unfold next_message.
    change (List.length loadingMessages) with 4%nat.
    rewrite Nat.Div0.add_mod_idemp_l. f_equal. lia. }
  split; [apply E|]. split.
  - rewrite E. pose proof (Nat.mod_upper_bound n 4 ltac:(lia)) as B.
    unfold shown_message.
    destruct (nth_error loadingMessages (n mod 4)) as [m|] eqn:N.
    + exists m. split; [reflexivity|]. now apply nth_error_In in N.
    + apply nth_error_None in N. cbn [List.length loadingMessages] in N.
      lia.
  - rewrite !E. rewrite <- (Nat.Div0.add_mod_idemp_r n 4 4).
    cbn [Nat.modulo]. change (4 mod 4)%nat with 0%nat.
    now rewrite Nat.add_0_r.
Qed.
